(** * UTM controller: device communication and measurement pipeline

    A shallow embedding of the Python sources [serial_handler.py],
    [utm_controller.py], [graph_plotter.py], [utils.py] and [config.py].

    Conventions of the embedding:
    - a Python [float] is an IEEE-754 binary64 value, i.e. Rocq's primitive
      [float]; a Python [int] is a [Z];
    - a Python [str] is a [string]; the model covers the code points
      U+0000 .. U+00FF, one [ascii] per code point;
    - an object is a record, a method is a function from the record to the
      updated record;
    - everything a method does to the outside world (transport I/O, sleeping,
      threads, callbacks, dialogs, widgets) is recorded, in program order, in
      a list of [Effect]s; calls of the [logging] module are not recorded;
    - what the outside world answers (whether the port opens, whether a write
      raises, the wall clock, the operator's answer to a dialog) is an
      explicit argument; [time.sleep(s)] is recorded in milliseconds;
    - a statement that can raise yields [inl exception]; the [try]/[except]
      blocks of the source are written out. *)

From Stdlib Require Import ZArith List String Ascii Bool Lia Floats.
From Stdlib Require Import DecimalString.
Import ListNotations.

Local Open Scope string_scope.
Local Open Scope list_scope.

(** ** Python built-ins used by the sources *)

Module Py.

(** The exceptions that the modelled expressions raise. *)
Inductive Raised : Type :=
| ZeroDivisionError
| ValueError
| IndexError.

Definition newline : ascii := "010"%char.
Definition colon : ascii := ":"%char.

(** [ch.isspace()] on U+0000 .. U+00FF: TAB..CR, FS..US, SPACE, NEL, NBSP. *)
Definition isspace (a : ascii) : bool :=
  let n := N_of_ascii a in
  ((9 <=? n) && (n <=? 13) || (28 <=? n) && (n <=? 32)
   || (n =? 133) || (n =? 160))%N.

Fixpoint lstrip (s : string) : string :=
  match s with
  | EmptyString => EmptyString
  | String a r => if isspace a then lstrip r else s
  end.

Fixpoint rstrip (s : string) : string :=
  match s with
  | EmptyString => EmptyString
  | String a r =>
      match rstrip r with
      | EmptyString => if isspace a then EmptyString else String a EmptyString
      | r' => String a r'
      end
  end.

(** [s.strip()] *)
Definition strip (s : string) : string := lstrip (rstrip s).

(** [c in s] for a one-character [c] *)
Fixpoint contains (c : ascii) (s : string) : bool :=
  match s with
  | EmptyString => false
  | String a r => if Ascii.eqb a c then true else contains c r
  end.

(** [s.split(c, 1)]: the text before the first [c], and the text after it
    when there is one. *)
Fixpoint split1 (c : ascii) (s : string) : string * option string :=
  match s with
  | EmptyString => (EmptyString, None)
  | String a r =>
      if Ascii.eqb a c then (EmptyString, Some r)
      else let (h, t) := split1 c r in (String a h, t)
  end.

(** [s.split(c)]: all the fields, at least one. *)
Fixpoint split (c : ascii) (s : string) : list string :=
  match s with
  | EmptyString => [EmptyString]
  | String a r =>
      if Ascii.eqb a c then EmptyString :: split c r
      else match split c r with
           | h :: t => String a h :: t
           | [] => [String a EmptyString]
           end
  end.

(** [l[i]] for [i >= 0] *)
Definition index {A : Type} (l : list A) (i : nat) : Raised + A :=
  match nth_error l i with
  | Some x => inr x
  | None => inl IndexError
  end.

(** [s.startswith(p)] *)
Definition startswith (s p : string) : bool := String.prefix p s.

(** truth value of a string: non-empty *)
Definition truthy (s : string) : bool :=
  match s with EmptyString => false | _ => true end.

(** [f"{n}"] for an [int] *)
Definition str_of_int (n : Z) : string := NilZero.string_of_int (Z.to_int n).

(** [x / y] on floats: raises on a zero divisor, never otherwise. *)
Definition truediv (x y : float) : Raised + float :=
  if PrimFloat.eqb y 0%float then inl ZeroDivisionError
  else inr (PrimFloat.div x y).

(** [math.isnan], [math.isinf] as [numpy] applies them elementwise *)
Definition isnan (x : float) : bool := PrimFloat.is_nan x.
Definition isinf (x : float) : bool := PrimFloat.is_infinity x.

(** [float(n)] for a non-negative [int] below 2^63 *)
Definition float_of_int (n : Z) : float :=
  PrimFloat.of_uint63 (Uint63.of_Z n).

(** [int(x)] for a finite float: truncation towards zero. *)
Definition int_of_float (x : float) : Z :=
  match Prim2SF x with
  | S754_finite s m e =>
      let v := if (0 <=? e)%Z then (Z.pos m * 2 ^ e)%Z
               else Z.shiftr (Z.pos m) (- e) in
      if s then (- v)%Z else v
  | _ => 0%Z
  end.

(** [l[-k:]] for [k > 0]: the last [k] elements (all of [l] when it is
    shorter); [l[-0:]] is [l[0:]], the whole list. *)
Definition last_n {A : Type} (k : nat) (l : list A) : list A :=
  match k with
  | O => l
  | _ => skipn (List.length l - k) l
  end.

(** [l[:k]] for any [int] [k] *)
Definition slice_to {A : Type} (k : Z) (l : list A) : list A :=
  if (0 <=? k)%Z then firstn (Z.to_nat k) l
  else firstn (List.length l - Z.to_nat (- k)) l.

End Py.

(** ** config.py *)

Module UTMConfig.
Definition DEFAULT_BAUDRATE : Z := 9600.
Definition SERIAL_TIMEOUT : Z := 1.
Definition RECONNECT_DELAY : Z := 2.
Definition MAX_LOAD : float := 10000%float.
Definition MAX_POSITION : float := 100%float.
Definition MIN_POSITION : float := (-5)%float.
Definition MIN_SPEED : Z := 1.
Definition MAX_SPEED : Z := 200.
Definition PLOT_REFRESH_RATE : Z := 2.
Definition MAX_PLOT_POINTS : nat := 1000.
End UTMConfig.

(** ** Observable effects *)

Inductive DialogKind : Type := ShowInfo | ShowWarning | ShowError.

(** A safety violation, one constructor per message of
    [SafetyMonitor.check_safety_limits] with the two numbers it formats. *)
Inductive Violation : Type :=
| LoadExceededMaximum (load max_load : float)
| PositionExceededMaximum (position max_position : float)
| PositionBelowMinimum (position min_position : float).

Inductive Effect : Type :=
| TransportOpen (port : string) (baudrate : Z)
| TransportClose
| TransportWrite (payload : string)
| TransportFlush
| Sleep (milliseconds : Z)
| StartReadThread
| JoinReadThread
| StartReconnectThread
| ConnectionCallback (connected : bool)
| DataCallback (data : string)
| MessageBox (kind : DialogKind) (title message : string)
| AskYesNo (title message : string)
| HighlightButton (code : string)
| UpdateCurrentSpeed (speed : Z)
| UpdateLoadDisplay (load : float)
| UpdatePositionDisplay (position : float)
| UpdateResultsDisplay
| SchedulePlotUpdate
| SafetyCallback (observer : nat) (violations : list Violation).

Definition is_transport_write (e : Effect) : bool :=
  match e with TransportWrite _ => true | _ => false end.

Definition is_transport_open (e : Effect) : bool :=
  match e with TransportOpen _ _ => true | _ => false end.

Definition is_start_reconnect (e : Effect) : bool :=
  match e with StartReconnectThread => true | _ => false end.

(** The transport writes of a trace, in order. *)
Definition transport_writes (t : list Effect) : list Effect :=
  filter is_transport_write t.

(** The open attempts of a trace, in order. *)
Definition open_attempts (t : list Effect) : list Effect :=
  filter is_transport_open t.

(** ** serial_handler.py *)

Module SerialHandler.

(** The [serial.Serial] object as far as the handler looks at it. *)
Record Connection : Type := { is_open : bool }.

Record state : Type := mk {
  connection : option Connection;
  connected : bool;
  port : option string;
  baudrate : Z;
  timeout : Z;
  read_thread : bool;          (* a read thread has been started *)
  running : bool;
  data_callback : bool;        (* a data callback is registered *)
  connection_callback : bool;  (* a connection callback is registered *)
  receive_buffer : string
}.

(** [__init__] *)
Definition init : state :=
  {| connection := None; connected := false; port := None;
     baudrate := 9600; timeout := 1; read_thread := false;
     running := false; data_callback := false;
     connection_callback := false; receive_buffer := "" |}.

Definition with_connection (v : option Connection) (h : state) : state :=
  mk v (connected h) (port h) (baudrate h) (timeout h) (read_thread h)
     (running h) (data_callback h) (connection_callback h) (receive_buffer h).
Definition with_connected (v : bool) (h : state) : state :=
  mk (connection h) v (port h) (baudrate h) (timeout h) (read_thread h)
     (running h) (data_callback h) (connection_callback h) (receive_buffer h).
Definition with_port (p : string) (b : Z) (h : state) : state :=
  mk (connection h) (connected h) (Some p) b (timeout h) (read_thread h)
     (running h) (data_callback h) (connection_callback h) (receive_buffer h).
Definition with_read_thread (v : bool) (h : state) : state :=
  mk (connection h) (connected h) (port h) (baudrate h) (timeout h) v
     (running h) (data_callback h) (connection_callback h) (receive_buffer h).
Definition with_running (v : bool) (h : state) : state :=
  mk (connection h) (connected h) (port h) (baudrate h) (timeout h)
     (read_thread h) v (data_callback h) (connection_callback h)
     (receive_buffer h).
Definition with_receive_buffer (v : string) (h : state) : state :=
  mk (connection h) (connected h) (port h) (baudrate h) (timeout h)
     (read_thread h) (running h) (data_callback h) (connection_callback h) v.

Definition set_data_callback (h : state) : state :=
  mk (connection h) (connected h) (port h) (baudrate h) (timeout h)
     (read_thread h) (running h) true (connection_callback h)
     (receive_buffer h).
Definition set_connection_callback (h : state) : state :=
  mk (connection h) (connected h) (port h) (baudrate h) (timeout h)
     (read_thread h) (running h) (data_callback h) true (receive_buffer h).

(** What the serial port answers. *)
Inductive OpenOutcome : Type :=
| OpenRaises                      (* [serial.Serial(...)] raises *)
| OpenReturns (is_open : bool).   (* it returns an object, open or not *)

Inductive WriteOutcome : Type := WriteOk | WriteRaises | FlushRaises.

Inductive ReadOutcome : Type :=
| NothingWaiting               (* [in_waiting == 0] *)
| LineRead (raw : string)      (* [readline().decode('utf-8')] *)
| ReadRaises                   (* a [serial.SerialException] *)
| DecodeRaises.                (* any other exception, as of [decode] *)

Record ConnectEnv : Type := { open_outcome : OpenOutcome; close_raises : bool }.

(** [if self.connection_callback: self.connection_callback(v)] *)
Definition notify_connection (h : state) (v : bool) : list Effect :=
  if connection_callback h then [ConnectionCallback v] else [].

(** [is_connected] *)
Definition is_connected (h : state) : bool :=
  connected h &&
  match connection h with
  | Some c => is_open c
  | None => false
  end.

(** [disconnect]: an exception of [close] leaves the [try] block at once.
    The read thread is taken to be alive when it was started. *)
Definition disconnect (close_raises : bool) (h : state) : state * list Effect :=
  let h1 := with_connected false (with_running false h) in
  let closing :=
    match connection h1 with Some c => is_open c | None => false end in
  if closing && close_raises then (h1, [TransportClose])
  else
    let h2 := if closing then with_connection None h1 else h1 in
    (h2,
     (if closing then [TransportClose] else [])
     ++ (if read_thread h2 then [JoinReadThread] else [])
     ++ notify_connection h2 false).

(** [connect] *)
Definition connect (env : ConnectEnv) (h : state) (p : string) (b : Z)
  : state * bool * list Effect :=
  let (h1, e1) :=
    if connected h then disconnect (close_raises env) h else (h, []) in
  let h2 := with_port p b h1 in
  match open_outcome env with
  | OpenRaises =>
      let h3 := with_connected false h2 in
      (h3, false, e1 ++ [TransportOpen p b] ++ notify_connection h3 false)
  | OpenReturns o =>
      let h3 := with_connection (Some {| is_open := o |}) h2 in
      if o then
        let h4 := with_read_thread true
                    (with_running true (with_connected true h3)) in
        (h4, true,
         e1 ++ [TransportOpen p b; Sleep 2000; StartReadThread]
            ++ notify_connection h4 true)
      else
        let h4 := with_connected false h3 in
        (h4, false,
         e1 ++ [TransportOpen p b; Sleep 2000] ++ notify_connection h4 false)
  end.

(** [_handle_connection_error] *)
Definition _handle_connection_error (h : state) : state * list Effect :=
  let h1 := with_connected false h in
  let e1 := notify_connection h1 false in
  match connection h1 with
  | Some _ =>
      (with_connection None h1, e1 ++ [TransportClose; StartReconnectThread])
  | None => (h1, e1 ++ [StartReconnectThread])
  end.

(** [send_command] *)
Definition send_command (w : WriteOutcome) (h : state) (command : string)
  : state * bool * list Effect :=
  if negb (is_connected h) then
    let (h1, e1) := _handle_connection_error h in (h1, false, e1)
  else
    let cmd_str := (command ++ String Py.newline "")%string in
    match w with
    | WriteOk => (h, true, [TransportWrite cmd_str; TransportFlush])
    | WriteRaises =>
        let (h1, e1) := _handle_connection_error h in
        (h1, false, TransportWrite cmd_str :: e1)
    | FlushRaises =>
        let (h1, e1) := _handle_connection_error h in
        (h1, false, TransportWrite cmd_str :: TransportFlush :: e1)
    end.

(** [read_data] *)
Definition read_data (r : ReadOutcome) (h : state)
  : state * option string * list Effect :=
  if negb (is_connected h) then (h, None, [])
  else
    match r with
    | NothingWaiting => (h, None, [])
    | LineRead raw =>
        let data := Py.strip raw in
        (h, if Py.truthy data then Some data else None, [])
    | ReadRaises | DecodeRaises =>
        let (h1, e1) := _handle_connection_error h in (h1, None, e1)
    end.

(** The [while '\n' in self.receive_buffer] loop of
    [_process_received_data]; every turn removes a line and its newline
    from the buffer, so [S (length buffer)] turns are enough. *)
Fixpoint split_loop (fuel : nat) (cb : bool) (buffer : string)
  : string * list Effect :=
  match fuel with
  | O => (buffer, [])
  | S fuel' =>
      if Py.contains Py.newline buffer then
        match Py.split1 Py.newline buffer with
        | (line, Some rest) =>
            let line := Py.strip line in
            let e := if Py.truthy line && cb then [DataCallback line] else [] in
            let (buffer', es) := split_loop fuel' cb rest in
            (buffer', e ++ es)
        | (_, None) => (buffer, [])
        end
      else (buffer, [])
  end.

(** [_process_received_data]; the callback the controller registers,
    [handle_serial_data], catches its own exceptions, so the [except] clause
    is never entered. *)
Definition _process_received_data (h : state) (data : string)
  : state * list Effect :=
  let buffer := (receive_buffer h ++ data)%string in
  let (buffer', lines) :=
    split_loop (S (String.length buffer)) (data_callback h) buffer in
  (with_receive_buffer buffer' h,
   lines ++ (if Py.truthy data && data_callback h then [DataCallback data]
             else [])).

(** One turn of the [while] loop of [_attempt_reconnection]; [remaining] is
    [max_attempts - attempt], and [envs k] is what the port answers to the
    attempt with that many attempts still to come after it. *)
Fixpoint reconnect_loop (remaining : nat) (envs : nat -> ConnectEnv)
                        (h : state) (p : string) : state * list Effect :=
  match remaining with
  | O => (h, [])
  | S remaining' =>
      if connected h then (h, [])
      else
        let '(h1, ok, e1) := connect (envs remaining') h p (baudrate h) in
        if ok then (h1, Sleep 2000 :: e1)
        else
          let (h2, e2) := reconnect_loop remaining' envs h1 p in
          (h2, Sleep 2000 :: e1 ++ e2)
  end.

Definition max_attempts : nat := 3.

(** [_attempt_reconnection], the body of the reconnection thread *)
Definition _attempt_reconnection (envs : nat -> ConnectEnv) (h : state)
  : state * list Effect :=
  match port h with
  | None => (h, [])
  | Some p =>
      if Py.truthy p then reconnect_loop max_attempts envs h p else (h, [])
  end.

(** One turn of [_read_loop], entered while [running and connected]; the
    boolean tells whether the loop goes on. *)
Definition _read_loop_turn (r : ReadOutcome) (h : state)
  : state * bool * list Effect :=
  match connection h with
  | Some {| is_open := true |} =>
      match r with
      | NothingWaiting => (h, true, [Sleep 10])
      | LineRead raw =>
          let line := Py.strip raw in
          if Py.truthy line then
            let (h1, e1) := _process_received_data h line in
            (h1, true, e1 ++ [Sleep 10])
          else (h, true, [Sleep 10])
      | ReadRaises =>
          let (h1, e1) := _handle_connection_error h in (h1, false, e1)
      | DecodeRaises => (h, true, [Sleep 100])
      end
  | _ => let (h1, e1) := _handle_connection_error h in (h1, false, e1)
  end.

End SerialHandler.

(** ** The [numpy] operations used by the analysis, on one-dimensional
    [float64] arrays *)

Module Np.

(** [~(np.isnan(a) | np.isnan(b) | np.isinf(a) | np.isinf(b))]; arrays of
    different lengths (neither of length one) do not broadcast. *)
Definition finite_mask (a b : list float) : Py.Raised + list bool :=
  if (List.length a =? List.length b)%nat then
    inr (map (fun '(x, y) =>
                negb (Py.isnan x || Py.isnan y || Py.isinf x || Py.isinf y))
             (combine a b))
  else inl Py.ValueError.

(** [a[mask]] for a boolean mask of the length of [a] *)
Fixpoint select (mask : list bool) (a : list float) : list float :=
  match mask, a with
  | m :: mask', x :: a' => if m then x :: select mask' a' else select mask' a'
  | _, _ => []
  end.

(** [np.max(a)]; the arrays it is applied to hold no NaN. *)
Definition amax (a : list float) : Py.Raised + float :=
  match a with
  | [] => inl Py.ValueError
  | x :: a' =>
      inr (fold_left (fun m y => if PrimFloat.ltb m y then y else m) a' x)
  end.

(** [a[-1]] *)
Definition last (a : list float) : Py.Raised + float :=
  match List.rev a with
  | [] => inl Py.IndexError
  | x :: _ => inr x
  end.

(** [a - b] for arrays of one length *)
Definition sub (a b : list float) : list float :=
  map (fun '(x, y) => PrimFloat.sub x y) (combine a b).

(** [np.where(a > 0)[0]]: the indices of the positive entries, ascending *)
Fixpoint where_positive_from (i : nat) (a : list float) : list nat :=
  match a with
  | [] => []
  | x :: a' =>
      if PrimFloat.ltb 0%float x then i :: where_positive_from (S i) a'
      else where_positive_from (S i) a'
  end.

Definition where_positive (a : list float) : list nat :=
  where_positive_from 0 a.

End Np.

(** ** graph_plotter.py *)

Module MaterialTestPlotter.

(** The fields of the plotter that carry data; [material_type] and
    [test_mode] are only displayed and are left out. *)
Record state : Type := mk {
  time_data : list float;
  load_data : list float;
  position_data : list float;
  stress_data : list float;
  strain_data : list float;
  displacement_data : list float;
  specimen_area : float;
  gauge_length : float;
  youngs_modulus : float;
  yield_strength : float;
  ultimate_strength : float;
  fracture_strength : float;
  elongation_at_break : float;
  is_plotting : bool
}.

(** [__init__] *)
Definition init : state :=
  {| time_data := []; load_data := []; position_data := [];
     stress_data := []; strain_data := []; displacement_data := [];
     specimen_area := 1%float; gauge_length := 25%float;
     youngs_modulus := 0%float; yield_strength := 0%float;
     ultimate_strength := 0%float; fracture_strength := 0%float;
     elongation_at_break := 0%float; is_plotting := false |}.

Definition with_series (t l p s e d : list float) (x : state) : state :=
  mk t l p s e d (specimen_area x) (gauge_length x) (youngs_modulus x)
     (yield_strength x) (ultimate_strength x) (fracture_strength x)
     (elongation_at_break x) (is_plotting x).

Definition with_youngs_modulus (v : float) (x : state) : state :=
  mk (time_data x) (load_data x) (position_data x) (stress_data x)
     (strain_data x) (displacement_data x) (specimen_area x) (gauge_length x)
     v (yield_strength x) (ultimate_strength x) (fracture_strength x)
     (elongation_at_break x) (is_plotting x).
Definition with_yield_strength (v : float) (x : state) : state :=
  mk (time_data x) (load_data x) (position_data x) (stress_data x)
     (strain_data x) (displacement_data x) (specimen_area x) (gauge_length x)
     (youngs_modulus x) v (ultimate_strength x) (fracture_strength x)
     (elongation_at_break x) (is_plotting x).
Definition with_ultimate_strength (v : float) (x : state) : state :=
  mk (time_data x) (load_data x) (position_data x) (stress_data x)
     (strain_data x) (displacement_data x) (specimen_area x) (gauge_length x)
     (youngs_modulus x) (yield_strength x) v (fracture_strength x)
     (elongation_at_break x) (is_plotting x).
Definition with_fracture_strength (v : float) (x : state) : state :=
  mk (time_data x) (load_data x) (position_data x) (stress_data x)
     (strain_data x) (displacement_data x) (specimen_area x) (gauge_length x)
     (youngs_modulus x) (yield_strength x) (ultimate_strength x) v
     (elongation_at_break x) (is_plotting x).
Definition with_elongation_at_break (v : float) (x : state) : state :=
  mk (time_data x) (load_data x) (position_data x) (stress_data x)
     (strain_data x) (displacement_data x) (specimen_area x) (gauge_length x)
     (youngs_modulus x) (yield_strength x) (ultimate_strength x)
     (fracture_strength x) v (is_plotting x).

(** [start_plotting]; the two numbers are what the entry fields hold. *)
Definition start_plotting (area gauge : float) (x : state) : state :=
  if is_plotting x then x
  else mk (time_data x) (load_data x) (position_data x) (stress_data x)
          (strain_data x) (displacement_data x) area gauge (youngs_modulus x)
          (yield_strength x) (ultimate_strength x) (fracture_strength x)
          (elongation_at_break x) true.

(** [stop_plotting] *)
Definition stop_plotting (x : state) : state :=
  mk (time_data x) (load_data x) (position_data x) (stress_data x)
     (strain_data x) (displacement_data x) (specimen_area x) (gauge_length x)
     (youngs_modulus x) (yield_strength x) (ultimate_strength x)
     (fracture_strength x) (elongation_at_break x) false.

(** [clear_plot_data] *)
Definition clear_plot_data (x : state) : state :=
  with_series [] [] [] [] [] [] x.

(** [load / self.specimen_area if self.specimen_area > 0 else 0] *)
Definition stress_of (x : state) (load : float) : Py.Raised + float :=
  if PrimFloat.ltb 0%float (specimen_area x)
  then Py.truediv load (specimen_area x)
  else inr 0%float.

(** [(position / self.gauge_length) * 100 if self.gauge_length > 0 else 0] *)
Definition strain_of (x : state) (position : float) : Py.Raised + float :=
  if PrimFloat.ltb 0%float (gauge_length x)
  then match Py.truediv position (gauge_length x) with
       | inl e => inl e
       | inr q => inr (PrimFloat.mul q 100%float)
       end
  else inr 0%float.

(** [add_data_point]: the state it leaves, and the exception it raises if
    any; the three raw lists are appended to before the derived values are
    computed. *)
Definition add_data_point (x : state) (timestamp load position : float)
  : state * option Py.Raised :=
  if is_plotting x then
    let x1 := with_series (time_data x ++ [timestamp]) (load_data x ++ [load])
                (position_data x ++ [position]) (stress_data x)
                (strain_data x) (displacement_data x) x in
    match stress_of x1 load with
    | inl e => (x1, Some e)
    | inr stress =>
        match strain_of x1 position with
        | inl e => (x1, Some e)
        | inr strain =>
            (with_series (time_data x1) (load_data x1) (position_data x1)
               (stress_data x1 ++ [stress]) (strain_data x1 ++ [strain])
               (displacement_data x1 ++ [position]) x1, None)
        end
    end
  else (x, None).

(** The [# Limit data points] block of [_plot_update_loop]. *)
Definition limit_data_points (max_points : nat) (x : state) : state :=
  if (max_points <? List.length (time_data x))%nat then
    with_series (Py.last_n max_points (time_data x))
      (Py.last_n max_points (load_data x))
      (Py.last_n max_points (position_data x))
      (Py.last_n max_points (stress_data x))
      (Py.last_n max_points (strain_data x))
      (Py.last_n max_points (displacement_data x)) x
  else x.

(** One turn of the [while self.is_plotting] loop of [_plot_update_loop],
    entered with [is_plotting] true: [current_time] is the clock reading,
    [load] and [position] are the controller's latest values.  An exception
    ends the loop (the second component). *)
Definition _plot_update_turn (x : state) (current_time load position : float)
  : state * option Py.Raised * list Effect :=
  let x1 := with_series (time_data x ++ [current_time]) (load_data x ++ [load])
              (position_data x ++ [position]) (stress_data x)
              (strain_data x) (displacement_data x) x in
  match stress_of x1 load with
  | inl e => (x1, Some e, [])
  | inr stress =>
      match strain_of x1 position with
      | inl e => (x1, Some e, [])
      | inr strain =>
          let x2 := with_series (time_data x1) (load_data x1)
                      (position_data x1) (stress_data x1 ++ [stress])
                      (strain_data x1 ++ [strain])
                      (displacement_data x1 ++ [position]) x1 in
          (limit_data_points UTMConfig.MAX_PLOT_POINTS x2, None,
           [SchedulePlotUpdate; Sleep (1000 / UTMConfig.PLOT_REFRESH_RATE)])
      end
  end.

(** *** [calculate_material_properties] *)

Section Analysis.

(** [scipy.stats.linregress(x, y)]: the slope of the least-squares line
    through the points, or the exception it raises.  The function belongs
    to SciPy, not to this repository. *)
Variable linregress : list float -> list float -> Py.Raised + float.

(** The double closest to 0.2, which is what the literal [0.2] denotes. *)
Definition point_two : float := 0x1.999999999999ap-3%float.

(** [int(len(stress) * 0.2)] *)
Definition twenty_percent (n : nat) : Z :=
  Py.int_of_float (PrimFloat.mul (Py.float_of_int (Z.of_nat n)) point_two).

(** [linear_end] after the [if linear_end < 5] adjustment *)
Definition linear_end (n : nat) : Z :=
  let linear_end := twenty_percent n in
  if (linear_end <? 5)%Z then Z.min (Z.of_nat n) 5 else linear_end.

(** [stress[:linear_end]], [strain[:linear_end]] *)
Definition linear_region (a : list float) : list float :=
  Py.slice_to (linear_end (List.length a)) a.

(** The value assigned to [self.youngs_modulus], or the exception of
    [linregress]. *)
Definition youngs_modulus_of (stress strain : list float)
  : Py.Raised + float :=
  let linear_end := linear_end (List.length stress) in
  let linear_stress := Py.slice_to linear_end stress in
  let linear_strain := Py.slice_to linear_end strain in
  if (2 <=? List.length linear_stress)%nat then
    match linregress linear_strain linear_stress with
    | inl e => inl e
    | inr slope => inr (PrimFloat.mul slope 1000%float)
    end
  else inr 0%float.

(** The value assigned to [self.yield_strength] (0.2 % offset method). *)
Definition yield_strength_of (modulus : float) (stress strain : list float)
  : Py.Raised + float :=
  let offset_strain := map (fun e => PrimFloat.add e point_two) strain in
  let offset_stress :=
    map (fun e => PrimFloat.div (PrimFloat.mul modulus e) 1000%float)
        offset_strain in
  let diff := Np.sub stress offset_stress in
  match Np.where_positive diff with
  | i :: _ => Py.index stress i
  | [] => inr 0%float
  end.

(** The assignments of the [try] block once the filtered arrays are long
    enough, in program order; an exception leaves the fields assigned so
    far as they are. *)
Definition assign_properties (x : state) (stress strain : list float)
  : state * option Py.Raised :=
  match youngs_modulus_of stress strain with
  | inl e => (x, Some e)
  | inr modulus =>
      let x1 := with_youngs_modulus modulus x in
      match yield_strength_of (youngs_modulus x1) stress strain with
      | inl e => (x1, Some e)
      | inr ys =>
          let x2 := with_yield_strength ys x1 in
          match Np.amax stress with
          | inl e => (x2, Some e)
          | inr us =>
              let x3 := with_ultimate_strength us x2 in
              match Np.last stress with
              | inl e => (x3, Some e)
              | inr fs =>
                  let x4 := with_fracture_strength fs x3 in
                  match Np.last strain with
                  | inl e => (x4, Some e)
                  | inr el => (with_elongation_at_break el x4, None)
                  end
              end
          end
      end
  end.

Definition insufficient_data_warning : Effect :=
  MessageBox ShowWarning "Insufficient Data"
             "Not enough data points for analysis".
Definition invalid_data_warning : Effect :=
  MessageBox ShowWarning "Invalid Data"
             "Not enough valid data points for analysis".
(** The text of the exception that the dialog appends is left out. *)
Definition calculation_error : Effect :=
  MessageBox ShowError "Calculation Error" "Error calculating properties".

Definition calculate_material_properties (x : state) : state * list Effect :=
  if (List.length (stress_data x) <? 10)%nat
     || (List.length (strain_data x) <? 10)%nat
  then (x, [insufficient_data_warning])
  else
    match Np.finite_mask (stress_data x) (strain_data x) with
    | inl _ => (x, [calculation_error])
    | inr valid_indices =>
        let stress := Np.select valid_indices (stress_data x) in
        let strain := Np.select valid_indices (strain_data x) in
        if (List.length stress <? 5)%nat then (x, [invalid_data_warning])
        else
          match assign_properties x stress strain with
          | (x', None) => (x', [UpdateResultsDisplay])
          | (x', Some _) => (x', [calculation_error])
          end
    end.

End Analysis.

End MaterialTestPlotter.

(** ** utils.py: [SafetyMonitor] *)

Module SafetyMonitor.

(** A registered callback is known by the number of its observer; an
    exception it raises is caught inside the delivery loop, so every
    callback of the list is called. *)
Record state : Type := mk {
  max_load : float;
  max_position : float;
  min_position : float;
  safety_callbacks : list nat
}.

(** [__init__] with its default arguments *)
Definition init : state :=
  {| max_load := 10000%float; max_position := 100%float;
     min_position := (-5)%float; safety_callbacks := [] |}.

(** [add_safety_callback] *)
Definition add_safety_callback (callback : nat) (m : state) : state :=
  mk (max_load m) (max_position m) (min_position m)
     (safety_callbacks m ++ [callback]).

(** The list [violations] built by [check_safety_limits]. *)
Definition violations_of (m : state) (load position : float) : list Violation :=
  (if PrimFloat.ltb (max_load m) (PrimFloat.abs load)
   then [LoadExceededMaximum load (max_load m)] else [])
  ++ (if PrimFloat.ltb (max_position m) position
      then [PositionExceededMaximum position (max_position m)] else [])
  ++ (if PrimFloat.ltb position (min_position m)
      then [PositionBelowMinimum position (min_position m)] else []).

(** [check_safety_limits]: the value returned and the callbacks called. *)
Definition check_safety_limits (m : state) (load position : float)
  : bool * list Effect :=
  let violations := violations_of m load position in
  (Nat.eqb (List.length violations) 0,
   match violations with
   | [] => []
   | _ => map (fun callback => SafetyCallback callback violations)
              (safety_callbacks m)
   end).

End SafetyMonitor.

Definition is_safety_callback (e : Effect) : bool :=
  match e with SafetyCallback _ _ => true | _ => false end.

(** ** utm_controller.py, with the speed commands of gui_components.py *)

Module UTMController.

Record state : Type := mk {
  machine_state : string;
  load_value : float;
  position_value : float;
  is_connected : bool;
  serial_handler : SerialHandler.state;
  graph_plotter : MaterialTestPlotter.state
}.

(** [__init__], which ends with [setup_serial_callbacks] *)
Definition init : state :=
  {| machine_state := "Disconnected"; load_value := 0%float;
     position_value := 0%float; is_connected := false;
     serial_handler :=
       SerialHandler.set_connection_callback
         (SerialHandler.set_data_callback SerialHandler.init);
     graph_plotter := MaterialTestPlotter.init |}.

Definition with_machine_state (v : string) (c : state) : state :=
  mk v (load_value c) (position_value c) (is_connected c) (serial_handler c)
     (graph_plotter c).
Definition with_load_value (v : float) (c : state) : state :=
  mk (machine_state c) v (position_value c) (is_connected c)
     (serial_handler c) (graph_plotter c).
Definition with_position_value (v : float) (c : state) : state :=
  mk (machine_state c) (load_value c) v (is_connected c) (serial_handler c)
     (graph_plotter c).
Definition with_is_connected (v : bool) (c : state) : state :=
  mk (machine_state c) (load_value c) (position_value c) v (serial_handler c)
     (graph_plotter c).
Definition with_serial_handler (v : SerialHandler.state) (c : state) : state :=
  mk (machine_state c) (load_value c) (position_value c) (is_connected c) v
     (graph_plotter c).
Definition with_graph_plotter (v : MaterialTestPlotter.state) (c : state)
  : state :=
  mk (machine_state c) (load_value c) (position_value c) (is_connected c)
     (serial_handler c) v.

(** [handle_connection_change], the connection callback *)
Definition handle_connection_change (c : state) (connected : bool) : state :=
  let c1 := with_is_connected connected c in
  if connected then with_machine_state "Connected" c1
  else with_machine_state "Disconnected" c1.

(** The connection callbacks of a handler's trace, run on the controller in
    the order of the trace.  The handler's methods never read the fields
    the callback writes, so running them after the method is the same as
    running them inside it. *)
Fixpoint run_connection_callbacks (t : list Effect) (c : state) : state :=
  match t with
  | [] => c
  | ConnectionCallback v :: t' =>
      run_connection_callbacks t' (handle_connection_change c v)
  | _ :: t' => run_connection_callbacks t' c
  end.

(** [self.serial_handler.send_command(command)] *)
Definition send (w : SerialHandler.WriteOutcome) (c : state) (command : string)
  : state * bool * list Effect :=
  let '(h, ok, t) := SerialHandler.send_command w (serial_handler c) command in
  (run_connection_callbacks t (with_serial_handler h c), ok, t).

Definition not_connected_error : Effect :=
  MessageBox ShowError "Error" "Not connected to Arduino".
Definition not_connected_warning : Effect :=
  MessageBox ShowWarning "Not Connected" "Please connect to a device first".

Definition open_command (w : SerialHandler.WriteOutcome) (c : state)
  : state * list Effect :=
  if is_connected c then
    let '(c1, _, t) := send w c "1" in (with_machine_state "Opening" c1, t)
  else (c, [not_connected_error]).

Definition close_command (w : SerialHandler.WriteOutcome) (c : state)
  : state * list Effect :=
  if is_connected c then
    let '(c1, _, t) := send w c "2" in (with_machine_state "Closing" c1, t)
  else (c, [not_connected_error]).

Definition stop_command (w : SerialHandler.WriteOutcome) (c : state)
  : state * list Effect :=
  if is_connected c then
    let '(c1, _, t) := send w c "0" in (with_machine_state "Stopped" c1, t)
  else (c, [not_connected_error]).

Definition zero_command (w : SerialHandler.WriteOutcome) (c : state)
  : state * list Effect :=
  if is_connected c then
    let '(c1, _, t) := send w c "Z" in (c1, t)
  else (c, [not_connected_error]).

(** [turboset_command]; [confirm] is the operator's answer to the dialog. *)
Definition turboset_command (confirm : bool) (w : SerialHandler.WriteOutcome)
                            (c : state) : state * list Effect :=
  if negb (is_connected c) then (c, [not_connected_error])
  else
    let ask := AskYesNo "Confirm" "Start Turboset automated routine?" in
    if confirm then
      let '(c1, _, t) := send w c "T" in
      (with_machine_state "Turboset Running" c1, ask :: t)
    else (c, [ask]).

Definition send_custom_command (w : SerialHandler.WriteOutcome) (c : state)
                               (command : string) : state * list Effect :=
  if SerialHandler.is_connected (serial_handler c) then
    let '(c1, _, t) := send w c command in (c1, t)
  else (c, [not_connected_warning]).

(** [UTMControlPanel.set_motor_speed]; [speed] is [int(self.speed_var.get())]. *)
Definition set_motor_speed (w : SerialHandler.WriteOutcome) (c : state)
                           (speed : Z) : state * list Effect :=
  if ((1 <=? speed) && (speed <=? 200))%Z then
    let (c1, t) := send_custom_command w c ("S" ++ Py.str_of_int speed)%string in
    (c1, t ++ [UpdateCurrentSpeed speed])
  else
    (c, [MessageBox ShowWarning "Invalid Speed"
                    "Speed must be between 1 and 200 RPM"]).

(** [UTMControlPanel.get_motor_speed] *)
Definition get_motor_speed (w : SerialHandler.WriteOutcome) (c : state)
  : state * list Effect :=
  send_custom_command w c "G".

Definition test_connection (w : SerialHandler.WriteOutcome) (c : state)
  : state * list Effect :=
  if is_connected c then
    let '(c1, _, t) := send w c "TEST" in
    (c1, t ++ [MessageBox ShowInfo "Test" "Test command sent"])
  else (c, [MessageBox ShowWarning "Test" "No active connection to test"]).

(** [connect_serial]; the baud rate is the default of [SerialHandler.connect]. *)
Definition connect_serial (env : SerialHandler.ConnectEnv) (c : state)
                          (port : string) : state * bool * list Effect :=
  let '(h, ok, t) := SerialHandler.connect env (serial_handler c) port 9600 in
  let c1 := run_connection_callbacks t (with_serial_handler h c) in
  if ok then
    (c1, true, t ++ [MessageBox ShowInfo "Connection" ("Connected to " ++ port)])
  else
    (c1, false,
     t ++ [MessageBox ShowError "Connection Error"
                      ("Failed to connect to " ++ port)]).

Definition disconnect_serial (close_raises : bool) (c : state)
  : state * list Effect :=
  let (h, t) := SerialHandler.disconnect close_raises (serial_handler c) in
  (run_connection_callbacks t (with_serial_handler h c),
   t ++ [MessageBox ShowInfo "Connection" "Disconnected from serial port"]).

(** One turn of [serial_monitor_loop]; what [read_data] returns is dropped. *)
Definition serial_monitor_turn (r : SerialHandler.ReadOutcome) (c : state)
  : state * list Effect :=
  if SerialHandler.is_connected (serial_handler c) then
    let '(h, _, t) := SerialHandler.read_data r (serial_handler c) in
    (run_connection_callbacks t (with_serial_handler h c), t)
  else (c, []).

(** [handle_pcb_button] *)
Definition handle_pcb_button (w : SerialHandler.WriteOutcome) (c : state)
                             (button_code : string) : state * list Effect :=
  let run (command : SerialHandler.WriteOutcome -> state -> state * list Effect) :=
    let (c1, t) := command w c in (c1, HighlightButton button_code :: t) in
  if (button_code =? "1")%string then run open_command
  else if (button_code =? "2")%string then run close_command
  else if (button_code =? "3")%string then run stop_command
  else if (button_code =? "4")%string then run zero_command
  else (c, []).

(** [handle_speed_response] *)
Definition handle_speed_response (c : state) (speed_value : Z)
  : state * list Effect :=
  (c, [UpdateCurrentSpeed speed_value]).

Section Parsing.

(** The built-ins [float(s)] and [int(s)] on a string; [None] is the
    [ValueError] they raise. *)
Variable py_float : string -> option float.
Variable py_int : string -> option Z.

(** [data.split(':')[1]] *)
Definition payload (data : string) : Py.Raised + string :=
  Py.index (Py.split Py.colon data) 1.

(** The [if]/[elif] chain of [handle_serial_data]: the state it leaves,
    what it did, and the exception that ended it, if any. *)
Definition dispatch (w : SerialHandler.WriteOutcome) (c : state)
                    (data : string) : state * list Effect * option Py.Raised :=
  if Py.startswith data "LOAD:" then
    match payload data with
    | inl e => (c, [], Some e)
    | inr s => match py_float s with
               | None => (c, [], Some Py.ValueError)
               | Some v => (with_load_value v c, [], None)
               end
    end
  else if Py.startswith data "POS:" then
    match payload data with
    | inl e => (c, [], Some e)
    | inr s => match py_float s with
               | None => (c, [], Some Py.ValueError)
               | Some v => (with_position_value v c, [], None)
               end
    end
  else if Py.startswith data "STATE:" then
    match payload data with
    | inl e => (c, [], Some e)
    | inr s => (with_machine_state s c, [], None)
    end
  else if Py.startswith data "BTN:" then
    match payload data with
    | inl e => (c, [], Some e)
    | inr button_code =>
        let (c1, t) := handle_pcb_button w c button_code in (c1, t, None)
    end
  else if Py.startswith data "SPEED:" then
    match payload data with
    | inl e => (c, [], Some e)
    | inr s => match py_int s with
               | None => (c, [], Some Py.ValueError)
               | Some n =>
                   let (c1, t) := handle_speed_response c n in (c1, t, None)
               end
    end
  else (c, [], None).

(** [handle_serial_data], the data callback; [now] is [time.time()].  The
    last component is the exception caught by the [except] clause, which
    only logs it. *)
Definition handle_serial_data (w : SerialHandler.WriteOutcome) (now : float)
                              (c : state) (data : string)
  : state * list Effect * option Py.Raised :=
  match dispatch w c data with
  | (c1, t, Some e) => (c1, t, Some e)
  | (c1, t, None) =>
      let t1 := t ++ [UpdateLoadDisplay (load_value c1);
                      UpdatePositionDisplay (position_value c1)] in
      if MaterialTestPlotter.is_plotting (graph_plotter c1) then
        let (g, r) :=
          MaterialTestPlotter.add_data_point (graph_plotter c1) now
            (load_value c1) (position_value c1) in
        (with_graph_plotter g c1, t1, r)
      else (c1, t1, None)
  end.

End Parsing.

End UTMController.

(** ** The running application

    The threads of the application take turns on one controller: the
    operator's actions, the read thread, the monitor thread, the plot thread
    and the reconnection threads started by [_handle_connection_error].  A
    turn is one call of a method, run from its start to its end; what
    happens when a thread comes between two statements of a method of
    another is the matter of [Interleavings]. *)

Module Session.

Import UTMController.

(** The command intents of the operator. *)
Inductive Command : Type :=
| Open
| Close
| Stop
| Zero
| Turboset (confirm : bool)
| SetSpeed (rpm : Z)
| Custom (text : string).

Definition issue (w : SerialHandler.WriteOutcome) (c : state) (cmd : Command)
  : state * list Effect :=
  match cmd with
  | Open => open_command w c
  | Close => close_command w c
  | Stop => stop_command w c
  | Zero => zero_command w c
  | Turboset confirm => turboset_command confirm w c
  | SetSpeed rpm => set_motor_speed w c rpm
  | Custom text => send_custom_command w c text
  end.

Inductive Event : Type :=
| Issue (cmd : Command) (w : SerialHandler.WriteOutcome)
| GetSpeed (w : SerialHandler.WriteOutcome)
| TestConnection (w : SerialHandler.WriteOutcome)
| Connect (port : string) (env : SerialHandler.ConnectEnv)
| Disconnect (close_raises : bool)
| MonitorTurn (r : SerialHandler.ReadOutcome)
| ReadTurn (r : SerialHandler.ReadOutcome) (w : SerialHandler.WriteOutcome)
           (now : float)
| PlotTurn (now : float)
| ReconnectTurn (envs : nat -> SerialHandler.ConnectEnv).


(** The controller and the number of reconnection threads that were started
    and have not run yet. *)
Record state : Type := mk {
  controller : UTMController.state;
  pending_reconnections : nat
}.

Section Steps.

Variable py_float : string -> option float.
Variable py_int : string -> option Z.

(** The data callbacks of a handler's trace, run on the controller. *)
Fixpoint run_data_callbacks (w : SerialHandler.WriteOutcome) (now : float)
                            (t : list Effect) (c : UTMController.state)
  : UTMController.state * list Effect :=
  match t with
  | [] => (c, [])
  | DataCallback data :: t' =>
      let '(c1, t1, _) := handle_serial_data py_float py_int w now c data in
      let (c2, t2) := run_data_callbacks w now t' c1 in
      (c2, t1 ++ t2)
  | _ :: t' => run_data_callbacks w now t' c
  end.

(** What one turn does to the controller. *)
Definition turn (pending : nat) (c : UTMController.state) (ev : Event)
  : UTMController.state * list Effect :=
  match ev with
  | Issue cmd w => issue w c cmd
  | GetSpeed w => get_motor_speed w c
  | TestConnection w => test_connection w c
  | Connect port env =>
      let '(c1, _, t) := connect_serial env c port in (c1, t)
  | Disconnect close_raises => disconnect_serial close_raises c
  | MonitorTurn r => serial_monitor_turn r c
  | ReadTurn r w now =>
      let h := serial_handler c in
      if SerialHandler.running h && SerialHandler.connected h then
        let '(h1, _, t) := SerialHandler._read_loop_turn r h in
        let c1 := run_connection_callbacks t (with_serial_handler h1 c) in
        let (c2, t2) := run_data_callbacks w now t c1 in
        (c2, t ++ t2)
      else (c, [])
  | PlotTurn now =>
      let g := graph_plotter c in
      if MaterialTestPlotter.is_plotting g then
        let '(g1, _, t) :=
          MaterialTestPlotter._plot_update_turn g now (load_value c)
            (position_value c) in
        (with_graph_plotter g1 c, t)
      else (c, [])
  | ReconnectTurn envs =>
      match pending with
      | O => (c, [])
      | S _ =>
          let (h, t) :=
            SerialHandler._attempt_reconnection envs (serial_handler c) in
          (run_connection_callbacks t (with_serial_handler h c), t)
      end
  end.

Definition step (s : state) (ev : Event) : state * list Effect :=
  let (c, t) := turn (pending_reconnections s) (controller s) ev in
  let finished :=
    match ev with ReconnectTurn _ => 1%nat | _ => 0%nat end in
  (mk c (pending_reconnections s - finished
         + List.length (filter is_start_reconnect t)), t).

Fixpoint run (s : state) (evs : list Event) : state * list Effect :=
  match evs with
  | [] => (s, [])
  | ev :: evs' =>
      let (s1, t1) := step s ev in
      let (s2, t2) := run s1 evs' in
      (s2, t1 ++ t2)
  end.

End Steps.

End Session.

(** ** Notions used in the statements *)

Module Framing.

Definition nl : string := String Py.newline "".

(** The payloads handed to the data callback, in order. *)
Fixpoint frames (t : list Effect) : list string :=
  match t with
  | [] => []
  | DataCallback data :: t' => data :: frames t'
  | _ :: t' => frames t'
  end.

(** The lines of [s] that are closed by a boundary byte, and the
    unterminated text after the last boundary byte. *)
Definition complete_lines (s : string) : list string :=
  removelast (Py.split Py.newline s).
Definition fragment (s : string) : string :=
  List.last (Py.split Py.newline s) "".

(** Every line followed by its boundary byte. *)
Fixpoint join_lines (ls : list string) : string :=
  match ls with
  | [] => ""
  | l :: ls' => (l ++ nl ++ join_lines ls')%string
  end.

(** [s] without its boundary bytes. *)
Fixpoint without_boundaries (s : string) : string :=
  match s with
  | EmptyString => EmptyString
  | String a r =>
      if Ascii.eqb a Py.newline then without_boundaries r
      else String a (without_boundaries r)
  end.

Definition no_boundary (s : string) : Prop :=
  Py.contains Py.newline s = false.

(** Feeding the chunks one after the other. *)
Fixpoint feed (h : SerialHandler.state) (chunks : list string)
  : SerialHandler.state * list Effect :=
  match chunks with
  | [] => (h, [])
  | data :: chunks' =>
      let (h1, t1) := SerialHandler._process_received_data h data in
      let (h2, t2) := feed h1 chunks' in
      (h2, t1 ++ t2)
  end.

(** The framing property as the specification words it: the emitted frames,
    boundary bytes ignored, add up to the input, and no frame holds a
    boundary byte. *)
Definition lossless (h : SerialHandler.state) (chunks : list string) : Prop :=
  let fs := frames (snd (feed h chunks)) in
  String.concat "" (map without_boundaries fs)
  = without_boundaries (String.concat "" chunks)
  /\ Forall no_boundary fs.

(** The frames the split loop emits for an accumulator [buffer]. *)
Definition line_frames (buffer : string) : list string :=
  filter Py.truthy (map Py.strip (complete_lines buffer)).

End Framing.

Module Recording.

Import MaterialTestPlotter.

(** The six lists of the series have one length. *)
Definition aligned (x : state) : Prop :=
  List.length (load_data x) = List.length (time_data x)
  /\ List.length (position_data x) = List.length (time_data x)
  /\ List.length (stress_data x) = List.length (time_data x)
  /\ List.length (strain_data x) = List.length (time_data x)
  /\ List.length (displacement_data x) = List.length (time_data x).

(** A plotter in recording mode whose series holds [n] samples. *)
Definition recording (n : nat) : state :=
  let zeros := repeat 0%float n in
  start_plotting 1%float 25%float
    (with_series zeros zeros zeros zeros zeros zeros init).

End Recording.

Module AnalysisSpec.

Import MaterialTestPlotter.

(** Python's [round(x)] for a finite float: the nearest integer, a tie
    going to the even one. *)
Definition round (x : float) : Z :=
  match Prim2SF x with
  | S754_finite s m e =>
      let v :=
        if (0 <=? e)%Z then (Z.pos m * 2 ^ e)%Z
        else
          let d := (2 ^ (- e))%Z in
          let q := (Z.pos m / d)%Z in
          let r := (Z.pos m mod d)%Z in
          if (2 * r <? d)%Z then q
          else if (d <? 2 * r)%Z then (q + 1)%Z
          else if Z.even q then q else (q + 1)%Z in
      if s then (- v)%Z else v
  | _ => 0%Z
  end.

(** The linear region as the specification words it: the first
    max(5, round(0.2 * n)) samples. *)
Definition rounded_region_size (n : nat) : Z :=
  Z.max 5 (round (PrimFloat.mul point_two (Py.float_of_int (Z.of_nat n)))).
Definition rounded_linear_region (a : list float) : list float :=
  firstn (Z.to_nat (rounded_region_size (List.length a))) a.

(** The linear region the code takes, for five samples or more: the first
    max(5, int(0.2 * n)) samples, [int] cutting the fraction off. *)
Definition truncated_region_size (n : nat) : Z :=
  Z.max 5 (twenty_percent n).

(** The call ends with one of the two "not enough data points" warnings. *)
Definition reports_insufficient_data (t : list Effect) : Prop :=
  t = [insufficient_data_warning] \/ t = [invalid_data_warning].

(** The call ends with a dialog in place of results. *)
Definition fails (t : list Effect) : Prop :=
  reports_insufficient_data t \/ t = [calculation_error].

(** The five properties of a plotter. *)
Definition properties (x : state) : float * float * float * float * float :=
  (youngs_modulus x, yield_strength x, ultimate_strength x,
   fracture_strength x, elongation_at_break x).

(** [p] holds of the [count] integers from [k] on. *)
Fixpoint holds_from (count : nat) (k : Z) (p : Z -> bool) : bool :=
  match count with
  | O => true
  | S count' => p k && holds_from count' (k + 1)%Z p
  end.

(** The series 0, 1, ..., n - 1. *)
Definition ramp (n : nat) : list float :=
  map (fun k => Py.float_of_int (Z.of_nat k)) (seq 0 n).

(** A least-squares slope in double arithmetic, standing for
    [scipy.stats.linregress] where an example needs an instance. *)
Definition mean (a : list float) : float :=
  PrimFloat.div (fold_left PrimFloat.add a 0%float)
                (Py.float_of_int (Z.of_nat (List.length a))).
Definition least_squares_slope (x y : list float) : Py.Raised + float :=
  let mx := mean x in
  let my := mean y in
  let sxy :=
    fold_left PrimFloat.add
      (map (fun '(a, b) =>
              PrimFloat.mul (PrimFloat.sub a mx) (PrimFloat.sub b my))
           (combine x y)) 0%float in
  let sxx :=
    fold_left PrimFloat.add
      (map (fun a => PrimFloat.mul (PrimFloat.sub a mx) (PrimFloat.sub a mx)) x)
      0%float in
  if PrimFloat.eqb sxx 0%float then inl Py.ValueError
  else inr (PrimFloat.div sxy sxx).

End AnalysisSpec.

(** Plain decimal literals, standing for the built-ins [float(s)] and
    [int(s)] where an example needs an instance: an optional sign, digits,
    and for a float an optional point and more digits, at most 15 digits in
    all.  On those literals [float(s)] is the quotient, correctly rounded, of
    two integers that doubles hold exactly. *)

Module PlainLiteral.

Definition digit (a : ascii) : option Z :=
  let n := N_of_ascii a in
  if ((48 <=? n) && (n <=? 57))%N then Some (Z.of_N n - 48)%Z else None.

(** The leading digits of [s]: their value on top of [acc], how many they
    are on top of [count], and the rest of [s]. *)
Fixpoint digits (acc : Z) (count : nat) (s : string) : Z * nat * string :=
  match s with
  | EmptyString => (acc, count, s)
  | String a r =>
      match digit a with
      | Some d => digits (10 * acc + d) (S count) r
      | None => (acc, count, s)
      end
  end.

Definition unsigned_float (s : string) : option float :=
  let '(i, ni, r) := digits 0 0 s in
  match r with
  | EmptyString =>
      if ((0 <? ni) && (ni <=? 15))%nat then Some (Py.float_of_int i) else None
  | String a r1 =>
      if Ascii.eqb a "."%char then
        let '(m, n, r2) := digits i ni r1 in
        match r2 with
        | EmptyString =>
            if ((0 <? n) && (n <=? 15))%nat then
              Some (PrimFloat.div (Py.float_of_int m)
                                  (Py.float_of_int (10 ^ Z.of_nat (n - ni))))
            else None
        | _ => None
        end
      else None
  end.

Definition float_of_string (s : string) : option float :=
  match Py.strip s with
  | String a r =>
      if Ascii.eqb a "-"%char then option_map PrimFloat.opp (unsigned_float r)
      else if Ascii.eqb a "+"%char then unsigned_float r
      else unsigned_float (String a r)
  | EmptyString => None
  end.

Definition unsigned_int (s : string) : option Z :=
  match digits 0 0 s with
  | (i, S _, EmptyString) => Some i
  | _ => None
  end.

Definition int_of_string (s : string) : option Z :=
  match Py.strip s with
  | String a r =>
      if Ascii.eqb a "-"%char then option_map Z.opp (unsigned_int r)
      else if Ascii.eqb a "+"%char then unsigned_int r
      else unsigned_int (String a r)
  | EmptyString => None
  end.

End PlainLiteral.

Module SafetySpec.

(** No safety callback is called in the trace. *)
Definition no_safety_callback (t : list Effect) : Prop :=
  filter is_safety_callback t = [].

(** The claim that violations are detected on every recorded sample: when
    a frame makes the controller record a sample that breaks the limits of
    a monitor, every observer of the monitor is handed the violations. *)
Definition detected_on_every_sample
           (py_float : string -> option float) (py_int : string -> option Z)
  : Prop :=
  forall (m : SafetyMonitor.state) (w : SerialHandler.WriteOutcome)
         (now : float) (c : UTMController.state) (data : string)
         (observer : nat),
    let r := UTMController.handle_serial_data py_float py_int w now c data in
    let c' := fst (fst r) in
    let load := UTMController.load_value c' in
    let position := UTMController.position_value c' in
    MaterialTestPlotter.is_plotting (UTMController.graph_plotter c) = true ->
    In observer (SafetyMonitor.safety_callbacks m) ->
    SafetyMonitor.violations_of m load position <> [] ->
    In (SafetyCallback observer (SafetyMonitor.violations_of m load position))
       (snd (fst r)).

End SafetySpec.

Module ProtocolSpec.

(** The first of the fields of [s] that colons separate: all of [s] when it
    holds no colon. *)
Definition first_field (s : string) : string :=
  List.hd "" (Py.split Py.colon s).

(** No prefix of the dispatch table starts the frame. *)
Definition unrecognized (data : string) : Prop :=
  Py.startswith data "LOAD:" = false
  /\ Py.startswith data "POS:" = false
  /\ Py.startswith data "STATE:" = false
  /\ Py.startswith data "BTN:" = false
  /\ Py.startswith data "SPEED:" = false.

(** A controller whose plotter is recording. *)
Definition plotting_controller : UTMController.state :=
  UTMController.with_graph_plotter
    (MaterialTestPlotter.start_plotting 1%float 25%float
       MaterialTestPlotter.init)
    UTMController.init.

End ProtocolSpec.

Module CommandSpec.

Import UTMController.



End CommandSpec.

Module ReconnectSpec.

(** The port does not open. *)
Definition fails (env : SerialHandler.ConnectEnv) : Prop :=
  SerialHandler.open_outcome env <> SerialHandler.OpenReturns true.

(** Every open attempt of the trace comes right after a delay of two
    seconds. *)
Inductive delayed_attempts : list Effect -> Prop :=
| delayed_nil : delayed_attempts []
| delayed_other (e : Effect) (t : list Effect) :
    is_transport_open e = false ->
    delayed_attempts t -> delayed_attempts (e :: t)
| delayed_attempt (p : string) (b : Z) (t : list Effect) :
    delayed_attempts t ->
    delayed_attempts (Sleep 2000 :: TransportOpen p b :: t).

(** The trace starts no reconnection thread. *)
Definition starts_no_reconnection (t : list Effect) : Prop :=
  filter is_start_reconnect t = [].

(** Every connection callback of the trace reports a loss. *)
Fixpoint only_losses (t : list Effect) : bool :=
  match t with
  | [] => true
  | ConnectionCallback v :: t' => negb v && only_losses t'
  | _ :: t' => only_losses t'
  end.




(** A connection failure as the controller sees it:
    [_handle_connection_error] with its callback. *)
Definition connection_failure (c : UTMController.state)
  : UTMController.state * list Effect :=
  let (h, t) :=
    SerialHandler._handle_connection_error (UTMController.serial_handler c) in
  (UTMController.run_connection_callbacks t
     (UTMController.with_serial_handler h c), t).



(** A controller connected to the port "COM3". *)
Definition connected_controller : UTMController.state :=
  fst (fst (UTMController.connect_serial
              {| SerialHandler.open_outcome := SerialHandler.OpenReturns true;
                 SerialHandler.close_raises := false |}
              UTMController.init "COM3")).

(** A port that never opens again. *)
Definition unplugged (k : nat) : SerialHandler.ConnectEnv :=
  {| SerialHandler.open_outcome := SerialHandler.OpenRaises;
     SerialHandler.close_raises := false |}.

End ReconnectSpec.


(** * Further code of the sources *)

(** ** More Python built-ins *)

Module PyText.

(** [ch.lower()] on U+0000 .. U+00FF: A..Z and the capital letters
    U+00C0 .. U+00DE other than the multiplication sign go 32 up. *)
Definition lower_char (a : ascii) : ascii :=
  let n := N_of_ascii a in
  if ((65 <=? n) && (n <=? 90)
      || (192 <=? n) && (n <=? 222) && negb (n =? 215))%N
  then ascii_of_N (n + 32) else a.

(** [s.lower()] *)
Fixpoint lower (s : string) : string :=
  match s with
  | EmptyString => EmptyString
  | String a r => String (lower_char a) (lower r)
  end.

(** [ch.upper()] on U+0000 .. U+007F; from U+0080 on the character is kept.
    Python turns the small letters U+00E0 .. U+00FE into capitals, and three
    characters into text outside this model (the sharp s into "SS", the
    micro sign and the y with diaeresis into code points above U+00FF).
    Either way the result holds a character above U+007F or "SS", so it is
    no key of the tables of config.py, whose keys are ASCII without "SS". *)
Definition upper_char (a : ascii) : ascii :=
  let n := N_of_ascii a in
  if ((97 <=? n) && (n <=? 122))%N then ascii_of_N (n - 32) else a.

(** [s.upper()], see [upper_char] *)
Fixpoint upper (s : string) : string :=
  match s with
  | EmptyString => EmptyString
  | String a r => String (upper_char a) (upper r)
  end.

(** [needle in hay] for two strings *)
Fixpoint occurs_in (needle hay : string) : bool :=
  String.prefix needle hay
  || match hay with
     | EmptyString => false
     | String _ r => occurs_in needle r
     end.

(** [d.get(key, None)] for a dictionary with string keys, written as the
    list of its items *)
Fixpoint dict_get {A : Type} (d : list (string * A)) (key : string) : option A :=
  match d with
  | [] => None
  | (k, v) :: d' => if (k =? key)%string then Some v else dict_get d' key
  end.

End PyText.

(** ** config.py: the command and button tables *)

Module UTMConfigTables.

Definition COMMANDS : list (string * string) :=
  [("TURBOSET", "T"); ("OPEN", "1"); ("CLOSE", "2"); ("STOP", "0");
   ("ZERO", "Z"); ("TEST", "TEST"); ("SET_SPEED", "S"); ("GET_SPEED", "G")].

Definition PCB_BUTTONS : list (string * string) :=
  [("1", "OPEN"); ("2", "CLOSE"); ("3", "STOP"); ("4", "ZERO")].

(** [get_command_code] *)
Definition get_command_code (command_name : string) : option string :=
  PyText.dict_get COMMANDS (PyText.upper command_name).

(** [get_pcb_button_name] *)
Definition get_pcb_button_name (button_code : string) : option string :=
  PyText.dict_get PCB_BUTTONS button_code.

End UTMConfigTables.

(** ** utils.py: the helper functions *)

Module Utils.

(** A port as [get_available_ports] describes it, with the keys that
    [filter_arduino_ports] and the port list read. *)
Record Port : Type := {
  device : string;
  description : string;
  hwid : string
}.

Definition arduino_keywords : list string :=
  ["arduino"; "ch340"; "ch341"; "cp210"; "ftdi"; "prolific";
   "usb serial"; "usb-serial"; "silicon labs"].

(** The test of the loop of [filter_arduino_ports]. *)
Definition looks_like_arduino (port : Port) : bool :=
  let description_lower := PyText.lower (description port) in
  existsb (fun keyword => PyText.occurs_in keyword description_lower)
          arduino_keywords.

(** [filter_arduino_ports] *)
Definition filter_arduino_ports (ports : list Port) : list Port :=
  let filtered_ports := filter looks_like_arduino ports in
  match filtered_ports with
  | [] => ports
  | _ => filtered_ports
  end.

(** What [validate_numeric_input] returns: [(True, num_val)], or [False] with
    one of its three messages. *)
Inductive Validation : Type :=
| Valid (num_val : float)
| MustBeAtLeast (min_val : float)
| MustBeAtMost (max_val : float)
| InvalidNumericValue.

Section Validate.

(** The built-in [float(s)]; [None] is the [ValueError] it raises. *)
Variable py_float : string -> option float.

(** [validate_numeric_input]; an absent bound is [None]. *)
Definition validate_numeric_input (value : string)
                                  (min_val max_val : option float)
  : Validation :=
  match py_float value with
  | None => InvalidNumericValue
  | Some num_val =>
      match min_val with
      | Some m =>
          if PrimFloat.ltb num_val m then MustBeAtLeast m
          else
            match max_val with
            | Some M =>
                if PrimFloat.ltb M num_val then MustBeAtMost M
                else Valid num_val
            | None => Valid num_val
            end
      | None =>
          match max_val with
          | Some M =>
              if PrimFloat.ltb M num_val then MustBeAtMost M
              else Valid num_val
          | None => Valid num_val
          end
      end
  end.

End Validate.

(** *** [retry_on_exception] *)

(** What the wrapper does, in order: call the wrapped function, sleep. *)
Inductive RetryEvent : Type :=
| Called (attempt : nat)
| Slept (delay : Z).

Section Retry.

Variable A : Type.   (* what the wrapped function returns *)
Variable E : Type.   (* the exceptions it raises *)

(** The turns of [for attempt in range(max_attempts)] from [attempt] on,
    [remaining] of them; [func k] is what the wrapped function does when it
    is called in turn [k].  The result is the exception that leaves the
    wrapper, or the value returned, [None] when the loop runs out. *)
Fixpoint retry_loop (remaining attempt : nat) (max_attempts delay : Z)
                    (func : nat -> E + A) : (E + option A) * list RetryEvent :=
  match remaining with
  | O => (inr None, [])
  | S remaining' =>
      match func attempt with
      | inr v => (inr (Some v), [Called attempt])
      | inl e =>
          if (Z.of_nat attempt =? max_attempts - 1)%Z
          then (inl e, [Called attempt])
          else
            let (r, t) :=
              retry_loop remaining' (S attempt) max_attempts delay func in
            (r, Called attempt :: Slept delay :: t)
      end
  end.

(** The wrapper that [retry_on_exception(max_attempts, delay)] puts around a
    function; [range] of a negative number is empty. *)
Definition retry_on_exception (max_attempts delay : Z) (func : nat -> E + A)
  : (E + option A) * list RetryEvent :=
  retry_loop (Z.to_nat max_attempts) 0 max_attempts delay func.

End Retry.

(** The calls of the wrapped function in a trace. *)
Definition calls (t : list RetryEvent) : list nat :=
  flat_map (fun ev => match ev with Called k => [k] | Slept _ => [] end) t.

(** The sleeps of a trace. *)
Definition sleeps (t : list RetryEvent) : list Z :=
  flat_map (fun ev => match ev with Slept d => [d] | Called _ => [] end) t.

End Utils.

(** ** utils.py: [DataLogger] *)

Module DataLogger.

Record DataPoint : Type := {
  timestamp : float;
  load : float;
  position : float;
  state_label : string      (* the key 'state' *)
}.

Record state : Type := mk {
  max_entries : Z;
  data_buffer : list DataPoint;
  logging_active : bool
}.

(** [__init__] *)
Definition init (max_entries : Z) : state :=
  {| max_entries := max_entries; data_buffer := []; logging_active := false |}.

(** [start_logging] *)
Definition start_logging (d : state) : state :=
  mk (max_entries d) [] true.

(** [stop_logging] *)
Definition stop_logging (d : state) : state :=
  mk (max_entries d) (data_buffer d) false.

(** [list.pop(0)] on a non-empty list *)
Definition pop_first {A : Type} (l : list A) : list A := List.tl l.

(** [log_data_point] *)
Definition log_data_point (d : state) (data_point : DataPoint) : state :=
  if negb (logging_active d) then d
  else
    let buffer := data_buffer d ++ [data_point] in
    if (max_entries d <? Z.of_nat (List.length buffer))%Z
    then mk (max_entries d) (pop_first buffer) true
    else mk (max_entries d) buffer true.

(** Logging the points one after the other. *)
Definition log_all (d : state) (points : list DataPoint) : state :=
  fold_left log_data_point points d.

End DataLogger.

(** ** Notions used in the further statements *)

Module PlotterRuns.

Import MaterialTestPlotter.

(** What can happen to a plotter: the three buttons, a sample from the
    controller, a turn of the plot thread. *)
Inductive Op : Type :=
| StartPlotting (area gauge : float)
| StopPlotting
| ClearPlotData
| AddDataPoint (timestamp load position : float)
| PlotTurn (current_time load position : float).

(** One of them, run from its start to its end with no other thread in
    between.  [stop_plotting] does nothing to a plotter that is not
    plotting; the plot thread only runs its turn while the plotter is
    plotting. *)
Definition apply (x : state) (op : Op) : state :=
  match op with
  | StartPlotting area gauge => start_plotting area gauge x
  | StopPlotting => if is_plotting x then stop_plotting x else x
  | ClearPlotData => clear_plot_data x
  | AddDataPoint t l p => fst (add_data_point x t l p)
  | PlotTurn t l p =>
      if is_plotting x then fst (fst (_plot_update_turn x t l p)) else x
  end.

(** Samples as the controller hands them over. *)
Definition add_all (x : state) (samples : list (float * float * float)) : state :=
  fold_left (fun x '(t, l, p) => fst (add_data_point x t l p)) samples x.

Definition times (samples : list (float * float * float)) : list float :=
  map (fun '(t, _, _) => t) samples.

(** Neither NaN nor an infinity. *)
Definition finite (v : float) : bool :=
  negb (Py.isnan v || Py.isinf v).

End PlotterRuns.

Module Connectivity.

Import UTMController.

(** The value of the last connection callback of a trace. *)
Fixpoint last_notification (t : list Effect) : option bool :=
  match t with
  | [] => None
  | ConnectionCallback v :: t' =>
      match last_notification t' with
      | Some v' => Some v'
      | None => Some v
      end
  | _ :: t' => last_notification t'
  end.

(** A method of the handler took it from [h] to [h'] with trace [t]: the
    connected flag is what the last callback said, or what it was when no
    callback was called, and the callback stays registered. *)
Definition announced (h h' : SerialHandler.state) (t : list Effect) : Prop :=
  SerialHandler.connected h'
  = match last_notification t with
    | Some v => v
    | None => SerialHandler.connected h
    end
  /\ SerialHandler.connection_callback h' = true.

(** The controller's flag mirrors the handler's, and the callback that keeps
    it so is registered. *)
Definition in_step (c : state) : Prop :=
  is_connected c = SerialHandler.connected (serial_handler c)
  /\ SerialHandler.connection_callback (serial_handler c) = true.

(** A disconnect during which [close] raises. *)
Definition is_failing_disconnect (ev : Session.Event) : bool :=
  match ev with
  | Session.Disconnect close_raises => close_raises
  | _ => false
  end.

(** Both the controller and the handler hold an open connection. *)
Definition connected_for_real (c : state) : Prop :=
  is_connected c = true
  /\ SerialHandler.is_connected (serial_handler c) = true.

(** The text an intent puts on the wire, and the machine state the
    controller predicts, [None] when it predicts none. *)
Definition wire_text (cmd : Session.Command) : string :=
  match cmd with
  | Session.Open => "1"
  | Session.Close => "2"
  | Session.Stop => "0"
  | Session.Zero => "Z"
  | Session.Turboset _ => "T"
  | Session.SetSpeed rpm => ("S" ++ Py.str_of_int rpm)%string
  | Session.Custom text => text
  end.

Definition predicted_state (cmd : Session.Command) : option string :=
  match cmd with
  | Session.Open => Some "Opening"
  | Session.Close => Some "Closing"
  | Session.Stop => Some "Stopped"
  | Session.Turboset _ => Some "Turboset Running"
  | _ => None
  end.

(** The intent that a button of the board stands for. *)
Definition button_intent (code : string) : option Session.Command :=
  if (code =? "1")%string then Some Session.Open
  else if (code =? "2")%string then Some Session.Close
  else if (code =? "3")%string then Some Session.Stop
  else if (code =? "4")%string then Some Session.Zero
  else None.

(** The intent is not a Turboset that the operator declines. *)
Definition goes_ahead (cmd : Session.Command) : Prop :=
  match cmd with
  | Session.Turboset confirm => confirm = true
  | Session.SetSpeed rpm => (1 <= rpm <= 200)%Z
  | _ => True
  end.

(** The second controller holds the readings and the plotter of the first. *)
Definition same_readings (c c1 : state) : Prop :=
  graph_plotter c1 = graph_plotter c
  /\ load_value c1 = load_value c
  /\ position_value c1 = position_value c.

End Connectivity.

Module AnalysisRuns.

Import MaterialTestPlotter.

Section Outcome.

Variable linregress : list float -> list float -> Py.Raised + float.

(** What an analysis of the two series comes to: the dialog it ends with, or
    the five properties it assigns. *)
Definition outcome (stress_data strain_data : list float)
  : Effect + float * float * float * float * float :=
  if (List.length stress_data <? 10)%nat || (List.length strain_data <? 10)%nat
  then inl insufficient_data_warning
  else
    match Np.finite_mask stress_data strain_data with
    | inl _ => inl calculation_error
    | inr valid =>
        let stress := Np.select valid stress_data in
        let strain := Np.select valid strain_data in
        if (List.length stress <? 5)%nat then inl invalid_data_warning
        else
          match youngs_modulus_of linregress stress strain with
          | inl _ => inl calculation_error
          | inr ym =>
              match yield_strength_of ym stress strain,
                    Np.amax stress, Np.last stress, Np.last strain with
              | inr ys, inr us, inr fs, inr el => inr (ym, ys, us, fs, el)
              | _, _, _, _ => inl calculation_error
              end
          end
    end.

(** The plotter with the five properties assigned. *)
Definition with_properties (p : float * float * float * float * float)
                           (x : state) : state :=
  let '(ym, ys, us, fs, el) := p in
  with_elongation_at_break el
    (with_fracture_strength fs
       (with_ultimate_strength us
          (with_yield_strength ys (with_youngs_modulus ym x)))).

End Outcome.

(** Both values of a sample are finite. *)
Definition both_finite (s : float * float) : bool :=
  PlotterRuns.finite (fst s) && PlotterRuns.finite (snd s).

End AnalysisRuns.

Module DataLoggerRuns.

Import DataLogger.

(** What can be done to a logger. *)
Inductive Op : Type :=
| Start
| Stop
| Log (data_point : DataPoint).

Definition apply (d : state) (op : Op) : state :=
  match op with
  | Start => start_logging d
  | Stop => stop_logging d
  | Log data_point => log_data_point d data_point
  end.

Definition run (d : state) (ops : list Op) : state := fold_left apply ops d.

(** The buffer holds no more than [max_entries] points, none if that is
    negative. *)
Definition bounded (d : state) : Prop :=
  (Z.of_nat (List.length (data_buffer d)) <= Z.max 0 (max_entries d))%Z.

End DataLoggerRuns.

(** ** Methods overtaken half way

    The threads share the handler and the plotter with no lock, so one
    thread can run between two statements of a method of another.  Two
    methods are cut here, at one such place each; the two parts run back to
    back are the method. *)

Module Interleavings.

(** [SerialHandler.connect] on a handler that is not connected, with a port
    that opens, from [self.port = port] to [self.read_thread.start()]. *)
Definition connect_until_read_thread (h : SerialHandler.state) (p : string)
                                     (b : Z)
  : SerialHandler.state * list Effect :=
  let h2 := SerialHandler.with_port p b h in
  let h3 :=
    SerialHandler.with_connection
      (Some {| SerialHandler.is_open := true |}) h2 in
  (SerialHandler.with_read_thread true
     (SerialHandler.with_running true (SerialHandler.with_connected true h3)),
   [TransportOpen p b; Sleep 2000; StartReadThread]).

(** The rest of that [connect]: the notification and [return True]. *)
Definition connect_notification (h : SerialHandler.state)
  : SerialHandler.state * bool * list Effect :=
  (h, true, SerialHandler.notify_connection h true).

(** [connect_serial] by the operator, overtaken by the read thread that it
    starts: the read thread enters [_read_loop], the port fails under it and
    it runs [_handle_connection_error], all before [connect] has sent its
    notification. *)
Definition overtaken_connect_serial (c : UTMController.state) (port : string)
  : UTMController.state * bool * list Effect :=
  let (h1, t1) :=
    connect_until_read_thread (UTMController.serial_handler c) port 9600 in
  let c1 := UTMController.with_serial_handler h1 c in
  let '(h2, t2) :=
    if SerialHandler.running h1 && SerialHandler.connected h1 then
      let '(h, _, t) :=
        SerialHandler._read_loop_turn SerialHandler.ReadRaises h1 in (h, t)
    else (h1, []) in
  let c2 :=
    UTMController.run_connection_callbacks t2
      (UTMController.with_serial_handler h2 c1) in
  let '(h3, ok, t3) := connect_notification (UTMController.serial_handler c2) in
  let c3 :=
    UTMController.run_connection_callbacks t3
      (UTMController.with_serial_handler h3 c2) in
  (c3, ok,
   t1 ++ t2 ++ t3
      ++ [MessageBox ShowInfo "Connection" ("Connected to " ++ port)]).

(** [MaterialTestPlotter.add_data_point] while plotting, up to the appends to
    the three raw lists. *)
Definition add_data_point_raw (x : MaterialTestPlotter.state)
                              (timestamp load position : float)
  : MaterialTestPlotter.state :=
  MaterialTestPlotter.with_series
    (MaterialTestPlotter.time_data x ++ [timestamp])
    (MaterialTestPlotter.load_data x ++ [load])
    (MaterialTestPlotter.position_data x ++ [position])
    (MaterialTestPlotter.stress_data x) (MaterialTestPlotter.strain_data x)
    (MaterialTestPlotter.displacement_data x) x.

(** The rest of it: the derived values and the appends to their lists. *)
Definition add_data_point_derived (x1 : MaterialTestPlotter.state)
                                  (load position : float)
  : MaterialTestPlotter.state * option Py.Raised :=
  match MaterialTestPlotter.stress_of x1 load with
  | inl e => (x1, Some e)
  | inr stress =>
      match MaterialTestPlotter.strain_of x1 position with
      | inl e => (x1, Some e)
      | inr strain =>
          (MaterialTestPlotter.with_series
             (MaterialTestPlotter.time_data x1)
             (MaterialTestPlotter.load_data x1)
             (MaterialTestPlotter.position_data x1)
             (MaterialTestPlotter.stress_data x1 ++ [stress])
             (MaterialTestPlotter.strain_data x1 ++ [strain])
             (MaterialTestPlotter.displacement_data x1 ++ [position]) x1,
           None)
      end
  end.

(** [add_data_point] on the read thread, overtaken by a whole turn of the
    plot thread between its two parts. *)
Definition overtaken_add_data_point
           (x : MaterialTestPlotter.state) (timestamp load position : float)
           (current_time load' position' : float)
  : MaterialTestPlotter.state * option Py.Raised :=
  let x1 := add_data_point_raw x timestamp load position in
  let '(x2, _, _) :=
    MaterialTestPlotter._plot_update_turn x1 current_time load' position' in
  add_data_point_derived x2 load position.

End Interleavings.

(** * Properties *)

(** ** Strings *)

Lemma append_assoc (s1 s2 s3 : string) :
  ((s1 ++ s2) ++ s3 = s1 ++ (s2 ++ s3))%string.
Proof. induction s1 as [|a r IH]; simpl; [reflexivity|now rewrite IH]. Qed.

Lemma split1_none (c : ascii) (s : string) :
  Py.contains c s = false -> Py.split1 c s = (s, None).
Proof.
  induction s as [|a r IH]; simpl; [reflexivity|].
  destruct (Ascii.eqb a c); [discriminate|].
  intros H. rewrite (IH H). reflexivity.
Qed.

Lemma split1_some (c : ascii) (s : string) :
  Py.contains c s = true ->
  exists line rest,
    Py.split1 c s = (line, Some rest)
    /\ s = (line ++ String c rest)%string
    /\ Py.contains c line = false
    /\ (String.length rest < String.length s)%nat.
Proof.
  induction s as [|a r IH]; simpl; [discriminate|].
  destruct (Ascii.eqb a c) eqn:E.
  - intros _. apply Ascii.eqb_eq in E. subst a.
    exists EmptyString, r. repeat split; simpl; lia.
  - intros H. destruct (IH H) as (line & rest & H1 & H2 & H3 & H4).
    exists (String a line), rest. rewrite H1. repeat split.
    + simpl. now rewrite <- H2.
    + simpl. now rewrite E.
    + lia.
Qed.

Lemma split_nonempty (c : ascii) (s : string) : Py.split c s <> [].
Proof.
  destruct s as [|a r]; simpl; [discriminate|].
  destruct (Ascii.eqb a c); [discriminate|].
  destruct (Py.split c r); discriminate.
Qed.

Lemma split_no_sep (c : ascii) (s : string) :
  Py.contains c s = false -> Py.split c s = [s].
Proof.
  induction s as [|a r IH]; simpl; [reflexivity|].
  destruct (Ascii.eqb a c); [discriminate|].
  intros H. rewrite (IH H). reflexivity.
Qed.

Lemma split_app (c : ascii) (line rest : string) :
  Py.contains c line = false ->
  Py.split c (line ++ String c rest) = line :: Py.split c rest.
Proof.
  induction line as [|a r IH]; simpl.
  - intros _. now rewrite Ascii.eqb_refl.
  - destruct (Ascii.eqb a c); [discriminate|].
    intros H. rewrite (IH H). reflexivity.
Qed.

Lemma contains_lstrip (c : ascii) (s : string) :
  Py.contains c s = false -> Py.contains c (Py.lstrip s) = false.
Proof.
  induction s as [|a r IH]; simpl; [reflexivity|].
  destruct (Py.isspace a).
  - destruct (Ascii.eqb a c); [discriminate|exact IH].
  - simpl. trivial.
Qed.

Lemma contains_rstrip (c : ascii) (s : string) :
  Py.contains c s = false -> Py.contains c (Py.rstrip s) = false.
Proof.
  induction s as [|a r IH]; simpl; [reflexivity|].
  destruct (Ascii.eqb a c) eqn:E; [discriminate|].
  intros H. specialize (IH H).
  destruct (Py.rstrip r) as [|b r'].
  - destruct (Py.isspace a); simpl; [reflexivity|now rewrite E].
  - simpl. rewrite E. exact IH.
Qed.

Lemma contains_strip (c : ascii) (s : string) :
  Py.contains c s = false -> Py.contains c (Py.strip s) = false.
Proof.
  intros H. unfold Py.strip. now apply contains_lstrip, contains_rstrip.
Qed.

(** ** The line framer *)

Section LineFramer.

Import Framing.

Lemma lines_no_boundary (s : string) :
  no_boundary s -> complete_lines s = [] /\ fragment s = s.
Proof.
  intros H. unfold complete_lines, fragment.
  now rewrite (split_no_sep _ _ H).
Qed.

Lemma lines_cons (line rest : string) :
  no_boundary line ->
  complete_lines (line ++ String Py.newline rest) = line :: complete_lines rest
  /\ fragment (line ++ String Py.newline rest) = fragment rest.
Proof.
  intros H. unfold complete_lines, fragment. rewrite (split_app _ _ _ H).
  pose proof (split_nonempty Py.newline rest) as Hne.
  destruct (Py.split Py.newline rest) as [|x l]; [contradiction|].
  split; reflexivity.
Qed.

(** Splitting loses nothing: the complete lines, each with its boundary
    byte, and the fragment make up the text again. *)
Lemma lines_partition (n : nat) (s : string) :
  (String.length s < n)%nat ->
  (join_lines (complete_lines s) ++ fragment s)%string = s
  /\ no_boundary (fragment s)
  /\ Forall no_boundary (complete_lines s).
Proof.
  revert s. induction n as [|n IH]; intros s Hn; [lia|].
  destruct (Py.contains Py.newline s) eqn:E.
  - destruct (split1_some _ _ E) as (line & rest & _ & Hs & Hl & Hlen).
    destruct (lines_cons line rest Hl) as [Hc Hf].
    destruct (IH rest ltac:(lia)) as (H1 & H2 & H3).
    subst s. rewrite Hc, Hf. repeat split.
    + simpl. unfold nl.
      rewrite !append_assoc. simpl. now rewrite H1.
    + exact H2.
    + constructor; assumption.
  - destruct (lines_no_boundary s E) as [Hc Hf]. rewrite Hc, Hf.
    repeat split; [exact E|constructor].
Qed.

(** The loop of [_process_received_data] runs to its end within its fuel:
    it leaves the fragment in the buffer and hands over the stripped,
    non-empty complete lines. *)
Lemma split_loop_spec (fuel : nat) (cb : bool) (buffer : string) :
  (String.length buffer < fuel)%nat ->
  SerialHandler.split_loop fuel cb buffer
  = (fragment buffer,
     if cb then map DataCallback (line_frames buffer) else []).
Proof.
  revert buffer. induction fuel as [|fuel IH]; intros buffer Hn; [lia|].
  simpl. destruct (Py.contains Py.newline buffer) eqn:E.
  - destruct (split1_some _ _ E) as (line & rest & H1 & Hs & Hl & Hlen).
    rewrite H1. rewrite (IH rest ltac:(lia)).
    destruct (lines_cons line rest Hl) as [Hc Hf].
    subst buffer. rewrite Hf. f_equal.
    unfold line_frames. rewrite Hc. simpl.
    destruct (Py.truthy (Py.strip line)), cb; reflexivity.
  - destruct (lines_no_boundary buffer E) as [Hc Hf].
    rewrite Hf. unfold line_frames. rewrite Hc. now destruct cb.
Qed.

Lemma frames_app (t1 t2 : list Effect) :
  frames (t1 ++ t2) = frames t1 ++ frames t2.
Proof.
  induction t1 as [|e t1 IH]; simpl; [reflexivity|].
  destruct e; simpl; now rewrite ?IH.
Qed.

Lemma frames_callbacks (l : list string) : frames (map DataCallback l) = l.
Proof. induction l; simpl; congruence. Qed.

Lemma line_frames_no_boundary (buffer : string) :
  Forall no_boundary (line_frames buffer).
Proof.
  unfold line_frames.
  destruct (lines_partition (S (String.length buffer)) buffer ltac:(lia))
    as (_ & _ & H).
  induction H as [|l ls Hl _ IH]; simpl; [constructor|].
  destruct (Py.truthy (Py.strip l)); [|exact IH].
  constructor; [|exact IH]. now apply contains_strip.
Qed.

(** What one call of [_process_received_data] does, with a callback
    registered. *)
Lemma process_received_data_spec (h : SerialHandler.state) (data : string) :
  SerialHandler.data_callback h = true ->
  let buffer := (SerialHandler.receive_buffer h ++ data)%string in
  SerialHandler._process_received_data h data
  = (SerialHandler.with_receive_buffer (fragment buffer) h,
     map DataCallback
         (line_frames buffer ++ if Py.truthy data then [data] else [])).
Proof.
  intros Hcb buffer. unfold SerialHandler._process_received_data.
  fold buffer. rewrite split_loop_spec by lia. rewrite Hcb.
  rewrite map_app, andb_true_r. now destruct (Py.truthy data).
Qed.

(** C2, the claim as worded, fails: the line [AB] fed as the chunk [AB]
    followed by the chunk holding its boundary byte is handed over twice,
    once as the unterminated chunk and once as the completed line. *)
Lemma framer_delivers_partial_chunk_twice :
  let h := SerialHandler.set_data_callback SerialHandler.init in
  frames (snd (feed h ["AB"; nl])) = ["AB"; "AB"; nl]
  /\ String.concat "" (map without_boundaries (frames (snd (feed h ["AB"; nl]))))
     = "ABAB"
  /\ without_boundaries (String.concat "" ["AB"; nl]) = "AB"
  /\ ~ lossless h ["AB"; nl].
Proof.
  split; [reflexivity|]. split; [reflexivity|]. split; [reflexivity|].
  intros [H _]. vm_compute in H. discriminate H.
Qed.

(** C2, as amended.  On every call, whatever has been fed before: the
    accumulator and the chunk are cut into complete lines and a fragment
    without loss or duplication; the fragment is kept and holds no boundary
    byte; the frames handed over are first the complete lines, stripped,
    the empty ones skipped, none of them holding a boundary byte, and after
    them extra frames; for a chunk without a boundary byte the extra frame
    is the chunk itself when it is not empty. *)
Theorem framer_splits_without_loss (h : SerialHandler.state) (data : string) :
  SerialHandler.data_callback h = true ->
  let buffer := (SerialHandler.receive_buffer h ++ data)%string in
  let h' := fst (SerialHandler._process_received_data h data) in
  let t := snd (SerialHandler._process_received_data h data) in
  (join_lines (complete_lines buffer) ++ SerialHandler.receive_buffer h')%string
  = buffer
  /\ no_boundary (SerialHandler.receive_buffer h')
  /\ t = map DataCallback (frames t)
  /\ exists extra,
       frames t = line_frames buffer ++ extra
       /\ Forall no_boundary (line_frames buffer)
       /\ (no_boundary data ->
           extra = if Py.truthy data then [data] else []).
Proof.
  intros Hcb buffer h' t. subst h' t.
  rewrite (process_received_data_spec h data Hcb). fold buffer. simpl.
  destruct (lines_partition (S (String.length buffer)) buffer ltac:(lia))
    as (H1 & H2 & _).
  repeat split; try assumption.
  - now rewrite frames_callbacks.
  - exists (if Py.truthy data then [data] else []).
    rewrite frames_callbacks. repeat split.
    apply line_frames_no_boundary.
Qed.

Lemma framer_splits_without_loss_witness :
  let h := SerialHandler.with_receive_buffer "LOAD:1"
             (SerialHandler.set_data_callback SerialHandler.init) in
  let data := ("2.5" ++ nl ++ "PO")%string in
  SerialHandler.data_callback h = true
  /\ (join_lines ["LOAD:12.5"] ++ "PO")%string
     = (SerialHandler.receive_buffer h ++ data)%string
  /\ no_boundary "PO".
Proof.
  intros h data. split; [reflexivity|].
  destruct (framer_splits_without_loss h data eq_refl) as (H1 & H2 & _).
  exact (conj H1 H2).
Defined.

End LineFramer.

(** ** Floating-point comparisons *)

Lemma ltb_zero_of_leb_zero (x : float) :
  PrimFloat.leb x 0%float = true -> PrimFloat.ltb 0%float x = false.
Proof.
  rewrite leb_spec, ltb_spec.
  change (Prim2SF 0%float) with (S754_zero false).
  destruct (Prim2SF x) as [s|s| |s m e]; try destruct s; cbn; congruence.
Qed.

Lemma ltb_zero_not_zero (x : float) :
  PrimFloat.ltb 0%float x = true -> PrimFloat.eqb x 0%float = false.
Proof.
  rewrite eqb_spec, ltb_spec.
  change (Prim2SF 0%float) with (S754_zero false).
  destruct (Prim2SF x) as [s|s| |s m e]; try destruct s; cbn; congruence.
Qed.

Lemma float_mul_comm (x y : float) : PrimFloat.mul x y = PrimFloat.mul y x.
Proof.
  apply Prim2SF_inj. rewrite !mul_spec. unfold SF64mul, SFmul.
  destruct (Prim2SF x) as [sx|sx| |sx mx ex], (Prim2SF y) as [sy|sy| |sy my ey];
    try reflexivity; try (now rewrite xorb_comm).
  now rewrite xorb_comm, Pos.mul_comm, Z.add_comm.
Qed.

(** ** The measurement pipeline *)

Section MeasurementPipeline.

Import MaterialTestPlotter.

Lemma stress_of_never_raises (x : state) (load : float) :
  exists stress,
    stress_of x load = inr stress
    /\ (PrimFloat.ltb 0%float (specimen_area x) = true ->
        stress = PrimFloat.div load (specimen_area x))
    /\ (PrimFloat.leb (specimen_area x) 0%float = true -> stress = 0%float).
Proof.
  unfold stress_of, Py.truediv.
  destruct (PrimFloat.ltb 0%float (specimen_area x)) eqn:E.
  - rewrite (ltb_zero_not_zero _ E). eexists. repeat split.
    intros H. apply ltb_zero_of_leb_zero in H. congruence.
  - eexists. repeat split. discriminate.
Qed.

Lemma strain_of_never_raises (x : state) (position : float) :
  exists strain,
    strain_of x position = inr strain
    /\ (PrimFloat.ltb 0%float (gauge_length x) = true ->
        strain = PrimFloat.mul 100%float
                   (PrimFloat.div position (gauge_length x)))
    /\ (PrimFloat.leb (gauge_length x) 0%float = true -> strain = 0%float).
Proof.
  unfold strain_of, Py.truediv.
  destruct (PrimFloat.ltb 0%float (gauge_length x)) eqn:E.
  - rewrite (ltb_zero_not_zero _ E). eexists. repeat split.
    + intros _. apply float_mul_comm.
    + intros H. apply ltb_zero_of_leb_zero in H. congruence.
  - eexists. repeat split. discriminate.
Qed.

Lemma add_data_point_appends (x : state) (timestamp load position : float) :
  is_plotting x = true ->
  exists stress strain,
    add_data_point x timestamp load position
    = (with_series (time_data x ++ [timestamp]) (load_data x ++ [load])
         (position_data x ++ [position]) (stress_data x ++ [stress])
         (strain_data x ++ [strain]) (displacement_data x ++ [position]) x,
       None).
Proof.
  intros P. unfold add_data_point. rewrite P.
  set (x1 := with_series _ _ _ (stress_data x) _ _ x).
  destruct (stress_of_never_raises x1 load) as (stress & Hs & _).
  destruct (strain_of_never_raises x1 position) as (strain & He & _).
  rewrite Hs, He. now exists stress, strain.
Qed.

Lemma add_data_point_never_raises (x : state) (timestamp load position : float) :
  snd (add_data_point x timestamp load position) = None.
Proof.
  destruct (is_plotting x) eqn:P.
  - destruct (add_data_point_appends x timestamp load position P)
      as (stress & strain & H).
    now rewrite H.
  - unfold add_data_point. now rewrite P.
Qed.

(** C8.  Recording a sample never raises, so no division by zero occurs; in
    recording mode it appends the sample with
    stress = load / specimen_area, and 0 when specimen_area <= 0, and
    strain = 100 * (position / gauge_length), and 0 when gauge_length <= 0;
    out of recording mode it leaves the plotter as it is. *)
Theorem record_sample_guards_division
        (x : state) (timestamp load position : float) :
  snd (add_data_point x timestamp load position) = None
  /\ (is_plotting x = true ->
      exists stress strain,
        fst (add_data_point x timestamp load position)
        = with_series (time_data x ++ [timestamp]) (load_data x ++ [load])
            (position_data x ++ [position]) (stress_data x ++ [stress])
            (strain_data x ++ [strain]) (displacement_data x ++ [position]) x
        /\ (PrimFloat.ltb 0%float (specimen_area x) = true ->
            stress = PrimFloat.div load (specimen_area x))
        /\ (PrimFloat.leb (specimen_area x) 0%float = true ->
            stress = 0%float)
        /\ (PrimFloat.ltb 0%float (gauge_length x) = true ->
            strain = PrimFloat.mul 100%float
                       (PrimFloat.div position (gauge_length x)))
        /\ (PrimFloat.leb (gauge_length x) 0%float = true ->
            strain = 0%float))
  /\ (is_plotting x = false ->
      fst (add_data_point x timestamp load position) = x).
Proof.
  unfold add_data_point.
  set (x1 := with_series _ _ _ (stress_data x) _ _ x).
  destruct (stress_of_never_raises x1 load) as (stress & Hs & Hs1 & Hs2).
  destruct (strain_of_never_raises x1 position) as (strain & He & He1 & He2).
  destruct (is_plotting x) eqn:P.
  - rewrite Hs, He. simpl. repeat split; try discriminate.
    intros _. exists stress, strain. repeat split; assumption.
  - repeat split; discriminate.
Qed.

(** C1 at its failing input: a series that holds [MAX_PLOT_POINTS] samples
    holds one more after [add_data_point], which never trims. *)
Theorem add_data_point_exceeds_capacity :
  let x := Recording.recording UTMConfig.MAX_PLOT_POINTS in
  let x' := fst (add_data_point x 1%float 2%float 3%float) in
  List.length (time_data x) = UTMConfig.MAX_PLOT_POINTS
  /\ List.length (time_data x') = S UTMConfig.MAX_PLOT_POINTS
  /\ List.length (stress_data x') = S UTMConfig.MAX_PLOT_POINTS
  /\ (UTMConfig.MAX_PLOT_POINTS < List.length (time_data x'))%nat.
Proof. vm_compute. repeat split. lia. Qed.

Lemma add_data_point_grows (x : state) (timestamp load position : float) :
  is_plotting x = true ->
  List.length (time_data (fst (add_data_point x timestamp load position)))
  = S (List.length (time_data x)).
Proof.
  intros P.
  destruct (add_data_point_appends x timestamp load position P)
    as (stress & strain & H).
  rewrite H. simpl. rewrite length_app. simpl. lia.
Qed.

End MeasurementPipeline.

(** ** The plot thread, the sibling path that does trim *)

Section PlotThread.

Import MaterialTestPlotter.

Lemma last_n_length {A : Type} (k : nat) (l : list A) :
  (0 < k)%nat -> List.length (Py.last_n k l) = Nat.min k (List.length l).
Proof.
  intros Hk. destruct k as [|k]; [lia|]. unfold Py.last_n.
  rewrite length_skipn. lia.
Qed.

(** The oldest entries go, the newest [k] stay, in their order. *)
Lemma last_n_fifo {A : Type} (k : nat) (l : list A) :
  (0 < k)%nat -> (k <= List.length l)%nat ->
  exists evicted,
    l = evicted ++ Py.last_n k l
    /\ List.length evicted = (List.length l - k)%nat.
Proof.
  intros Hk Hl. destruct k as [|k]; [lia|]. unfold Py.last_n.
  exists (firstn (List.length l - S k) l). split.
  - symmetry. apply firstn_skipn.
  - rewrite length_firstn. lia.
Qed.

Lemma limit_data_points_bounded (k : nat) (x : state) :
  (0 < k)%nat -> Recording.aligned x ->
  Recording.aligned (limit_data_points k x)
  /\ (List.length (time_data (limit_data_points k x)) <= k)%nat.
Proof.
  intros Hk (H1 & H2 & H3 & H4 & H5). unfold limit_data_points.
  destruct (Nat.ltb_spec k (List.length (time_data x))) as [Hlt|Hge].
  - unfold Recording.aligned. simpl. rewrite !last_n_length by assumption.
    rewrite H1, H2, H3, H4, H5. repeat split; lia.
  - split; [repeat split; assumption|lia].
Qed.

(** A turn of the plot loop appends one sample and then cuts the series
    back to the newest [MAX_PLOT_POINTS] samples, oldest first out. *)
Lemma plot_update_turn_bounded (x : state) (now load position : float) :
  Recording.aligned x ->
  let x' := fst (fst (_plot_update_turn x now load position)) in
  snd (fst (_plot_update_turn x now load position)) = None
  /\ Recording.aligned x'
  /\ (List.length (time_data x') <= UTMConfig.MAX_PLOT_POINTS)%nat
  /\ exists evicted,
       time_data x ++ [now] = evicted ++ time_data x'
       /\ List.length evicted
          = (S (List.length (time_data x)) - UTMConfig.MAX_PLOT_POINTS)%nat.
Proof.
  intros (H1 & H2 & H3 & H4 & H5). unfold _plot_update_turn.
  set (x1 := with_series _ _ _ (stress_data x) _ _ x).
  destruct (stress_of_never_raises x1 load) as (stress & Hs & _).
  destruct (strain_of_never_raises x1 position) as (strain & He & _).
  rewrite Hs, He. cbn [fst snd].
  set (x2 := with_series _ _ _ _ _ _ x1).
  assert (Ha : Recording.aligned x2).
  { unfold Recording.aligned, x2, x1. simpl. rewrite !length_app. simpl.
    repeat split; lia. }
  assert (Hk : (0 < UTMConfig.MAX_PLOT_POINTS)%nat)
    by (unfold UTMConfig.MAX_PLOT_POINTS; lia).
  destruct (limit_data_points_bounded _ x2 Hk Ha) as [Hal Hle].
  split; [reflexivity|]. split; [exact Hal|]. split; [exact Hle|].
  assert (Ht : time_data x2 = time_data x ++ [now]) by reflexivity.
  assert (Hlen : List.length (time_data x2) = S (List.length (time_data x)))
    by (rewrite Ht, length_app; simpl; lia).
  unfold limit_data_points.
  destruct (Nat.ltb_spec UTMConfig.MAX_PLOT_POINTS (List.length (time_data x2)))
    as [Hlt|Hge].
  - destruct (last_n_fifo UTMConfig.MAX_PLOT_POINTS (time_data x2) Hk
                ltac:(lia)) as (ev & Hev & Hevl).
    exists ev. split; [exact Hev|]. rewrite Hevl, Hlen. reflexivity.
  - exists []. split; [reflexivity|]. cbn [List.length]. lia.
Qed.

End PlotThread.

(** ** The material analysis *)

Section MaterialAnalysis.

Import MaterialTestPlotter AnalysisSpec.

Variable linregress : list float -> list float -> Py.Raised + float.

Lemma select_length (mask : list bool) (a b : list float) :
  List.length a = List.length b ->
  List.length (Np.select mask a) = List.length (Np.select mask b).
Proof.
  revert a b. induction mask as [|m mask IH]; intros a b H; [reflexivity|].
  destruct a as [|x a], b as [|y b]; try discriminate; [reflexivity|].
  simpl in *. destruct m; simpl; auto.
Qed.

Lemma amax_returns (a : list float) :
  a <> [] -> exists v, Np.amax a = inr v.
Proof. destruct a; [contradiction|]. intros _. simpl. eauto. Qed.

Lemma last_returns (a : list float) :
  a <> [] -> exists v, Np.last a = inr v.
Proof.
  intros H. unfold Np.last. destruct (rev a) eqn:E; [|eauto].
  apply (f_equal (@rev float)) in E. rewrite rev_involutive in E.
  contradiction.
Qed.

Lemma where_positive_in_range (a : list float) (i k : nat) :
  In k (Np.where_positive_from i a) -> (i <= k < i + List.length a)%nat.
Proof.
  revert i. induction a as [|x a IH]; intros i; simpl; [contradiction|].
  destruct (PrimFloat.ltb 0%float x); simpl; intros H.
  - destruct H as [H|H]; [lia|]. apply IH in H. lia.
  - apply IH in H. lia.
Qed.

Lemma yield_strength_returns (modulus : float) (stress strain : list float) :
  exists v, yield_strength_of modulus stress strain = inr v.
Proof.
  unfold yield_strength_of.
  set (diff := Np.sub stress _).
  destruct (Np.where_positive diff) as [|i l] eqn:E; [eauto|].
  assert (Hi : (i < List.length stress)%nat).
  { assert (H : In i (Np.where_positive_from 0 diff))
      by (unfold Np.where_positive in E; rewrite E; now left).
    apply where_positive_in_range in H.
    unfold diff, Np.sub in H. rewrite length_map, length_combine in H. lia. }
  unfold Py.index. destruct (nth_error stress i) eqn:N; [eauto|].
  apply nth_error_None in N. lia.
Qed.

(** Once the modulus is assigned, the remaining four assignments follow. *)
Lemma assign_properties_spec (x : state) (stress strain : list float) :
  stress <> [] -> strain <> [] ->
  (exists e,
      youngs_modulus_of linregress stress strain = inl e
      /\ assign_properties linregress x stress strain = (x, Some e))
  \/ (exists ym ys us fs el,
         youngs_modulus_of linregress stress strain = inr ym
         /\ yield_strength_of ym stress strain = inr ys
         /\ Np.amax stress = inr us
         /\ Np.last stress = inr fs
         /\ Np.last strain = inr el
         /\ assign_properties linregress x stress strain
            = (with_elongation_at_break el
                 (with_fracture_strength fs
                    (with_ultimate_strength us
                       (with_yield_strength ys (with_youngs_modulus ym x)))),
               None)).
Proof.
  intros Hs He. unfold assign_properties.
  destruct (youngs_modulus_of linregress stress strain) as [e|ym];
    [left; eauto|right].
  cbn [youngs_modulus with_youngs_modulus].
  destruct (yield_strength_returns ym stress strain) as [ys Hys].
  destruct (amax_returns stress Hs) as [us Hus].
  destruct (last_returns stress Hs) as [fs Hfs].
  destruct (last_returns strain He) as [el Hel].
  rewrite Hys, Hus, Hfs, Hel. exists ym, ys, us, fs, el.
  repeat split; assumption.
Qed.

Lemma nonempty_of_length (a : list float) (n : nat) :
  (n < List.length a)%nat -> a <> [].
Proof. destruct a; simpl; [lia|discriminate]. Qed.

(** C5.  The analysis ends with the "Insufficient Data" warning when a
    series has fewer than 10 samples and with the "not enough valid data
    points" warning when fewer than 5 samples are left after the
    non-finite ones are dropped; and every call either fails, leaving the
    plotter (so all five properties) as it was, or assigns all five
    properties from the filtered series. *)
Theorem analysis_all_or_nothing (x : state) :
  let x' := fst (calculate_material_properties linregress x) in
  let t := snd (calculate_material_properties linregress x) in
  ((List.length (stress_data x) < 10 \/ List.length (strain_data x) < 10)%nat ->
   x' = x /\ t = [insufficient_data_warning])
  /\ (forall valid,
         (10 <= List.length (stress_data x))%nat ->
         (10 <= List.length (strain_data x))%nat ->
         Np.finite_mask (stress_data x) (strain_data x) = inr valid ->
         (List.length (Np.select valid (stress_data x)) < 5)%nat ->
         x' = x /\ t = [invalid_data_warning])
  /\ ((x' = x /\ fails t)
      \/ (t = [UpdateResultsDisplay]
          /\ exists valid ym ys us fs el,
               Np.finite_mask (stress_data x) (strain_data x) = inr valid
               /\ let stress := Np.select valid (stress_data x) in
                  let strain := Np.select valid (strain_data x) in
                  youngs_modulus_of linregress stress strain = inr ym
                  /\ yield_strength_of ym stress strain = inr ys
                  /\ Np.amax stress = inr us
                  /\ Np.last stress = inr fs
                  /\ Np.last strain = inr el
                  /\ x' = with_elongation_at_break el
                            (with_fracture_strength fs
                               (with_ultimate_strength us
                                  (with_yield_strength ys
                                     (with_youngs_modulus ym x))))
                  /\ properties x' = (ym, ys, us, fs, el))).
Proof.
  unfold calculate_material_properties.
  destruct (Nat.ltb_spec (List.length (stress_data x)) 10) as [H1|H1];
    [|destruct (Nat.ltb_spec (List.length (strain_data x)) 10) as [H2|H2]];
    cbn [orb fst snd].
  1,2: split; [auto|]; split;
       [intros; lia|left; split; [reflexivity|left; now left]].
  split; [intros [?|?]; lia|].
  destruct (Np.finite_mask (stress_data x) (strain_data x)) as [e|valid] eqn:M.
  { cbn [fst snd]. split; [discriminate|].
    left. split; [reflexivity|now right]. }
  set (stress := Np.select valid (stress_data x)).
  set (strain := Np.select valid (strain_data x)).
  assert (Hlen : List.length stress = List.length strain).
  { apply select_length. unfold Np.finite_mask in M.
    destruct (Nat.eqb_spec (List.length (stress_data x))
                           (List.length (strain_data x)));
      [assumption|discriminate]. }
  destruct (Nat.ltb_spec (List.length stress) 5) as [H5|H5]; cbn [fst snd].
  { split.
    - intros v _ _ Hv _. split; reflexivity.
    - left. split; [reflexivity|left; now right]. }
  split.
  { intros v _ _ Hv Hlt. injection Hv as <-. fold stress in Hlt. lia. }
  destruct (assign_properties_spec x stress strain)
    as [(e & _ & Ha)|(ym & ys & us & fs & el & Hy & Hys & Hu & Hf & Hl & Ha)].
  - apply (nonempty_of_length _ 0). lia.
  - apply (nonempty_of_length _ 0). lia.
  - rewrite Ha. cbn [fst snd]. left. split; [reflexivity|now right].
  - rewrite Ha. cbn [fst snd]. right. split; [reflexivity|].
    exists valid, ym, ys, us, fs, el. repeat split; assumption.
Qed.

Lemma linear_end_truncates (n : nat) :
  (5 <= n)%nat -> linear_end n = truncated_region_size n.
Proof.
  intros Hn. unfold linear_end, truncated_region_size.
  destruct (Z.ltb_spec (twenty_percent n) 5); lia.
Qed.

Lemma slice_to_firstn (k : Z) (a : list float) :
  (0 <= k)%Z -> Py.slice_to k a = firstn (Z.to_nat k) a.
Proof.
  intros Hk. unfold Py.slice_to.
  destruct (Z.leb_spec 0 k); [reflexivity|lia].
Qed.

Lemma holds_from_spec (count : nat) (k : Z) (p : Z -> bool) :
  holds_from count k p = true ->
  forall z, (k <= z < k + Z.of_nat count)%Z -> p z = true.
Proof.
  revert k. induction count as [|count IH]; intros k H z Hz; [lia|].
  simpl in H. apply andb_prop in H. destruct H as [H1 H2].
  destruct (Z.eq_dec z k) as [->|Hne]; [exact H1|].
  apply (IH (k + 1)%Z H2). lia.
Qed.

(** For series of up to 10000 samples, ten times the plot capacity,
    [int(n * 0.2)] in double arithmetic is the integer quotient of [n] by 5. *)
Lemma twenty_percent_is_fifth (n : nat) :
  (Z.of_nat n <= 10000)%Z ->
  twenty_percent n = (Z.of_nat n / 5)%Z.
Proof.
  intros Hn.
  assert (H : holds_from (Z.to_nat 10001) 0
                (fun z => (Py.int_of_float
                             (PrimFloat.mul (Py.float_of_int z) point_two)
                           =? z / 5)%Z) = true)
    by (vm_compute; reflexivity).
  apply Z.eqb_eq.
  apply (holds_from_spec _ _ _ H (Z.of_nat n)).
  rewrite Z2Nat.id; lia.
Qed.

(** C6, as amended.  For a filtered series of [n >= 5] samples the linear
    region is the first max(5, int(0.2 * n)) samples, [int] cutting the
    fraction off; the modulus is 1000 times the slope that the
    least-squares fit of stress against strain over that region returns
    (and the fit's exception when it raises); and for any series whose
    linear region has fewer than 2 points the modulus is 0. *)
Theorem youngs_modulus_is_scaled_slope (stress strain : list float) :
  let n := List.length stress in
  let size := Z.to_nat (truncated_region_size n) in
  ((5 <= n)%nat ->
   linear_region stress = firstn size stress
   /\ (forall slope,
          linregress (firstn size strain) (firstn size stress) = inr slope ->
          youngs_modulus_of linregress stress strain
          = inr (PrimFloat.mul slope 1000%float))
   /\ (forall e,
          linregress (firstn size strain) (firstn size stress) = inl e ->
          youngs_modulus_of linregress stress strain = inl e))
  /\ ((List.length (linear_region stress) < 2)%nat ->
      youngs_modulus_of linregress stress strain = inr 0%float).
Proof.
  intros n size. split.
  - intros Hn.
    assert (Hsize : (0 <= truncated_region_size n)%Z)
      by (unfold truncated_region_size; lia).
    assert (Hreg : forall a : list float,
               Py.slice_to (linear_end n) a = firstn size a).
    { intros a. rewrite (linear_end_truncates n Hn).
      now apply slice_to_firstn. }
    assert (Hlen : (2 <= List.length (firstn size stress))%nat).
    { rewrite length_firstn. unfold size, truncated_region_size. fold n. lia. }
    split; [apply Hreg|].
    unfold youngs_modulus_of. fold n. rewrite !Hreg.
    destruct (Nat.leb_spec 2 (List.length (firstn size stress))); [|lia].
    split; intros v Hv; now rewrite Hv.
  - unfold linear_region, youngs_modulus_of. fold n. intros Hlt.
    destruct (Nat.leb_spec 2 (List.length (Py.slice_to (linear_end n) stress)));
      [lia|reflexivity].
Qed.

End MaterialAnalysis.

(** C6, the claim as worded, fails: of 28 samples the code fits the first 5,
    the specification's rule max(5, round(0.2 * 28)) asks for the first 6. *)
Lemma linear_region_truncates_not_rounds :
  let stress := AnalysisSpec.ramp 28 in
  List.length (MaterialTestPlotter.linear_region stress) = 5%nat
  /\ List.length (AnalysisSpec.rounded_linear_region stress) = 6%nat
  /\ MaterialTestPlotter.linear_region stress
     <> AnalysisSpec.rounded_linear_region stress.
Proof.
  split; [vm_compute; reflexivity|]. split; [vm_compute; reflexivity|].
  intros H. apply (f_equal (@List.length float)) in H.
  vm_compute in H. discriminate H.
Qed.

Lemma youngs_modulus_is_scaled_slope_witness :
  let stress := map (fun e => PrimFloat.mul 200%float e) (AnalysisSpec.ramp 10) in
  let strain := AnalysisSpec.ramp 10 in
  (5 <= List.length stress)%nat
  /\ MaterialTestPlotter.youngs_modulus_of AnalysisSpec.least_squares_slope
       stress strain = inr 200000%float.
Proof.
  intros stress strain. split; [vm_compute; lia|].
  exact (proj1 (proj2 (proj1
    (youngs_modulus_is_scaled_slope AnalysisSpec.least_squares_slope
       stress strain) ltac:(vm_compute; lia))) 200%float eq_refl).
Defined.

(** ** Traces *)

Lemma filter_nil_app {A : Type} (p : A -> bool) (l1 l2 : list A) :
  filter p l1 = [] -> filter p l2 = [] -> filter p (l1 ++ l2) = [].
Proof. intros H1 H2. now rewrite filter_app, H1, H2. Qed.

Lemma filter_nil_cons {A : Type} (p : A -> bool) (a : A) (l : list A) :
  p a = false -> filter p l = [] -> filter p (a :: l) = [].
Proof. intros H1 H2. simpl. now rewrite H1. Qed.

(** Case analysis on every test a goal still holds. *)
Ltac split_tests :=
  repeat match goal with
         | |- context [if ?b then _ else _] => destruct b eqn:?
         | |- context [match ?x with _ => _ end] => destruct x eqn:?
         end.

(** ** The safety monitor *)

Section Safety.

Import SafetySpec.

Lemma handler_error_no_safety (h : SerialHandler.state) :
  no_safety_callback (snd (SerialHandler._handle_connection_error h)).
Proof.
  unfold SerialHandler._handle_connection_error,
    SerialHandler.notify_connection, no_safety_callback.
  split_tests; reflexivity.
Qed.

Lemma send_command_no_safety
      (w : SerialHandler.WriteOutcome) (h : SerialHandler.state) (s : string) :
  no_safety_callback (snd (SerialHandler.send_command w h s)).
Proof.
  pose proof (handler_error_no_safety h) as H.
  unfold SerialHandler.send_command, no_safety_callback in *.
  destruct (SerialHandler._handle_connection_error h) as [h1 e1].
  simpl in H. split_tests; simpl; try rewrite H; reflexivity.
Qed.

Lemma send_no_safety
      (w : SerialHandler.WriteOutcome) (c : UTMController.state) (s : string) :
  no_safety_callback (snd (UTMController.send w c s)).
Proof.
  pose proof (send_command_no_safety w (UTMController.serial_handler c) s) as H.
  unfold UTMController.send.
  destruct (SerialHandler.send_command _ _ _) as [[h ok] t]. exact H.
Qed.

Ltac command_no_safety w c s :=
  let H := fresh in
  pose proof (send_no_safety w c s) as H;
  unfold no_safety_callback in *;
  destruct (UTMController.send w c s) as [[? ?] ?];
  simpl in H; split_tests; simpl; rewrite ?H; reflexivity.

Lemma open_command_no_safety w c :
  no_safety_callback (snd (UTMController.open_command w c)).
Proof. unfold UTMController.open_command. command_no_safety w c "1". Qed.

Lemma close_command_no_safety w c :
  no_safety_callback (snd (UTMController.close_command w c)).
Proof. unfold UTMController.close_command. command_no_safety w c "2". Qed.

Lemma stop_command_no_safety w c :
  no_safety_callback (snd (UTMController.stop_command w c)).
Proof. unfold UTMController.stop_command. command_no_safety w c "0". Qed.

Lemma zero_command_no_safety w c :
  no_safety_callback (snd (UTMController.zero_command w c)).
Proof. unfold UTMController.zero_command. command_no_safety w c "Z". Qed.

Lemma pcb_button_no_safety w c code :
  no_safety_callback (snd (UTMController.handle_pcb_button w c code)).
Proof.
  pose proof (open_command_no_safety w c).
  pose proof (close_command_no_safety w c).
  pose proof (stop_command_no_safety w c).
  pose proof (zero_command_no_safety w c).
  unfold UTMController.handle_pcb_button, no_safety_callback in *.
  destruct (UTMController.open_command w c), (UTMController.close_command w c),
    (UTMController.stop_command w c), (UTMController.zero_command w c).
  simpl in *. split_tests; simpl; assumption || reflexivity.
Qed.

Section Frames.

Variable py_float : string -> option float.
Variable py_int : string -> option Z.

Lemma dispatch_no_safety w c data :
  no_safety_callback
    (snd (fst (UTMController.dispatch py_float py_int w c data))).
Proof.
  unfold UTMController.dispatch.
  destruct (Py.startswith data "LOAD:");
    [destruct (UTMController.payload data) as [?|s];
     [|destruct (py_float s)]; reflexivity|].
  destruct (Py.startswith data "POS:");
    [destruct (UTMController.payload data) as [?|s];
     [|destruct (py_float s)]; reflexivity|].
  destruct (Py.startswith data "STATE:");
    [destruct (UTMController.payload data); reflexivity|].
  destruct (Py.startswith data "BTN:").
  { destruct (UTMController.payload data) as [?|s]; [reflexivity|].
    pose proof (pcb_button_no_safety w c s) as H.
    destruct (UTMController.handle_pcb_button w c s). exact H. }
  destruct (Py.startswith data "SPEED:"); [|reflexivity].
  destruct (UTMController.payload data) as [?|s];
    [|destruct (py_int s)]; reflexivity.
Qed.

(** Handling a frame, the sample it records included, calls no safety
    callback. *)
Lemma handle_serial_data_no_safety w now c data :
  no_safety_callback
    (snd (fst (UTMController.handle_serial_data py_float py_int w now c data))).
Proof.
  pose proof (dispatch_no_safety w c data) as H.
  unfold UTMController.handle_serial_data, no_safety_callback in *.
  destruct (UTMController.dispatch py_float py_int w c data) as [[c1 t] r].
  simpl in H. destruct r; [exact H|].
  destruct (MaterialTestPlotter.is_plotting _);
    [destruct (MaterialTestPlotter.add_data_point _ _ _ _)|];
    cbn [fst snd]; (apply filter_nil_app; [exact H|reflexivity]).
Qed.

End Frames.

Lemma plot_update_turn_no_safety x now load position :
  no_safety_callback
    (snd (MaterialTestPlotter._plot_update_turn x now load position)).
Proof.
  unfold MaterialTestPlotter._plot_update_turn, no_safety_callback.
  split_tests; reflexivity.
Qed.

Lemma check_delivers (m : SafetyMonitor.state) (load position : float) :
  snd (SafetyMonitor.check_safety_limits m load position)
  = match SafetyMonitor.violations_of m load position with
    | [] => []
    | v => map (fun observer => SafetyCallback observer v)
               (SafetyMonitor.safety_callbacks m)
    end.
Proof.
  unfold SafetyMonitor.check_safety_limits. simpl.
  now destruct (SafetyMonitor.violations_of m load position).
Qed.

(** C9, the claim as worded, fails on its last part: a frame that makes a
    recording controller store a load of 15000 N hands nothing to the
    observer of a monitor with the default limits. *)
Lemma recording_calls_no_safety_callback :
  ~ detected_on_every_sample PlainLiteral.float_of_string
      PlainLiteral.int_of_string.
Proof.
  intros H.
  specialize (H (SafetyMonitor.add_safety_callback 0 SafetyMonitor.init)
                SerialHandler.WriteOk 0%float
                ProtocolSpec.plotting_controller "LOAD:15000" 0%nat
                eq_refl (or_introl eq_refl)).
  vm_compute in H.
  destruct H as [H|[H|[]]]; discriminate.
Qed.

(** C9, as amended.  With the default limits, checking a load of 15000 at
    position 0 reports exactly one violation, the load breach, and
    checking load 0 at position 0 reports none; whenever the check finds
    violations it hands the whole list to every registered callback, and
    calls none otherwise; handling a frame and a turn of the plot loop,
    the two places where samples are recorded, call no safety callback. *)
Theorem safety_check_reports_to_observers :
  SafetyMonitor.violations_of SafetyMonitor.init 15000%float 0%float
  = [LoadExceededMaximum 15000%float 10000%float]
  /\ fst (SafetyMonitor.check_safety_limits SafetyMonitor.init
            15000%float 0%float) = false
  /\ SafetyMonitor.violations_of SafetyMonitor.init 0%float 0%float = []
  /\ fst (SafetyMonitor.check_safety_limits SafetyMonitor.init
            0%float 0%float) = true
  /\ (forall m load position,
         let v := SafetyMonitor.violations_of m load position in
         (v <> [] ->
          snd (SafetyMonitor.check_safety_limits m load position)
          = map (fun observer => SafetyCallback observer v)
                (SafetyMonitor.safety_callbacks m)
          /\ forall observer,
               In observer (SafetyMonitor.safety_callbacks m) ->
               In (SafetyCallback observer v)
                  (snd (SafetyMonitor.check_safety_limits m load position)))
         /\ (v = [] ->
             snd (SafetyMonitor.check_safety_limits m load position) = []))
  /\ (forall py_float py_int w now c data,
         no_safety_callback
           (snd (fst (UTMController.handle_serial_data py_float py_int
                        w now c data))))
  /\ (forall x now load position,
         no_safety_callback
           (snd (MaterialTestPlotter._plot_update_turn x now load position))).
Proof.
  split; [reflexivity|]. split; [reflexivity|].
  split; [reflexivity|]. split; [reflexivity|].
  split; [|split].
  - intros m load position v. rewrite check_delivers. fold v. split.
    + intros Hv. destruct v as [|v0 v']; [contradiction|].
      split; [reflexivity|]. intros observer Hin.
      apply (in_map (fun o => SafetyCallback o (v0 :: v'))). exact Hin.
    + intros ->. reflexivity.
  - intros. apply handle_serial_data_no_safety.
  - intros. apply plot_update_turn_no_safety.
Qed.

End Safety.

(** ** The machine state and the dispatcher *)

Section Controller.

Import UTMController ProtocolSpec.

(** C10.  A connectivity notification overwrites the machine state whatever
    it was: "Connected" on a connection, "Disconnected" on a loss; the
    connection flag follows and nothing else changes. *)
Theorem connectivity_overwrites_machine_state (c : state) :
  handle_connection_change c true
  = mk "Connected" (load_value c) (position_value c) true
       (serial_handler c) (graph_plotter c)
  /\ handle_connection_change c false
     = mk "Disconnected" (load_value c) (position_value c) false
          (serial_handler c) (graph_plotter c)
  /\ machine_state
       (handle_connection_change (with_machine_state "Opening" c) true)
     = "Connected"
  /\ machine_state
       (handle_connection_change (with_machine_state "Turboset Running" c) true)
     = "Connected".
Proof. repeat split. Qed.

Lemma payload_of_fields (tag rest : string) :
  Py.split Py.colon (tag ++ String Py.colon rest)
  = tag :: Py.split Py.colon rest ->
  Py.index (Py.split Py.colon (tag ++ String Py.colon rest)) 1
  = inr (first_field rest).
Proof.
  intros ->. unfold Py.index, first_field. simpl.
  pose proof (split_nonempty Py.colon rest).
  destruct (Py.split Py.colon rest); [contradiction|reflexivity].
Qed.

Lemma payload_after_tag (tag rest : string) :
  Py.contains Py.colon tag = false ->
  payload (tag ++ String Py.colon rest) = inr (first_field rest).
Proof.
  intros H. apply payload_of_fields. now apply split_app.
Qed.

Lemma startswith_prefix (p rest : string) :
  Py.startswith (p ++ rest) p = true.
Proof.
  unfold Py.startswith. induction p as [|a p IH]; simpl.
  - now destruct rest.
  - destruct (ascii_dec a a); [exact IH|contradiction].
Qed.

Lemma first_field_whole (s : string) :
  Py.contains Py.colon s = false -> first_field s = s.
Proof. intros H. unfold first_field. now rewrite split_no_sep. Qed.

Section Frames.

Variable py_float : string -> option float.
Variable py_int : string -> option Z.

Lemma dispatch_load (w : SerialHandler.WriteOutcome) (c : state) (rest : string) :
  dispatch py_float py_int w c ("LOAD:" ++ rest)
  = match py_float (first_field rest) with
    | Some v => (with_load_value v c, [], None)
    | None => (c, [], Some Py.ValueError)
    end.
Proof.
  unfold UTMController.dispatch.
  rewrite (startswith_prefix "LOAD:" rest).
  change ("LOAD:" ++ rest)%string with ("LOAD" ++ String Py.colon rest)%string.
  now rewrite payload_after_tag.
Qed.

Lemma dispatch_pos (w : SerialHandler.WriteOutcome) (c : state) (rest : string) :
  dispatch py_float py_int w c ("POS:" ++ rest)
  = match py_float (first_field rest) with
    | Some v => (with_position_value v c, [], None)
    | None => (c, [], Some Py.ValueError)
    end.
Proof.
  unfold UTMController.dispatch.
  change (Py.startswith ("POS:" ++ rest) "LOAD:") with false.
  rewrite (startswith_prefix "POS:" rest).
  change ("POS:" ++ rest)%string with ("POS" ++ String Py.colon rest)%string.
  now rewrite payload_after_tag.
Qed.

Lemma dispatch_state (w : SerialHandler.WriteOutcome) (c : state) (label : string) :
  dispatch py_float py_int w c ("STATE:" ++ label)
  = (with_machine_state (first_field label) c, [], None).
Proof.
  unfold UTMController.dispatch.
  change (Py.startswith ("STATE:" ++ label) "LOAD:") with false.
  change (Py.startswith ("STATE:" ++ label) "POS:") with false.
  rewrite (startswith_prefix "STATE:" label).
  change ("STATE:" ++ label)%string
    with ("STATE" ++ String Py.colon label)%string.
  now rewrite payload_after_tag.
Qed.

Lemma dispatch_speed (w : SerialHandler.WriteOutcome) (c : state) (rest : string) :
  dispatch py_float py_int w c ("SPEED:" ++ rest)
  = match py_int (first_field rest) with
    | Some n => (c, [UpdateCurrentSpeed n], None)
    | None => (c, [], Some Py.ValueError)
    end.
Proof.
  unfold UTMController.dispatch.
  change (Py.startswith ("SPEED:" ++ rest) "LOAD:") with false.
  change (Py.startswith ("SPEED:" ++ rest) "POS:") with false.
  change (Py.startswith ("SPEED:" ++ rest) "STATE:") with false.
  change (Py.startswith ("SPEED:" ++ rest) "BTN:") with false.
  rewrite (startswith_prefix "SPEED:" rest).
  change ("SPEED:" ++ rest)%string
    with ("SPEED" ++ String Py.colon rest)%string.
  rewrite payload_after_tag by reflexivity.
  now destruct (py_int (first_field rest)).
Qed.

Lemma dispatch_button (w : SerialHandler.WriteOutcome) (c : state) (rest : string) :
  dispatch py_float py_int w c ("BTN:" ++ rest)
  = (fst (handle_pcb_button w c (first_field rest)),
     snd (handle_pcb_button w c (first_field rest)), None).
Proof.
  unfold UTMController.dispatch.
  change (Py.startswith ("BTN:" ++ rest) "LOAD:") with false.
  change (Py.startswith ("BTN:" ++ rest) "POS:") with false.
  change (Py.startswith ("BTN:" ++ rest) "STATE:") with false.
  rewrite (startswith_prefix "BTN:" rest).
  change ("BTN:" ++ rest)%string with ("BTN" ++ String Py.colon rest)%string.
  rewrite payload_after_tag by reflexivity.
  now destruct (handle_pcb_button w c (first_field rest)).
Qed.

Lemma dispatch_unrecognized (w : SerialHandler.WriteOutcome) (c : state)
      (data : string) :
  unrecognized data -> dispatch py_float py_int w c data = (c, [], None).
Proof.
  intros (H1 & H2 & H3 & H4 & H5). unfold UTMController.dispatch.
  now rewrite H1, H2, H3, H4, H5.
Qed.

(** A frame with none of the prefixes leaves the machine state, the
    telemetry and the handler alone; it still refreshes the displays and, in
    recording mode, records a sample of the latest values. *)
Lemma handle_unrecognized (w : SerialHandler.WriteOutcome) (now : float)
      (c : state) (data : string) :
  unrecognized data ->
  let r := handle_serial_data py_float py_int w now c data in
  snd r = None
  /\ machine_state (fst (fst r)) = machine_state c
  /\ load_value (fst (fst r)) = load_value c
  /\ position_value (fst (fst r)) = position_value c
  /\ is_connected (fst (fst r)) = is_connected c
  /\ serial_handler (fst (fst r)) = serial_handler c
  /\ snd (fst r) = [UpdateLoadDisplay (load_value c);
                    UpdatePositionDisplay (position_value c)].
Proof.
  intros H. unfold UTMController.handle_serial_data.
  rewrite (dispatch_unrecognized w c data H).
  destruct (MaterialTestPlotter.is_plotting (graph_plotter c));
    [|now repeat split].
  pose proof (add_data_point_never_raises (graph_plotter c) now (load_value c)
                (position_value c)) as Hr.
  destruct (MaterialTestPlotter.add_data_point _ _ _ _) as [g r].
  cbn [fst snd] in *. now repeat split.
Qed.

Hypothesis float_of_12_5 : py_float "12.5" = Some 12.5%float.

(** What [handle_serial_data] adds to a dispatch that raises nothing: the
    refresh of the two displays and, in recording mode, a sample; the
    fields that the dispatcher sets are left as it set them. *)
Lemma handle_after_dispatch (w : SerialHandler.WriteOutcome) (now : float)
      (c c1 : state) (t : list Effect) (data : string) :
  dispatch py_float py_int w c data = (c1, t, None) ->
  let r := handle_serial_data py_float py_int w now c data in
  snd r = None
  /\ machine_state (fst (fst r)) = machine_state c1
  /\ load_value (fst (fst r)) = load_value c1
  /\ position_value (fst (fst r)) = position_value c1
  /\ is_connected (fst (fst r)) = is_connected c1
  /\ serial_handler (fst (fst r)) = serial_handler c1
  /\ snd (fst r) = t ++ [UpdateLoadDisplay (load_value c1);
                         UpdatePositionDisplay (position_value c1)].
Proof.
  intros H. unfold UTMController.handle_serial_data. rewrite H.
  destruct (MaterialTestPlotter.is_plotting (graph_plotter c1));
    [|now repeat split].
  pose proof (add_data_point_never_raises (graph_plotter c1) now
                (load_value c1) (position_value c1)) as Hr.
  destruct (MaterialTestPlotter.add_data_point _ _ _ _) as [g r].
  cbn [fst snd] in *. now repeat split.
Qed.

(** C3, as amended.  The dispatcher goes by the prefix of the frame and
    takes as payload the text between the first colon and the next one
    (all of the remainder when it holds no further colon).  For every
    frame: "LOAD:" sets the load, and "POS:" the position, to the number
    that the payload parses to, so "LOAD:12.5" sets the load to 12.5;
    "SPEED:" hands the integer of the payload to the speed display; "BTN:"
    highlights the button and runs the open, close, stop or zero command
    for the payloads 1, 2, 3, 4, so "BTN:3" runs the stop command, and does
    nothing for any other payload; "STATE:<label>" sets the machine state to
    the payload of the label; in each case nothing else of the controller
    changes in the dispatcher, and [handle_serial_data] goes on to refresh
    the displays.  A frame with none of the prefixes changes neither the
    machine state nor the telemetry nor the handler and raises nothing; a
    frame whose numeric payload does not parse changes nothing, the
    exception is caught inside the handler, and the frames after it are
    handled as if it had not been there. *)
Theorem dispatcher_classifies_by_prefix
        (w : SerialHandler.WriteOutcome) (now : float) (c : state) :
  dispatch py_float py_int w c "LOAD:12.5" = (with_load_value 12.5%float c, [], None)
  /\ dispatch py_float py_int w c "BTN:3"
     = (fst (stop_command w c),
        HighlightButton "3" :: snd (stop_command w c), None)
  /\ (forall label,
         dispatch py_float py_int w c ("STATE:" ++ label)
         = (with_machine_state (first_field label) c, [], None)
         /\ (Py.contains Py.colon label = false ->
             first_field label = label))
  /\ dispatch py_float py_int w c "garbage" = (c, [], None)
  /\ dispatch py_float py_int w c "BTN:9" = (c, [], None)
  /\ (forall data,
         unrecognized data ->
         dispatch py_float py_int w c data = (c, [], None)
         /\ let r := handle_serial_data py_float py_int w now c data in
            snd r = None
            /\ machine_state (fst (fst r)) = machine_state c
            /\ load_value (fst (fst r)) = load_value c
            /\ position_value (fst (fst r)) = position_value c
            /\ serial_handler (fst (fst r)) = serial_handler c)
  /\ (forall rest,
         py_float (first_field rest) = None ->
         handle_serial_data py_float py_int w now c ("LOAD:" ++ rest)
         = (c, [], Some Py.ValueError)
         /\ handle_serial_data py_float py_int w now c ("POS:" ++ rest)
            = (c, [], Some Py.ValueError))
  /\ (forall rest,
         py_int (first_field rest) = None ->
         handle_serial_data py_float py_int w now c ("SPEED:" ++ rest)
         = (c, [], Some Py.ValueError))
  /\ (forall data e t,
         handle_serial_data py_float py_int w now c data = (c, [], Some e) ->
         Session.run_data_callbacks py_float py_int w now
           (DataCallback data :: t) c
         = Session.run_data_callbacks py_float py_int w now t c)
  /\ (forall rest v,
         py_float (first_field rest) = Some v ->
         dispatch py_float py_int w c ("LOAD:" ++ rest)
         = (with_load_value v c, [], None)
         /\ dispatch py_float py_int w c ("POS:" ++ rest)
            = (with_position_value v c, [], None))
  /\ (forall rest n,
         py_int (first_field rest) = Some n ->
         dispatch py_float py_int w c ("SPEED:" ++ rest)
         = (c, [UpdateCurrentSpeed n], None))
  /\ (forall rest,
         let code := first_field rest in
         let pressed (command : SerialHandler.WriteOutcome -> state
                                -> state * list Effect) :=
           (fst (command w c), HighlightButton code :: snd (command w c),
            @None Py.Raised) in
         dispatch py_float py_int w c ("BTN:" ++ rest)
         = if (code =? "1")%string then pressed open_command
           else if (code =? "2")%string then pressed close_command
           else if (code =? "3")%string then pressed stop_command
           else if (code =? "4")%string then pressed zero_command
           else (c, [], None))
  /\ (forall data c1 t,
         dispatch py_float py_int w c data = (c1, t, None) ->
         let r := handle_serial_data py_float py_int w now c data in
         snd r = None
         /\ machine_state (fst (fst r)) = machine_state c1
         /\ load_value (fst (fst r)) = load_value c1
         /\ position_value (fst (fst r)) = position_value c1
         /\ is_connected (fst (fst r)) = is_connected c1
         /\ serial_handler (fst (fst r)) = serial_handler c1
         /\ snd (fst r) = t ++ [UpdateLoadDisplay (load_value c1);
                                UpdatePositionDisplay (position_value c1)]).
Proof.
  split.
  { change "LOAD:12.5" with ("LOAD:" ++ "12.5")%string.
    rewrite dispatch_load.
    change (first_field "12.5") with "12.5". now rewrite float_of_12_5. }
  split.
  { change "BTN:3" with ("BTN:" ++ "3")%string. rewrite dispatch_button.
    change (first_field "3") with "3". unfold handle_pcb_button.
    cbn [String.eqb Ascii.eqb Bool.eqb].
    now destruct (stop_command w c). }
  split.
  { intros label. split; [apply dispatch_state|apply first_field_whole]. }
  split; [reflexivity|].
  split; [reflexivity|].
  split.
  { intros data H. split; [now apply dispatch_unrecognized|].
    destruct (handle_unrecognized w now c data H) as (U1 & U2 & U3 & U4 & _ & U6 & _).
    now repeat split. }
  split.
  { intros rest H. unfold UTMController.handle_serial_data.
    now rewrite dispatch_load, dispatch_pos, H. }
  split.
  { intros rest H. unfold UTMController.handle_serial_data.
    now rewrite dispatch_speed, H. }
  split.
  { intros data e t H. cbn [Session.run_data_callbacks]. rewrite H.
    now destruct (Session.run_data_callbacks py_float py_int w now t c). }
  split.
  { intros rest v H. now rewrite dispatch_load, dispatch_pos, H. }
  split.
  { intros rest n H. now rewrite dispatch_speed, H. }
  split.
  { intros rest. cbv zeta. rewrite dispatch_button. unfold handle_pcb_button.
    destruct (first_field rest =? "1")%string;
      [now destruct (open_command w c)|].
    destruct (first_field rest =? "2")%string;
      [now destruct (close_command w c)|].
    destruct (first_field rest =? "3")%string;
      [now destruct (stop_command w c)|].
    destruct (first_field rest =? "4")%string;
      [now destruct (zero_command w c)|].
    reflexivity. }
  intros data c1 t H. now apply handle_after_dispatch.
Qed.

End Frames.

(** C3, the claim as worded, fails for a label that holds a colon: the
    machine state becomes the text up to that colon, not the whole
    remainder of the frame. *)
Lemma state_label_stops_at_colon :
  let r := handle_serial_data PlainLiteral.float_of_string
             PlainLiteral.int_of_string SerialHandler.WriteOk 0%float init
             "STATE:Error:42" in
  machine_state (fst (fst r)) = "Error"
  /\ machine_state (fst (fst r)) <> "Error:42".
Proof. split; [reflexivity|]. vm_compute. discriminate. Qed.

Lemma dispatcher_classifies_by_prefix_witness :
  PlainLiteral.float_of_string "12.5" = Some 12.5%float
  /\ dispatch PlainLiteral.float_of_string PlainLiteral.int_of_string
       SerialHandler.WriteOk init "LOAD:12.5"
     = (with_load_value 12.5%float init, [], None).
Proof.
  split; [reflexivity|].
  exact (proj1 (dispatcher_classifies_by_prefix PlainLiteral.float_of_string
                  PlainLiteral.int_of_string eq_refl SerialHandler.WriteOk
                  0%float init)).
Defined.

End Controller.

(** ** Commands without a connection *)

Section Commands.

Import UTMController CommandSpec.









End Commands.

(** ** The reconnection supervisor *)

Section Reconnection.

Import ReconnectSpec.

Lemma delayed_quiet (t : list Effect) :
  open_attempts t = [] -> delayed_attempts t.
Proof.
  unfold open_attempts. induction t as [|e t IH]; simpl; [constructor|].
  destruct (is_transport_open e) eqn:E; [discriminate|].
  intros H. constructor; auto.
Qed.

Lemma delayed_app_quiet (t1 t2 : list Effect) :
  open_attempts t1 = [] -> delayed_attempts t2 -> delayed_attempts (t1 ++ t2).
Proof.
  unfold open_attempts. induction t1 as [|e t1 IH]; simpl; [trivial|].
  destruct (is_transport_open e) eqn:E; [discriminate|].
  intros H1 H2. constructor; auto.
Qed.

Lemma only_losses_app (t1 t2 : list Effect) :
  only_losses (t1 ++ t2) = only_losses t1 && only_losses t2.
Proof.
  induction t1 as [|e t1 IH]; simpl; [reflexivity|].
  destruct e; simpl; rewrite ?IH, ?andb_assoc; reflexivity.
Qed.

(** One attempt, made while disconnected: the open comes first, nothing
    after it opens again or starts a thread, and a failed attempt leaves
    the handler disconnected and reports nothing but a loss. *)
Lemma connect_while_disconnected
      (env : SerialHandler.ConnectEnv) (h : SerialHandler.state)
      (p : string) (b : Z) :
  SerialHandler.connected h = false ->
  exists rest,
    snd (SerialHandler.connect env h p b) = TransportOpen p b :: rest
    /\ open_attempts rest = []
    /\ starts_no_reconnection rest
    /\ SerialHandler.connection_callback (fst (fst (SerialHandler.connect env h p b)))
       = SerialHandler.connection_callback h
    /\ (snd (fst (SerialHandler.connect env h p b)) = false ->
        SerialHandler.connected (fst (fst (SerialHandler.connect env h p b)))
        = false
        /\ only_losses rest = true)
    /\ (fails env -> snd (fst (SerialHandler.connect env h p b)) = false).
Proof.
  intros H. unfold SerialHandler.connect, fails. rewrite H.
  unfold SerialHandler.notify_connection.
  destruct env as [[|[|]] cr]; cbn;
    destruct (SerialHandler.connection_callback h); cbn;
    eexists; (split; [reflexivity|]); repeat split;
    try reflexivity; try discriminate; try congruence.
Qed.

Lemma reconnect_loop_spec (remaining : nat)
      (envs : nat -> SerialHandler.ConnectEnv) (h : SerialHandler.state)
      (p : string) :
  let r := SerialHandler.reconnect_loop remaining envs h p in
  (List.length (open_attempts (snd r)) <= remaining)%nat
  /\ delayed_attempts (snd r)
  /\ starts_no_reconnection (snd r)
  /\ SerialHandler.connection_callback (fst r)
     = SerialHandler.connection_callback h
  /\ ((forall k, fails (envs k)) ->
      SerialHandler.connected h = false ->
      List.length (open_attempts (snd r)) = remaining
      /\ SerialHandler.connected (fst r) = false
      /\ only_losses (snd r) = true).
Proof.
  revert h. induction remaining as [|remaining IH]; intros h; cbn zeta.
  { simpl. repeat split; try constructor; auto. }
  cbn [SerialHandler.reconnect_loop].
  destruct (SerialHandler.connected h) eqn:C.
  { simpl. repeat split; try constructor; try lia; discriminate. }
  destruct (connect_while_disconnected (envs remaining) h p
              (SerialHandler.baudrate h) C)
    as (rest & Ht & Hq & Hs & Hcb & Hfail & Hok).
  destruct (SerialHandler.connect (envs remaining) h p (SerialHandler.baudrate h))
    as [[h1 ok] e1].
  cbn [fst snd] in *. subst e1. destruct ok.
  - cbn [fst snd]. split; [|split; [|split; [|split]]].
    + unfold open_attempts in *. simpl. rewrite Hq. simpl. lia.
    + apply delayed_attempt. now apply delayed_quiet.
    + exact Hs.
    + exact Hcb.
    + intros Hall _. specialize (Hok (Hall remaining)). discriminate.
  - destruct (Hfail eq_refl) as [C1 L1].
    specialize (IH h1). cbn zeta in IH.
    destruct (SerialHandler.reconnect_loop remaining envs h1 p) as [h2 e2].
    cbn [fst snd] in *.
    destruct IH as (I1 & I2 & I3 & I4 & I5).
    split; [|split; [|split; [|split]]].
    + unfold open_attempts in *. simpl. rewrite filter_app, Hq. simpl. lia.
    + simpl. apply delayed_attempt. now apply delayed_app_quiet.
    + unfold starts_no_reconnection in *. simpl.
      rewrite filter_app, Hs, I3. reflexivity.
    + congruence.
    + intros Hall _. destruct (I5 Hall C1) as (J1 & J2 & J3).
      split; [|split].
      * unfold open_attempts in *. simpl. rewrite filter_app, Hq. simpl. lia.
      * exact J2.
      * simpl. now rewrite only_losses_app, L1, J3.
Qed.


Lemma callbacks_keep_handler (t : list Effect) (c : UTMController.state) :
  UTMController.serial_handler (UTMController.run_connection_callbacks t c)
  = UTMController.serial_handler c.
Proof.
  revert c. induction t as [|e t IH]; intros c; [reflexivity|].
  destruct e; simpl; rewrite ?IH; try reflexivity.
  now destruct connected.
Qed.



End Reconnection.

Section Sessions.

Import ReconnectSpec.

Variable py_float : string -> option float.
Variable py_int : string -> option Z.










End Sessions.




(** * Further properties *)

(** ** The accumulator of the line framer *)

Section Accumulator.

Import Framing.

Lemma append_empty_r (s : string) : (s ++ "")%string = s.
Proof. induction s as [|a r IH]; simpl; congruence. Qed.

Lemma concat_cons (d : string) (chunks : list string) :
  String.concat "" (d :: chunks) = (d ++ String.concat "" chunks)%string.
Proof.
  destruct chunks; simpl; [|reflexivity]. now rewrite append_empty_r.
Qed.

Lemma no_boundary_app (s d : string) :
  no_boundary s -> no_boundary d -> no_boundary (s ++ d).
Proof.
  unfold no_boundary. induction s as [|a r IH]; simpl; [trivial|].
  destruct (Ascii.eqb a Py.newline); [discriminate|auto].
Qed.

Lemma contains_app_l (c : ascii) (s d : string) :
  Py.contains c s = true -> Py.contains c (s ++ d) = true.
Proof.
  induction s as [|a r IH]; simpl; [discriminate|].
  destruct (Ascii.eqb a c); auto.
Qed.

(** The fragment left by a text and more text is the fragment left by the
    fragment of the text and that more text; the complete lines add up. *)
Lemma lines_app (n : nat) (s d : string) :
  (String.length s < n)%nat ->
  fragment (s ++ d) = fragment (fragment s ++ d)
  /\ complete_lines (s ++ d)
     = complete_lines s ++ complete_lines (fragment s ++ d).
Proof.
  revert s. induction n as [|n IH]; intros s Hn; [lia|].
  destruct (Py.contains Py.newline s) eqn:E.
  - destruct (split1_some _ _ E) as (line & rest & _ & Hs & Hl & Hlen).
    destruct (lines_cons line rest Hl) as [Hc Hf].
    destruct (lines_cons line (rest ++ d) Hl) as [Hc' Hf'].
    destruct (IH rest ltac:(lia)) as [I1 I2].
    subst s. rewrite append_assoc. cbn [String.append].
    rewrite Hc, Hf, Hc', Hf', I1, I2. split; reflexivity.
  - destruct (lines_no_boundary s E) as [Hc Hf]. rewrite Hc, Hf.
    split; reflexivity.
Qed.

Lemma process_buffer (h : SerialHandler.state) (data : string) :
  SerialHandler.receive_buffer (fst (SerialHandler._process_received_data h data))
  = fragment (SerialHandler.receive_buffer h ++ data).
Proof.
  unfold SerialHandler._process_received_data.
  rewrite split_loop_spec by lia. reflexivity.
Qed.

Lemma process_keeps_callback (h : SerialHandler.state) (data : string) :
  SerialHandler.data_callback (fst (SerialHandler._process_received_data h data))
  = SerialHandler.data_callback h.
Proof.
  unfold SerialHandler._process_received_data.
  rewrite split_loop_spec by lia. reflexivity.
Qed.

Lemma fragment_no_boundary (s : string) : no_boundary (fragment s).
Proof.
  now destruct (lines_partition (S (String.length s)) s ltac:(lia))
    as (_ & H & _).
Qed.

Lemma fragment_fixed (s : string) : no_boundary s -> fragment s = s.
Proof. intros H. now destruct (lines_no_boundary s H). Qed.

(** X1.  Feeding a text in pieces leaves in the accumulator what feeding it
    in one piece leaves: the unterminated text after the last boundary byte
    of everything received, and never a boundary byte. *)
Theorem feed_is_chunking_independent
        (h : SerialHandler.state) (chunks : list string) :
  no_boundary (SerialHandler.receive_buffer h) ->
  let whole := String.concat "" chunks in
  SerialHandler.receive_buffer (fst (feed h chunks))
  = fragment (SerialHandler.receive_buffer h ++ whole)
  /\ SerialHandler.receive_buffer (fst (feed h chunks))
     = SerialHandler.receive_buffer
         (fst (SerialHandler._process_received_data h whole))
  /\ no_boundary (SerialHandler.receive_buffer (fst (feed h chunks))).
Proof.
  intros Hb whole.
  assert (H : SerialHandler.receive_buffer (fst (feed h chunks))
              = fragment (SerialHandler.receive_buffer h ++ whole)).
  { subst whole. revert h Hb.
    induction chunks as [|d chunks IH]; intros h Hb.
    - simpl. rewrite append_empty_r. symmetry. now apply fragment_fixed.
    - cbn [feed].
      pose proof (process_buffer h d) as Hp.
      destruct (SerialHandler._process_received_data h d) as [h1 t1].
      cbn [fst] in Hp.
      assert (Hb1 : no_boundary (SerialHandler.receive_buffer h1))
        by (rewrite Hp; apply fragment_no_boundary).
      specialize (IH h1 Hb1).
      destruct (feed h1 chunks) as [h2 t2]. cbn [fst] in *.
      rewrite IH, Hp.
      rewrite concat_cons, <- append_assoc.
      symmetry.
      apply (lines_app (S (String.length (SerialHandler.receive_buffer h ++ d)))).
      lia. }
  split; [exact H|]. split.
  - now rewrite H, process_buffer.
  - rewrite H. apply fragment_no_boundary.
Qed.

Lemma feed_is_chunking_independent_witness :
  let h := SerialHandler.set_data_callback SerialHandler.init in
  no_boundary (SerialHandler.receive_buffer h)
  /\ SerialHandler.receive_buffer
       (fst (feed h ["LO"; ("AD:1" ++ nl ++ "PO")%string; "S:"]))
     = "POS:".
Proof.
  intros h. split; [reflexivity|].
  exact (proj1 (feed_is_chunking_independent h
                  ["LO"; ("AD:1" ++ nl ++ "PO")%string; "S:"] eq_refl)).
Defined.

(** X2.  Chunks without a boundary byte, such as the stripped lines that the
    read loop passes on, reach the callback once each, in order, and through
    the echo alone; the accumulator is never emptied: it grows by every one
    of them. *)
Theorem unterminated_chunks_pile_up
        (h : SerialHandler.state) (chunks : list string) :
  SerialHandler.data_callback h = true ->
  no_boundary (SerialHandler.receive_buffer h) ->
  Forall (fun d => no_boundary d /\ Py.truthy d = true) chunks ->
  frames (snd (feed h chunks)) = chunks
  /\ SerialHandler.receive_buffer (fst (feed h chunks))
     = (SerialHandler.receive_buffer h ++ String.concat "" chunks)%string.
Proof.
  intros Hcb Hb Hall. revert h Hcb Hb.
  induction Hall as [|d chunks [Hd Ht] _ IH]; intros h Hcb Hb.
  - simpl. split; [reflexivity|]. now rewrite append_empty_r.
  - cbn [feed].
    pose proof (process_received_data_spec h d Hcb) as Hp. cbn zeta in Hp.
    pose proof (process_keeps_callback h d) as Hk.
    assert (Hbd : no_boundary (SerialHandler.receive_buffer h ++ d))
      by now apply no_boundary_app.
    destruct (SerialHandler._process_received_data h d) as [h1 t1].
    injection Hp as Hh1 Ht1. cbn [fst] in Hk.
    unfold line_frames in Ht1.
    destruct (lines_no_boundary _ Hbd) as [Hc Hf].
    rewrite Hc, Ht in Ht1. rewrite Hf in Hh1. cbn in Ht1.
    assert (Hr : SerialHandler.receive_buffer h1
                 = (SerialHandler.receive_buffer h ++ d)%string)
      by (subst h1; reflexivity).
    destruct (IH h1) as [I1 I2].
    + congruence.
    + now rewrite Hr.
    + destruct (feed h1 chunks) as [h2 t2]. cbn [fst snd] in *.
      subst t1. cbn [app frames]. rewrite I1, I2, Hr. split; [reflexivity|].
      now rewrite concat_cons, append_assoc.
Qed.

Lemma unterminated_chunks_pile_up_witness :
  let h := SerialHandler.set_data_callback SerialHandler.init in
  SerialHandler.data_callback h = true
  /\ no_boundary (SerialHandler.receive_buffer h)
  /\ Forall (fun d => no_boundary d /\ Py.truthy d = true) ["LOAD:1"; "POS:2"]
  /\ SerialHandler.receive_buffer (fst (feed h ["LOAD:1"; "POS:2"]))
     = "LOAD:1POS:2".
Proof.
  intros h.
  assert (H : Forall (fun d => no_boundary d /\ Py.truthy d = true)
                     ["LOAD:1"; "POS:2"])
    by (repeat constructor).
  split; [reflexivity|]. split; [reflexivity|]. split; [exact H|].
  exact (proj2 (unterminated_chunks_pile_up h ["LOAD:1"; "POS:2"]
                  eq_refl eq_refl H)).
Defined.

End Accumulator.

(** ** The serial handler *)

Section Handler.

Import Connectivity ReconnectSpec.

(** X3.  [send_command] on a connected handler whose write and flush go
    through writes the command and a newline, flushes, returns True and
    leaves the handler as it was; in every other case it returns False with
    the connection torn down: the handler is not connected, holds no
    connection object, and exactly one reconnection thread is started, for
    the port on record. *)
Theorem send_command_sends_or_tears_down
        (w : SerialHandler.WriteOutcome) (h : SerialHandler.state)
        (command : string) :
  (SerialHandler.is_connected h = true ->
   w = SerialHandler.WriteOk ->
   SerialHandler.send_command w h command
   = (h, true,
      [TransportWrite (command ++ String Py.newline ""); TransportFlush]))
  /\ (SerialHandler.is_connected h = false \/ w <> SerialHandler.WriteOk ->
      let r := SerialHandler.send_command w h command in
      snd (fst r) = false
      /\ SerialHandler.is_connected (fst (fst r)) = false
      /\ SerialHandler.connection (fst (fst r)) = None
      /\ List.length (filter is_start_reconnect (snd r)) = 1%nat
      /\ SerialHandler.port (fst (fst r)) = SerialHandler.port h
      /\ SerialHandler.baudrate (fst (fst r)) = SerialHandler.baudrate h).
Proof.
  unfold SerialHandler.send_command, SerialHandler._handle_connection_error,
    SerialHandler.notify_connection, SerialHandler.is_connected.
  destruct h as [[[[|]]|] [|] pt bd tm rt rn dc [|] rb]; cbn.
  all: split; [intros H1 H2; try discriminate H1; now subst w|].
  all: intros [H|H]; try discriminate H.
  all: destruct w; try contradiction; cbn; repeat split; reflexivity.
Qed.

(** X4.  [connect] makes one open attempt, on the port it is given, and
    records port and baud rate whatever comes of it; it returns True exactly
    when the port opens, and then the handler is connected and running;
    otherwise the handler is left not connected.  The last notification it
    sends tells the outcome, and a handler that held an open connection
    starts by closing it. *)
Theorem connect_opens_once
        (env : SerialHandler.ConnectEnv) (h : SerialHandler.state)
        (p : string) (b : Z) :
  let r := SerialHandler.connect env h p b in
  let h' := fst (fst r) in
  let ok := snd (fst r) in
  open_attempts (snd r) = [TransportOpen p b]
  /\ SerialHandler.port h' = Some p
  /\ SerialHandler.baudrate h' = b
  /\ (ok = true <->
      SerialHandler.open_outcome env = SerialHandler.OpenReturns true)
  /\ SerialHandler.connected h' = ok
  /\ (ok = true ->
      SerialHandler.is_connected h' = true /\ SerialHandler.running h' = true)
  /\ (SerialHandler.connection_callback h = true ->
      last_notification (snd r) = Some ok)
  /\ (SerialHandler.is_connected h = true ->
      List.hd_error (snd r) = Some TransportClose)
  /\ starts_no_reconnection (snd r).
Proof.
  unfold SerialHandler.connect, SerialHandler.disconnect,
    SerialHandler.is_connected, SerialHandler.notify_connection,
    starts_no_reconnection.
  destruct env as [[|[|]] cr].
  all: destruct (SerialHandler.connected h) eqn:C; cbn.
  all: destruct (SerialHandler.connection h) as [[[|]]|] eqn:K; cbn.
  all: destruct cr; cbn.
  all: destruct (SerialHandler.read_thread h) eqn:T; cbn.
  all: destruct (SerialHandler.connection_callback h) eqn:B; cbn.
  all: repeat split; try reflexivity; try discriminate; try congruence.
Qed.

Lemma last_notification_app (t1 t2 : list Effect) :
  last_notification (t1 ++ t2)
  = match last_notification t2 with
    | Some v => Some v
    | None => last_notification t1
    end.
Proof.
  induction t1 as [|e t1 IH]; simpl; [now destruct (last_notification t2)|].
  destruct e; try exact IH.
  rewrite IH. destruct (last_notification t2), (last_notification t1);
    reflexivity.
Qed.

Lemma announced_trans (h h1 h2 : SerialHandler.state) (t1 t2 : list Effect) :
  announced h h1 t1 -> announced h1 h2 t2 -> announced h h2 (t1 ++ t2).
Proof.
  intros [A1 A2] [B1 B2]. split; [|exact B2].
  rewrite last_notification_app, B1.
  destruct (last_notification t2); [reflexivity|exact A1].
Qed.

Lemma handle_error_announced (h : SerialHandler.state) :
  SerialHandler.connection_callback h = true ->
  announced h (fst (SerialHandler._handle_connection_error h))
            (snd (SerialHandler._handle_connection_error h)).
Proof.
  intros B. unfold SerialHandler._handle_connection_error,
    SerialHandler.notify_connection, announced.
  cbn. rewrite B. destruct (SerialHandler.connection h); cbn; now split.
Qed.

Lemma send_command_announced
      (w : SerialHandler.WriteOutcome) (h : SerialHandler.state) (s : string) :
  SerialHandler.connection_callback h = true ->
  announced h (fst (fst (SerialHandler.send_command w h s)))
            (snd (SerialHandler.send_command w h s)).
Proof.
  intros B. pose proof (handle_error_announced h B) as [A1 A2].
  unfold SerialHandler.send_command.
  destruct (SerialHandler._handle_connection_error h) as [h1 e1].
  cbn [fst snd] in *.
  destruct (negb (SerialHandler.is_connected h)); [now split|].
  destruct w; cbn [fst snd]; split; cbn; assumption || reflexivity.
Qed.

Lemma connect_announced
      (env : SerialHandler.ConnectEnv) (h : SerialHandler.state)
      (p : string) (b : Z) :
  SerialHandler.connection_callback h = true ->
  announced h (fst (fst (SerialHandler.connect env h p b)))
            (snd (SerialHandler.connect env h p b)).
Proof.
  intros B. unfold announced, SerialHandler.connect, SerialHandler.disconnect,
    SerialHandler.notify_connection.
  destruct env as [[|[|]] cr].
  all: destruct (SerialHandler.connected h) eqn:C; cbn; rewrite ?B; cbn.
  all: destruct (SerialHandler.connection h) as [[[|]]|] eqn:K; cbn; rewrite ?B.
  all: destruct cr; cbn; rewrite ?B; cbn.
  all: destruct (SerialHandler.read_thread h) eqn:T; cbn; rewrite ?B; cbn.
  all: split; reflexivity || assumption.
Qed.

Lemma disconnect_announced (h : SerialHandler.state) :
  SerialHandler.connection_callback h = true ->
  announced h (fst (SerialHandler.disconnect false h))
            (snd (SerialHandler.disconnect false h)).
Proof.
  intros B. unfold announced, SerialHandler.disconnect,
    SerialHandler.notify_connection.
  cbn. rewrite andb_false_r.
  destruct (SerialHandler.connection h) as [[[|]]|]; cbn; rewrite ?B;
    destruct (SerialHandler.read_thread h); cbn; now split.
Qed.

Lemma process_announced (h : SerialHandler.state) (data : string) :
  SerialHandler.connection_callback h = true ->
  announced h (fst (SerialHandler._process_received_data h data))
            (snd (SerialHandler._process_received_data h data)).
Proof.
  intros B. unfold SerialHandler._process_received_data.
  rewrite split_loop_spec by lia. cbn [fst snd]. split; [|exact B].
  assert (H : forall l, last_notification (map DataCallback l) = None)
    by (induction l; simpl; auto).
  destruct (SerialHandler.data_callback h).
  - rewrite last_notification_app.
    destruct (Py.truthy data); cbn; rewrite H; reflexivity.
  - rewrite andb_false_r. reflexivity.
Qed.

Lemma read_data_announced (r : SerialHandler.ReadOutcome)
      (h : SerialHandler.state) :
  SerialHandler.connection_callback h = true ->
  announced h (fst (fst (SerialHandler.read_data r h)))
            (snd (SerialHandler.read_data r h)).
Proof.
  intros B. pose proof (handle_error_announced h B) as A.
  unfold SerialHandler.read_data.
  destruct (SerialHandler._handle_connection_error h) as [h1 e1].
  destruct (negb (SerialHandler.is_connected h)); [now split|].
  destruct r; cbn [fst snd]; try exact A; now split.
Qed.

Lemma read_loop_turn_announced (r : SerialHandler.ReadOutcome)
      (h : SerialHandler.state) :
  SerialHandler.connection_callback h = true ->
  announced h (fst (fst (SerialHandler._read_loop_turn r h)))
            (snd (SerialHandler._read_loop_turn r h)).
Proof.
  intros B. pose proof (handle_error_announced h B) as A.
  unfold SerialHandler._read_loop_turn.
  destruct (SerialHandler._handle_connection_error h) as [h1 e1].
  destruct (SerialHandler.connection h) as [[[|]]|]; try exact A.
  destruct r; cbn [fst snd]; try exact A; try (now split).
  destruct (Py.truthy (Py.strip raw)); [|now split].
  pose proof (process_announced h (Py.strip raw) B) as P.
  destruct (SerialHandler._process_received_data h (Py.strip raw)) as [h2 e2].
  cbn [fst snd] in *. destruct P as [P1 P2]. split; [|exact P2].
  rewrite last_notification_app. cbn. exact P1.
Qed.

Lemma reconnect_loop_announced (remaining : nat)
      (envs : nat -> SerialHandler.ConnectEnv) (h : SerialHandler.state)
      (p : string) :
  SerialHandler.connection_callback h = true ->
  announced h (fst (SerialHandler.reconnect_loop remaining envs h p))
            (snd (SerialHandler.reconnect_loop remaining envs h p)).
Proof.
  revert h. induction remaining as [|remaining IH]; intros h B; [now split|].
  cbn [SerialHandler.reconnect_loop].
  destruct (SerialHandler.connected h) eqn:C; [now split|].
  pose proof (connect_announced (envs remaining) h p
                (SerialHandler.baudrate h) B) as A.
  destruct (SerialHandler.connect (envs remaining) h p (SerialHandler.baudrate h))
    as [[h1 ok] e1].
  cbn [fst snd] in A. destruct ok; [exact A|].
  specialize (IH h1 (proj2 A)).
  destruct (SerialHandler.reconnect_loop remaining envs h1 p) as [h2 e2].
  cbn [fst snd] in *.
  exact (announced_trans h h1 h2 (Sleep 2000 :: e1) e2 A IH).
Qed.

Lemma attempt_reconnection_announced
      (envs : nat -> SerialHandler.ConnectEnv) (h : SerialHandler.state) :
  SerialHandler.connection_callback h = true ->
  announced h (fst (SerialHandler._attempt_reconnection envs h))
            (snd (SerialHandler._attempt_reconnection envs h)).
Proof.
  intros B. unfold SerialHandler._attempt_reconnection.
  destruct (SerialHandler.port h) as [p|]; [|now split].
  destruct (Py.truthy p); [|now split].
  now apply reconnect_loop_announced.
Qed.

Lemma connect_outcome
      (env : SerialHandler.ConnectEnv) (h : SerialHandler.state)
      (p : string) (b : Z) :
  let r := SerialHandler.connect env h p b in
  SerialHandler.port (fst (fst r)) = Some p
  /\ (snd (fst r) = true <->
      SerialHandler.open_outcome env = SerialHandler.OpenReturns true)
  /\ (snd (fst r) = true ->
      SerialHandler.is_connected (fst (fst r)) = true
      /\ SerialHandler.running (fst (fst r)) = true).
Proof.
  unfold SerialHandler.connect, SerialHandler.disconnect,
    SerialHandler.is_connected, SerialHandler.notify_connection.
  destruct env as [[|[|]] cr].
  all: destruct h as [[[[|]]|] [|] pt bd tm rt rn dc cc rb]; cbn.
  all: destruct cr; cbn.
  all: repeat split; try reflexivity; try discriminate; try congruence.
Qed.

(** X5.  The reconnection loop stops at the first attempt that opens the
    port: when the attempts before it fail, it has made exactly that many
    attempts, each right after its delay, and the handler is connected and
    running. *)
Theorem reconnection_stops_at_first_success
        (remaining j : nat) (envs : nat -> SerialHandler.ConnectEnv)
        (h : SerialHandler.state) (p : string) :
  (j < remaining)%nat ->
  SerialHandler.connected h = false ->
  (forall k, (j < k < remaining)%nat -> fails (envs k)) ->
  SerialHandler.open_outcome (envs j) = SerialHandler.OpenReturns true ->
  let r := SerialHandler.reconnect_loop remaining envs h p in
  List.length (open_attempts (snd r)) = (remaining - j)%nat
  /\ delayed_attempts (snd r)
  /\ SerialHandler.is_connected (fst r) = true
  /\ SerialHandler.running (fst r) = true
  /\ SerialHandler.port (fst r) = Some p.
Proof.
  revert h. induction remaining as [|remaining IH]; intros h Hj C Hfail Hok;
    [lia|].
  destruct (reconnect_loop_spec (S remaining) envs h p) as (_ & Hd & _).
  cbn zeta. split; [|split; [exact Hd|]].
  all: cbn [SerialHandler.reconnect_loop]; rewrite C.
  all: destruct (connect_while_disconnected (envs remaining) h p
                   (SerialHandler.baudrate h) C)
    as (rest & Ht & Hq & _ & _ & Hf & Hfails).
  all: pose proof (connect_outcome (envs remaining) h p
                     (SerialHandler.baudrate h)) as (Hp & Hiff & Hrun).
  all: destruct (SerialHandler.connect (envs remaining) h p
                   (SerialHandler.baudrate h)) as [[h1 ok] e1].
  all: cbn [fst snd] in *; subst e1.
  all: destruct (Nat.eq_dec j remaining) as [->|Hne].
  - destruct ok; [|apply Hiff in Hok; discriminate].
    cbn [fst snd]. unfold open_attempts in *.
    cbn [filter is_transport_open]. rewrite Hq. cbn [List.length]. lia.
  - assert (Hk : ok = false) by (apply Hfails, Hfail; lia). subst ok.
    destruct (Hf eq_refl) as [C1 _].
    destruct (IH h1 ltac:(lia) C1 ltac:(intros; apply Hfail; lia) Hok)
      as (I1 & _).
    destruct (SerialHandler.reconnect_loop remaining envs h1 p) as [h2 e2].
    cbn [fst snd] in *. unfold open_attempts in *.
    cbn [filter is_transport_open app].
    rewrite filter_app, Hq. cbn [List.length app]. rewrite I1. lia.
  - destruct ok; [|apply Hiff in Hok; discriminate].
    cbn [fst snd]. destruct (Hrun eq_refl) as [R1 R2]. now repeat split.
  - assert (Hk : ok = false) by (apply Hfails, Hfail; lia). subst ok.
    destruct (Hf eq_refl) as [C1 _].
    destruct (IH h1 ltac:(lia) C1 ltac:(intros; apply Hfail; lia) Hok)
      as (_ & _ & I3).
    destruct (SerialHandler.reconnect_loop remaining envs h1 p) as [h2 e2].
    exact I3.
Qed.

End Handler.

(** ** The controller's connection flag *)

Section Flag.

Import UTMController Connectivity.

Lemma callbacks_flag (t : list Effect) (c : state) :
  is_connected (run_connection_callbacks t c)
  = match last_notification t with
    | Some v => v
    | None => is_connected c
    end.
Proof.
  revert c. induction t as [|e t IH]; intros c; [reflexivity|].
  destruct e; simpl; try apply IH.
  rewrite IH. destruct (last_notification t); [reflexivity|].
  now destruct connected.
Qed.

(** A method of the handler that announces its changes keeps the
    controller's flag in step. *)
Lemma method_in_step (c : state) (h' : SerialHandler.state) (t : list Effect) :
  in_step c ->
  announced (serial_handler c) h' t ->
  in_step (run_connection_callbacks t (with_serial_handler h' c)).
Proof.
  intros [S1 S2] [A1 A2]. unfold in_step.
  rewrite callbacks_keep_handler, callbacks_flag. cbn. split; [|exact A2].
  rewrite A1. destruct (last_notification t); [reflexivity|exact S1].
Qed.

Lemma send_in_step (w : SerialHandler.WriteOutcome) (c : state) (s : string) :
  in_step c -> in_step (fst (fst (send w c s))).
Proof.
  intros H. pose proof (send_command_announced w (serial_handler c) s (proj2 H))
    as A.
  unfold send. destruct (SerialHandler.send_command _ _ _) as [[h ok] t].
  now apply method_in_step.
Qed.

Lemma state_in_step (v : string) (c : state) :
  in_step c -> in_step (with_machine_state v c).
Proof. trivial. Qed.

Lemma issue_in_step (w : SerialHandler.WriteOutcome) (c : state)
      (cmd : Session.Command) :
  in_step c -> in_step (fst (Session.issue w c cmd)).
Proof.
  intros H.
  assert (Hs : forall s, in_step (fst (fst (send w c s))))
    by (intros s; now apply send_in_step).
  destruct cmd; cbn [Session.issue];
    unfold open_command, close_command, stop_command, zero_command,
      turboset_command, set_motor_speed, send_custom_command;
    repeat match goal with
           | |- context [send w c ?s] =>
               let Hx := fresh in
               pose proof (Hs s) as Hx;
               destruct (send w c s) as [[? ?] ?]; cbn [fst snd] in Hx
           end;
    split_tests; cbn [fst snd]; try assumption;
    try (apply state_in_step; assumption).
Qed.

Lemma pcb_button_in_step (w : SerialHandler.WriteOutcome) (c : state)
      (code : string) :
  in_step c -> in_step (fst (handle_pcb_button w c code)).
Proof.
  intros H.
  pose proof (issue_in_step w c Session.Open H) as H1.
  pose proof (issue_in_step w c Session.Close H) as H2.
  pose proof (issue_in_step w c Session.Stop H) as H3.
  pose proof (issue_in_step w c Session.Zero H) as H4.
  cbn [Session.issue] in *. unfold handle_pcb_button.
  destruct (open_command w c), (close_command w c), (stop_command w c),
    (zero_command w c).
  split_tests; cbn [fst snd] in *; assumption.
Qed.

Section Frames.

Variable py_float : string -> option float.
Variable py_int : string -> option Z.

Lemma handle_serial_data_in_step (w : SerialHandler.WriteOutcome) (now : float)
      (c : state) (data : string) :
  in_step c ->
  in_step (fst (fst (handle_serial_data py_float py_int w now c data))).
Proof.
  intros H. unfold handle_serial_data.
  assert (D : in_step (fst (fst (dispatch py_float py_int w c data)))).
  { unfold dispatch.
    destruct (payload data) as [e|s];
      [split_tests; cbn [fst snd]; assumption|].
    pose proof (pcb_button_in_step w c s H) as Hb.
    destruct (handle_pcb_button w c s).
    unfold handle_speed_response.
    split_tests; cbn [fst snd] in *; assumption. }
  destruct (dispatch py_float py_int w c data) as [[c1 t] r].
  cbn [fst snd] in D. destruct r; [exact D|].
  destruct (MaterialTestPlotter.is_plotting (graph_plotter c1)); [|exact D].
  destruct (MaterialTestPlotter.add_data_point _ _ _ _). exact D.
Qed.

Lemma data_callbacks_in_step (w : SerialHandler.WriteOutcome) (now : float)
      (t : list Effect) (c : state) :
  in_step c ->
  in_step (fst (Session.run_data_callbacks py_float py_int w now t c)).
Proof.
  revert c. induction t as [|e t IH]; intros c H; [exact H|].
  destruct e; cbn [Session.run_data_callbacks]; try (now apply IH).
  pose proof (handle_serial_data_in_step w now c data H) as H1.
  destruct (handle_serial_data py_float py_int w now c data) as [[c1 t1] r1].
  specialize (IH c1 H1).
  now destruct (Session.run_data_callbacks py_float py_int w now t c1).
Qed.

(** Turns taken one after the other, each to its end, keep the flag in
    step, unless one is a disconnect during which [close] raises. *)
Lemma run_in_step (evs : list Session.Event) (s : Session.state) :
  in_step (Session.controller s) ->
  forallb (fun ev => negb (is_failing_disconnect ev)) evs = true ->
  in_step (Session.controller (fst (Session.run py_float py_int s evs))).
Proof.
  revert s. induction evs as [|ev evs IH]; intros s H Hevs; [exact H|].
  simpl in Hevs. apply andb_true_iff in Hevs. destruct Hevs as [Hev Hevs].
  apply negb_true_iff in Hev.
  cbn [Session.run].
  assert (H1 : in_step (Session.controller
                          (fst (Session.step py_float py_int s ev)))).
  { unfold Session.step.
    assert (T : in_step (fst (Session.turn py_float py_int
                                (Session.pending_reconnections s)
                                (Session.controller s) ev))).
    { set (c := Session.controller s) in *.
      destruct ev; cbn [Session.turn].
      - now apply issue_in_step.
      - unfold get_motor_speed. now apply (issue_in_step w c (Session.Custom "G")).
      - unfold test_connection. destruct (is_connected c) eqn:E; [|exact H].
        pose proof (send_in_step w c "TEST" H) as Hs.
        now destruct (send w c "TEST") as [[? ?] ?].
      - unfold connect_serial.
        pose proof (connect_announced env (serial_handler c) port 9600 (proj2 H))
          as A.
        destruct (SerialHandler.connect env (serial_handler c) port 9600)
          as [[h ok] t].
        pose proof (method_in_step c h t H A).
        now destruct ok.
      - cbn in Hev. subst close_raises. unfold disconnect_serial.
        pose proof (disconnect_announced (serial_handler c) (proj2 H)) as A.
        destruct (SerialHandler.disconnect false (serial_handler c)) as [h t].
        now apply method_in_step.
      - unfold serial_monitor_turn.
        destruct (SerialHandler.is_connected (serial_handler c)); [|exact H].
        pose proof (read_data_announced r (serial_handler c) (proj2 H)) as A.
        destruct (SerialHandler.read_data r (serial_handler c)) as [[h o] t].
        now apply method_in_step.
      - destruct (SerialHandler.running (serial_handler c)
                  && SerialHandler.connected (serial_handler c)); [|exact H].
        pose proof (read_loop_turn_announced r (serial_handler c) (proj2 H))
          as A.
        destruct (SerialHandler._read_loop_turn r (serial_handler c))
          as [[h o] t].
        pose proof (data_callbacks_in_step w now t _ (method_in_step c h t H A))
          as D.
        now destruct (Session.run_data_callbacks py_float py_int w now t _).
      - destruct (MaterialTestPlotter.is_plotting (graph_plotter c)); [|exact H].
        now destruct (MaterialTestPlotter._plot_update_turn _ _ _ _)
          as [[? ?] ?].
      - destruct (Session.pending_reconnections s); [exact H|].
        pose proof (attempt_reconnection_announced envs (serial_handler c)
                      (proj2 H)) as A.
        destruct (SerialHandler._attempt_reconnection envs (serial_handler c))
          as [h t].
        now apply method_in_step. }
    now destruct (Session.turn _ _ _ _ _). }
  destruct (Session.step py_float py_int s ev) as [s1 t1].
  specialize (IH s1 H1 Hevs).
  now destruct (Session.run py_float py_int s1 evs).
Qed.


(** X6.  The controller's connection flag mirrors the handler's as long as
    the threads take their turns one after the other, each method running
    to its end: the two then agree after every turn, unless the turn is a
    disconnect during which [close] raises.  That is no invariant of the
    threaded program, which takes no lock: [connect] sets the handler's
    flag and starts the read thread before it notifies, and when the read
    thread meets a failing port in between, its notification of the loss
    comes first and the notification of [connect] last, so the controller
    ends connected, the operator is told so, and the handler is not
    connected. *)
Theorem connection_flag_mirrors_handler :
  (forall evs s,
      in_step (Session.controller s) ->
      forallb (fun ev => negb (is_failing_disconnect ev)) evs = true ->
      in_step (Session.controller (fst (Session.run py_float py_int s evs))))
  /\ (forall env h p b,
         SerialHandler.connected h = false ->
         SerialHandler.open_outcome env = SerialHandler.OpenReturns true ->
         SerialHandler.connect env h p b
         = (let (h1, t1) := Interleavings.connect_until_read_thread h p b in
            let '(h2, ok, t2) := Interleavings.connect_notification h1 in
            (h2, ok, t1 ++ t2)))
  /\ (forall c port,
         in_step c ->
         SerialHandler.connected (serial_handler c) = false ->
         let r := Interleavings.overtaken_connect_serial c port in
         let c' := fst (fst r) in
         snd (fst r) = true
         /\ is_connected c' = true
         /\ machine_state c' = "Connected"
         /\ SerialHandler.connected (serial_handler c') = false
         /\ SerialHandler.connection (serial_handler c') = None
         /\ List.length (filter is_start_reconnect (snd r)) = 1%nat
         /\ In (MessageBox ShowInfo "Connection" ("Connected to " ++ port))
               (snd r)
         /\ ~ in_step c').
Proof.
  split; [exact run_in_step|]. split.
  { intros env h p b C O. unfold SerialHandler.connect,
      Interleavings.connect_until_read_thread,
      Interleavings.connect_notification.
    now rewrite C, O. }
  intros c port [S1 S2] C. cbv zeta.
  destruct c as [ms lv pv ic [cn cd pt bd tm rt rn dc cc rb] gp].
  cbn in S1, S2, C. subst ic cc cd.
  unfold Interleavings.overtaken_connect_serial,
    Interleavings.connect_until_read_thread,
    Interleavings.connect_notification, SerialHandler._read_loop_turn,
    SerialHandler._handle_connection_error, SerialHandler.notify_connection.
  cbn.
  split; [reflexivity|]. split; [reflexivity|]. split; [reflexivity|].
  split; [reflexivity|]. split; [reflexivity|]. split; [reflexivity|].
  split; [right; right; right; right; right; right; right; now left|].
  intros [E _]. cbn in E. discriminate E.
Qed.

End Frames.

End Flag.

(** ** Commands on a connected machine *)

Section ConnectedCommands.

Import UTMController Connectivity.

(** Unfolds the commands down to the handler. *)
Ltac unfold_commands :=
  unfold open_command, close_command, stop_command, zero_command,
    turboset_command, set_motor_speed, send_custom_command, send,
    SerialHandler.send_command, SerialHandler._handle_connection_error,
    SerialHandler.notify_connection, SerialHandler.is_connected in *.

(** X7.  On a connected machine whose write goes through, every intent puts
    exactly its protocol text and a newline on the wire, sets the machine
    state it predicts (Open, Close, Stop, Turboset) or leaves it (Zero,
    SetSpeed, Custom), and leaves the connection as it is; a Turboset that
    the operator declines writes nothing. *)
Theorem intents_write_their_protocol_text
        (c : state) (cmd : Session.Command) :
  connected_for_real c ->
  (goes_ahead cmd ->
   let r := Session.issue SerialHandler.WriteOk c cmd in
   transport_writes (snd r)
   = [TransportWrite (wire_text cmd ++ String Py.newline "")]
   /\ machine_state (fst r)
      = match predicted_state cmd with
        | Some predicted => predicted
        | None => machine_state c
        end
   /\ is_connected (fst r) = true
   /\ serial_handler (fst r) = serial_handler c)
  /\ (forall w,
         transport_writes (snd (Session.issue w c (Session.Turboset false))) = []
         /\ fst (Session.issue w c (Session.Turboset false)) = c).
Proof.
  intros [H1 H2]. split.
  - intros G. destruct cmd; cbn [Session.issue goes_ahead] in *;
      unfold_commands; rewrite ?H1, ?H2; try subst confirm; cbn.
    6: { destruct (Z.leb_spec 1 rpm), (Z.leb_spec rpm 200); try lia.
         cbn. rewrite ?H2. cbn. repeat split; assumption. }
    all: repeat split; assumption.
  - intros w. cbn [Session.issue]. unfold turboset_command.
    rewrite H1. now split.
Qed.

Lemma intents_write_their_protocol_text_witness :
  connected_for_real ReconnectSpec.connected_controller
  /\ transport_writes
       (snd (Session.issue SerialHandler.WriteOk
               ReconnectSpec.connected_controller (Session.SetSpeed 25)))
     = [TransportWrite ("S25" ++ String Py.newline "")].
Proof.
  assert (H : connected_for_real ReconnectSpec.connected_controller)
    by (split; reflexivity).
  split; [exact H|].
  exact (proj1 (proj1 (intents_write_their_protocol_text
                         ReconnectSpec.connected_controller
                         (Session.SetSpeed 25) H)
                      ltac:(cbn; lia))).
Defined.

End ConnectedCommands.

(** ** Commands that meet a broken connection *)

Section BrokenConnection.

Import UTMController Connectivity.

(** X9.  An intent that predicts a machine state and whose write or flush
    raises on a connected machine leaves the controller disconnected, with
    one reconnection thread started, and yet showing the predicted state:
    the notification's "Disconnected" is overwritten by the optimistic
    assignment that follows the send. *)
Theorem failed_write_keeps_predicted_state
        (w : SerialHandler.WriteOutcome) (c : state) (cmd : Session.Command)
        (predicted : string) :
  in_step c ->
  connected_for_real c ->
  w <> SerialHandler.WriteOk ->
  goes_ahead cmd ->
  predicted_state cmd = Some predicted ->
  let r := Session.issue w c cmd in
  machine_state (fst r) = predicted
  /\ is_connected (fst r) = false
  /\ SerialHandler.is_connected (serial_handler (fst r)) = false
  /\ List.length (filter is_start_reconnect (snd r)) = 1%nat
  /\ In (ConnectionCallback false) (snd r).
Proof.
  intros [S1 S2] [H1 H2] Hw G P.
  destruct c as [ms lv pv ic [[[[|]]|] [|] pt bd tm rt rn dc cc rb] gp];
    cbn in S1, S2, H1, H2; try discriminate; subst ic cc.
  destruct cmd; try discriminate P; injection P as <-;
    cbn [goes_ahead] in G; try subst confirm;
    destruct w; try contradiction; cbn; repeat split; auto.
Qed.

Lemma failed_write_keeps_predicted_state_witness :
  in_step ReconnectSpec.connected_controller
  /\ connected_for_real ReconnectSpec.connected_controller
  /\ machine_state
       (fst (Session.issue SerialHandler.WriteRaises
               ReconnectSpec.connected_controller Session.Open))
     = "Opening"
  /\ is_connected
       (fst (Session.issue SerialHandler.WriteRaises
               ReconnectSpec.connected_controller Session.Open))
     = false.
Proof.
  assert (H1 : in_step ReconnectSpec.connected_controller)
    by (split; reflexivity).
  assert (H2 : connected_for_real ReconnectSpec.connected_controller)
    by (split; reflexivity).
  destruct (failed_write_keeps_predicted_state SerialHandler.WriteRaises
              ReconnectSpec.connected_controller Session.Open "Opening"
              H1 H2 ltac:(discriminate) I eq_refl) as (R1 & R2 & _).
  repeat split; assumption.
Defined.

(** X10.  When [close] raises during the operator's disconnect of a
    connected machine, the handler is disconnected but the controller is not
    told: its flag stays True and its machine state stays what it was,
    while the operator is shown "Disconnected from serial port".  The next
    Open then passes the controller's check, writes nothing, leaves the
    state at "Opening", and starts a reconnection thread for the port the
    operator has just left. *)
Theorem failed_close_leaves_stale_flag
        (w : SerialHandler.WriteOutcome) (c : state) :
  in_step c ->
  connected_for_real c ->
  let r1 := disconnect_serial true c in
  let r2 := open_command w (fst r1) in
  is_connected (fst r1) = true
  /\ SerialHandler.is_connected (serial_handler (fst r1)) = false
  /\ machine_state (fst r1) = machine_state c
  /\ snd r1 = [TransportClose;
               MessageBox ShowInfo "Connection" "Disconnected from serial port"]
  /\ transport_writes (snd r2) = []
  /\ machine_state (fst r2) = "Opening"
  /\ is_connected (fst r2) = false
  /\ List.length (filter is_start_reconnect (snd r2)) = 1%nat
  /\ SerialHandler.port (serial_handler (fst r2))
     = SerialHandler.port (serial_handler c).
Proof.
  intros [S1 S2] [H1 H2].
  destruct c as [ms lv pv ic [[[[|]]|] [|] pt bd tm rt rn dc cc rb] gp];
    cbn in S1, S2, H1, H2; try discriminate; subst ic cc.
  destruct w; cbn; repeat split; reflexivity.
Qed.

Lemma failed_close_leaves_stale_flag_witness :
  in_step ReconnectSpec.connected_controller
  /\ connected_for_real ReconnectSpec.connected_controller
  /\ is_connected (fst (disconnect_serial true ReconnectSpec.connected_controller))
     = true.
Proof.
  assert (H1 : in_step ReconnectSpec.connected_controller)
    by (split; reflexivity).
  assert (H2 : connected_for_real ReconnectSpec.connected_controller)
    by (split; reflexivity).
  split; [exact H1|]. split; [exact H2|].
  exact (proj1 (failed_close_leaves_stale_flag SerialHandler.WriteOk
                  ReconnectSpec.connected_controller H1 H2)).
Defined.

End BrokenConnection.

(** ** The series of the plotter *)

Section Series.

Import MaterialTestPlotter PlotterRuns Interleavings.

Lemma add_data_point_aligned (x : state) (t l p : float) :
  Recording.aligned x -> Recording.aligned (fst (add_data_point x t l p)).
Proof.
  intros A. destruct (is_plotting x) eqn:P.
  - destruct (add_data_point_appends x t l p P) as (s & e & H). rewrite H.
    destruct A as (A1 & A2 & A3 & A4 & A5).
    unfold Recording.aligned. cbn. rewrite !length_app. cbn.
    repeat split; lia.
  - unfold add_data_point. now rewrite P.
Qed.

Lemma apply_aligned (x : state) (op : Op) :
  Recording.aligned x -> Recording.aligned (apply x op).
Proof.
  intros A. destruct op; cbn [apply].
  - unfold start_plotting. now destruct (is_plotting x).
  - now destruct (is_plotting x).
  - repeat split.
  - now apply add_data_point_aligned.
  - destruct (is_plotting x); [|exact A].
    now destruct (plot_update_turn_bounded x current_time load position A)
      as (_ & H & _).
Qed.

(** The lengths after [add_data_point] has been overtaken on a series that
    is full, or one sample short of it. *)
Lemma overtaken_lengths (x : state) (t l p now l' p' : float) :
  Recording.aligned x ->
  (UTMConfig.MAX_PLOT_POINTS - 1 <= List.length (time_data x))%nat ->
  let x' := fst (overtaken_add_data_point x t l p now l' p') in
  List.length (time_data x') = UTMConfig.MAX_PLOT_POINTS
  /\ List.length (load_data x') = UTMConfig.MAX_PLOT_POINTS
  /\ List.length (position_data x') = UTMConfig.MAX_PLOT_POINTS
  /\ List.length (stress_data x') = S UTMConfig.MAX_PLOT_POINTS
  /\ List.length (strain_data x') = S UTMConfig.MAX_PLOT_POINTS
  /\ List.length (displacement_data x') = S UTMConfig.MAX_PLOT_POINTS.
Proof.
  intros (A1 & A2 & A3 & A4 & A5) L. cbv zeta.
  unfold overtaken_add_data_point, _plot_update_turn.
  set (x1 := add_data_point_raw x t l p).
  set (y1 := with_series _ _ _ (stress_data x1) _ _ x1).
  destruct (stress_of_never_raises y1 l') as (s1 & Hs1 & _).
  destruct (strain_of_never_raises y1 p') as (e1 & He1 & _).
  rewrite Hs1, He1.
  set (y2 := with_series _ _ _ _ _ _ y1).
  set (x2 := limit_data_points UTMConfig.MAX_PLOT_POINTS y2).
  unfold add_data_point_derived.
  destruct (stress_of_never_raises x2 l) as (s2 & Hs2 & _).
  destruct (strain_of_never_raises x2 p) as (e2 & He2 & _).
  rewrite Hs2, He2. cbn [fst].
  assert (T : (UTMConfig.MAX_PLOT_POINTS <? List.length (time_data y2))%nat
              = true).
  { apply Nat.ltb_lt. subst y2 y1 x1. cbn. rewrite !length_app. cbn.
    unfold UTMConfig.MAX_PLOT_POINTS in *. lia. }
  subst x2. unfold limit_data_points. rewrite T.
  cbn [time_data load_data position_data stress_data strain_data
       displacement_data with_series].
  rewrite !length_app.
  rewrite !last_n_length by (unfold UTMConfig.MAX_PLOT_POINTS; lia).
  subst y2 y1 x1.
  cbn [time_data load_data position_data stress_data strain_data
       displacement_data with_series add_data_point_raw].
  rewrite !length_app. cbn [List.length].
  unfold UTMConfig.MAX_PLOT_POINTS in *. repeat split; lia.
Qed.

(** X11.  Each operation on the plotter that runs from its start to its end
    leaves the six lists of the series with one length when it found them
    so.  That is no invariant of the threaded program, which takes no lock:
    [add_data_point], run by the read thread, appends to the three raw lists
    and then to the three derived ones, and when a turn of the plot thread
    comes between the two on a series that is full, the raw lists end with
    [MAX_PLOT_POINTS] entries and the derived lists with one more. *)
Theorem series_alignment_needs_whole_calls :
  (forall x op, Recording.aligned x -> Recording.aligned (apply x op))
  /\ (forall x t l p,
         is_plotting x = true ->
         add_data_point x t l p
         = add_data_point_derived (add_data_point_raw x t l p) l p)
  /\ (forall x t l p now l' p',
         is_plotting x = true ->
         Recording.aligned x ->
         (UTMConfig.MAX_PLOT_POINTS - 1 <= List.length (time_data x))%nat ->
         let x' := fst (overtaken_add_data_point x t l p now l' p') in
         List.length (time_data x') = UTMConfig.MAX_PLOT_POINTS
         /\ List.length (load_data x') = UTMConfig.MAX_PLOT_POINTS
         /\ List.length (position_data x') = UTMConfig.MAX_PLOT_POINTS
         /\ List.length (stress_data x') = S UTMConfig.MAX_PLOT_POINTS
         /\ List.length (strain_data x') = S UTMConfig.MAX_PLOT_POINTS
         /\ List.length (displacement_data x') = S UTMConfig.MAX_PLOT_POINTS
         /\ ~ Recording.aligned x').
Proof.
  split; [exact apply_aligned|]. split.
  { intros x t l p P. unfold add_data_point. now rewrite P. }
  intros x t l p now l' p' _ A L.
  destruct (overtaken_lengths x t l p now l' p' A L)
    as (H1 & H2 & H3 & H4 & H5 & H6).
  cbv zeta. repeat split; try assumption.
  intros (_ & _ & B & _). rewrite H1, H4 in B. lia.
Qed.

Lemma series_alignment_needs_whole_calls_witness :
  let x := Recording.recording 1000 in
  let x' := fst (overtaken_add_data_point x 1%float 2%float 3%float
                   4%float 2%float 3%float) in
  is_plotting x = true
  /\ Recording.aligned x
  /\ List.length (time_data x') = 1000%nat
  /\ List.length (stress_data x') = 1001%nat.
Proof.
  intros x x'.
  assert (H1 : is_plotting x = true) by reflexivity.
  assert (H2 : Recording.aligned x) by (vm_compute; repeat split).
  assert (H3 : (UTMConfig.MAX_PLOT_POINTS - 1 <= List.length (time_data x))%nat)
    by (vm_compute; lia).
  pose proof (proj2 (proj2 series_alignment_needs_whole_calls)
                x 1%float 2%float 3%float 4%float 2%float 3%float H1 H2 H3)
    as T.
  cbv zeta in T. destruct T as (T1 & _ & _ & T4 & _).
  split; [exact H1|]. split; [exact H2|]. split; [exact T1|exact T4].
Defined.

Lemma add_all_spec (samples : list (float * float * float)) (x : state) :
  is_plotting x = true ->
  Recording.aligned x ->
  is_plotting (add_all x samples) = true
  /\ Recording.aligned (add_all x samples)
  /\ time_data (add_all x samples) = time_data x ++ times samples.
Proof.
  unfold add_all, times. revert x.
  induction samples as [|[[t l] p] samples IH]; intros x P A.
  - cbn. now rewrite app_nil_r.
  - cbn [fold_left map].
    pose proof (add_data_point_aligned x t l p A) as A1.
    destruct (add_data_point_appends x t l p P) as (s & e & H).
    rewrite H in *. cbn [fst] in *.
    match type of A1 with
    | Recording.aligned ?y => destruct (IH y P A1) as (I1 & I2 & I3)
    end.
    split; [exact I1|]. split; [exact I2|].
    rewrite I3. cbn. now rewrite <- app_assoc.
Qed.

Lemma last_n_all {A : Type} (k : nat) (l : list A) :
  (List.length l <= k)%nat -> Py.last_n k l = l.
Proof.
  intros H. unfold Py.last_n. destruct k; [reflexivity|].
  replace (List.length l - S k)%nat with 0%nat by lia. reflexivity.
Qed.

(** X12.  However many samples [add_data_point] has piled up since the last
    turn of the plot thread, the next turn cuts the series back to the
    capacity: it leaves exactly the newest [MAX_PLOT_POINTS] of all the
    samples, in their order. *)
Theorem plot_turn_restores_capacity
        (x : state) (samples : list (float * float * float))
        (now load position : float) :
  is_plotting x = true ->
  Recording.aligned x ->
  let x' := fst (fst (_plot_update_turn (add_all x samples) now load position)) in
  (List.length (time_data x') <= UTMConfig.MAX_PLOT_POINTS)%nat
  /\ time_data x'
     = Py.last_n UTMConfig.MAX_PLOT_POINTS
         (time_data x ++ times samples ++ [now])
  /\ Recording.aligned x'.
Proof.
  intros P A x'.
  destruct (add_all_spec samples x P A) as (P1 & A1 & T1).
  destruct (plot_update_turn_bounded (add_all x samples) now load position A1)
    as (_ & A2 & Hle & _).
  fold x' in A2, Hle. split; [exact Hle|]. split; [|exact A2].
  subst x'. unfold _plot_update_turn.
  set (x1 := with_series _ _ _ (stress_data (add_all x samples)) _ _ _).
  destruct (stress_of_never_raises x1 load) as (s & Hs & _).
  destruct (strain_of_never_raises x1 position) as (e & He & _).
  rewrite Hs, He. cbn [fst]. unfold limit_data_points.
  set (x2 := with_series _ _ _ _ _ _ x1).
  assert (T2 : time_data x2 = time_data x ++ times samples ++ [now])
    by (cbn; rewrite T1; now rewrite <- app_assoc).
  destruct (Nat.ltb_spec UTMConfig.MAX_PLOT_POINTS (List.length (time_data x2))).
  - cbn [time_data with_series]. now rewrite T2.
  - rewrite last_n_all by (rewrite <- T2; assumption). exact T2.
Qed.

Lemma plot_turn_restores_capacity_witness :
  let x := Recording.recording 999 in
  let samples := [(1%float, 2%float, 3%float); (2%float, 2%float, 3%float)] in
  is_plotting x = true
  /\ Recording.aligned x
  /\ (List.length
        (time_data (fst (fst (_plot_update_turn (add_all x samples)
                                3%float 2%float 3%float))))
      <= UTMConfig.MAX_PLOT_POINTS)%nat.
Proof.
  intros x samples.
  assert (H1 : is_plotting x = true) by reflexivity.
  assert (H2 : Recording.aligned x) by (vm_compute; repeat split).
  split; [exact H1|]. split; [exact H2|].
  exact (proj1 (plot_turn_restores_capacity x samples 3%float 2%float 3%float
                  H1 H2)).
Defined.

End Series.

(** ** The analysis *)

Section AnalysisExtras.

Import MaterialTestPlotter PlotterRuns AnalysisRuns.

Lemma mask_is_both_finite (x y : float) :
  negb (Py.isnan x || Py.isnan y || Py.isinf x || Py.isinf y)
  = both_finite (x, y).
Proof.
  unfold both_finite, finite. cbn [fst snd].
  destruct (Py.isnan x), (Py.isnan y), (Py.isinf x), (Py.isinf y); reflexivity.
Qed.

Lemma select_pairs (a b : list float) :
  List.length a = List.length b ->
  let mask := map (fun '(x, y) =>
                     negb (Py.isnan x || Py.isnan y || Py.isinf x || Py.isinf y))
                  (combine a b) in
  combine (Np.select mask a) (Np.select mask b)
  = filter both_finite (combine a b)
  /\ List.length (Np.select mask a) = List.length (Np.select mask b).
Proof.
  revert b. induction a as [|x a IH]; intros [|y b] H; try discriminate;
    [now split|].
  cbn [combine map Np.select filter]. rewrite mask_is_both_finite.
  destruct (IH b ltac:(simpl in H; lia)) as [I1 I2].
  destruct (both_finite (x, y)); cbn [combine List.length]; split; congruence.
Qed.

(** X13.  The filter of the analysis drops samples pairwise: the stress and
    strain values it keeps are exactly the samples of which both values are
    finite, in their order, so the two arrays keep one length and hold
    neither NaN nor an infinity; a series without such values is kept whole. *)
Theorem filter_keeps_finite_samples (stress_data strain_data : list float)
        (valid : list bool) :
  Np.finite_mask stress_data strain_data = inr valid ->
  let stress := Np.select valid stress_data in
  let strain := Np.select valid strain_data in
  combine stress strain
  = filter both_finite (combine stress_data strain_data)
  /\ List.length stress = List.length strain
  /\ Forall (fun v => finite v = true) stress
  /\ Forall (fun v => finite v = true) strain
  /\ (forallb both_finite (combine stress_data strain_data) = true ->
      stress = stress_data /\ strain = strain_data).
Proof.
  unfold Np.finite_mask.
  destruct (Nat.eqb_spec (List.length stress_data) (List.length strain_data))
    as [L|]; [|discriminate].
  intros H. injection H as <-. cbv zeta.
  destruct (select_pairs stress_data strain_data L) as [S1 S2].
  set (stress := Np.select _ stress_data) in *.
  set (strain := Np.select _ strain_data) in *.
  assert (F : Forall (fun s => both_finite s = true) (combine stress strain)).
  { rewrite S1. apply Forall_forall. intros s Hs.
    now apply filter_In in Hs. }
  assert (Hst : stress = map fst (combine stress strain)
                /\ strain = map snd (combine stress strain)).
  { clear - S2. revert S2. generalize strain. induction stress as [|x l IH];
      intros [|y l'] H; try discriminate; [now split|].
    cbn. destruct (IH l' ltac:(simpl in H; lia)) as [I1 I2].
    split; congruence. }
  split; [exact S1|]. split; [exact S2|]. split; [|split].
  - destruct Hst as [-> _]. apply Forall_map.
    eapply Forall_impl; [|exact F].
    intros s Hs. unfold both_finite in Hs. now apply andb_prop in Hs.
  - destruct Hst as [_ ->]. apply Forall_map.
    eapply Forall_impl; [|exact F].
    intros s Hs. unfold both_finite in Hs. now apply andb_prop in Hs.
  - intros Hall.
    assert (E : filter both_finite (combine stress_data strain_data)
                = combine stress_data strain_data).
    { clear - Hall. induction (combine stress_data strain_data) as [|s l IH];
        [reflexivity|].
      cbn in *. apply andb_prop in Hall. destruct Hall as [H1 H2].
      rewrite H1. f_equal. now apply IH. }
    rewrite E in S1.
    assert (U : forall (a b c d : list float),
               List.length a = List.length b ->
               List.length c = List.length d ->
               combine a b = combine c d -> a = c /\ b = d).
    { clear. induction a as [|x a IH]; intros [|y b] [|z c] [|u d] H1 H2 H3;
        try discriminate; [now split|].
      cbn in H3. injection H3 as -> -> H3.
      destruct (IH b c d ltac:(simpl in H1; lia) ltac:(simpl in H2; lia) H3).
      split; congruence. }
    now apply U.
Qed.

Lemma filter_keeps_finite_samples_witness :
  let stress_data := [1%float; nan; 3%float] in
  let strain_data := [0.5%float; 1%float; infinity] in
  Np.finite_mask stress_data strain_data = inr [true; false; false]
  /\ Np.select [true; false; false] stress_data = [1%float].
Proof.
  intros stress_data strain_data.
  assert (H : Np.finite_mask stress_data strain_data = inr [true; false; false])
    by reflexivity.
  split; [exact H|].
  destruct (filter_keeps_finite_samples stress_data strain_data _ H)
    as (H1 & _).
  apply (f_equal (map fst)) in H1. exact H1.
Defined.

Lemma amax_is_sample (a : list float) (v : float) :
  Np.amax a = inr v -> In v a.
Proof.
  destruct a as [|x a]; [discriminate|]. cbn. intros H. injection H as <-.
  revert x. induction a as [|y a IH]; intros x; [now left|].
  cbn [fold_left].
  destruct (IH (if PrimFloat.ltb x y then y else x)) as [H|H].
  - destruct (PrimFloat.ltb x y); [right; left|left]; exact H.
  - right. right. exact H.
Qed.

Lemma last_is_sample (a : list float) (v : float) :
  Np.last a = inr v -> In v a /\ exists front, a = front ++ [v].
Proof.
  unfold Np.last. destruct (rev a) as [|x l] eqn:E; [discriminate|].
  intros H. injection H as <-.
  assert (Ha : a = rev l ++ [x])
    by (rewrite <- (rev_involutive a), E; reflexivity).
  split; [rewrite Ha; apply in_or_app; right; now left|eauto].
Qed.

Lemma yield_is_sample (modulus : float) (stress strain : list float)
      (v : float) :
  yield_strength_of modulus stress strain = inr v ->
  v = 0%float \/ In v stress.
Proof.
  unfold yield_strength_of.
  destruct (Np.where_positive _) as [|i l]; [intros H; left; congruence|].
  unfold Py.index. destruct (nth_error stress i) eqn:N; [|discriminate].
  intros H. injection H as <-. right. eapply nth_error_In. exact N.
Qed.

Variable linregress : list float -> list float -> Py.Raised + float.

(** The analysis is a function of the two series: it ends with the dialog of
    its outcome and leaves the plotter alone, or assigns the five properties
    of its outcome. *)
Lemma calculate_by_outcome (x : state) :
  calculate_material_properties linregress x
  = match outcome linregress (stress_data x) (strain_data x) with
    | inl dialog => (x, [dialog])
    | inr p => (with_properties p x, [UpdateResultsDisplay])
    end.
Proof.
  unfold calculate_material_properties, outcome.
  destruct ((List.length (stress_data x) <? 10)%nat
            || (List.length (strain_data x) <? 10)%nat); [reflexivity|].
  destruct (Np.finite_mask (stress_data x) (strain_data x)) as [e|valid] eqn:M;
    [reflexivity|].
  set (stress := Np.select valid (stress_data x)).
  set (strain := Np.select valid (strain_data x)).
  destruct (Nat.ltb_spec (List.length stress) 5) as [H5|H5]; [reflexivity|].
  assert (Hlen : List.length stress = List.length strain).
  { apply select_length. unfold Np.finite_mask in M.
    destruct (Nat.eqb_spec (List.length (stress_data x))
                           (List.length (strain_data x)));
      [assumption|discriminate]. }
  destruct (assign_properties_spec linregress x stress strain)
    as [(e & Hy & Ha)|(ym & ys & us & fs & el & Hy & Hys & Hu & Hf & Hl & Ha)].
  - apply (nonempty_of_length _ 0). lia.
  - apply (nonempty_of_length _ 0). lia.
  - now rewrite Ha, Hy.
  - now rewrite Ha, Hy, Hys, Hu, Hf, Hl.
Qed.

(** The branch of the analysis that ends with a dialog publishes nothing. *)
Ltac not_a_success H :=
  intros H; cbn in H;
  unfold insufficient_data_warning, invalid_data_warning, calculation_error in H;
  discriminate H.

(** X14.  When the analysis succeeds, its strengths are measured values, not
    interpolations: the ultimate strength is one of the valid stress samples,
    the fracture strength is the last of them, the elongation at break is the
    last valid strain, and the yield strength is a valid stress sample or 0. *)
Theorem properties_are_samples (x : state) (valid : list bool) :
  Np.finite_mask (stress_data x) (strain_data x) = inr valid ->
  snd (calculate_material_properties linregress x) = [UpdateResultsDisplay] ->
  let stress := Np.select valid (stress_data x) in
  let strain := Np.select valid (strain_data x) in
  let x' := fst (calculate_material_properties linregress x) in
  In (ultimate_strength x') stress
  /\ (exists front, stress = front ++ [fracture_strength x'])
  /\ (exists front, strain = front ++ [elongation_at_break x'])
  /\ (yield_strength x' = 0%float \/ In (yield_strength x') stress).
Proof.
  intros M. rewrite calculate_by_outcome. unfold outcome. rewrite M.
  destruct ((List.length (stress_data x) <? 10)%nat
            || (List.length (strain_data x) <? 10)%nat);
    [not_a_success H|].
  cbn zeta.
  destruct (List.length (Np.select valid (stress_data x)) <? 5)%nat;
    [not_a_success H|].
  destruct (youngs_modulus_of linregress _ _) as [e|ym];
    [not_a_success H|].
  destruct (yield_strength_of ym _ _) as [e|ys] eqn:Hys;
    [not_a_success H|].
  destruct (Np.amax _) as [e|us] eqn:Hu; [not_a_success H|].
  destruct (Np.last (Np.select valid (stress_data x))) as [e|fs] eqn:Hf;
    [not_a_success H|].
  destruct (Np.last (Np.select valid (strain_data x))) as [e|el] eqn:Hl;
    [not_a_success H|].
  intros _. cbn.
  split; [now apply amax_is_sample|].
  split; [now apply last_is_sample|].
  split; [now apply last_is_sample|].
  eapply yield_is_sample. exact Hys.
Qed.

Lemma outcome_dialog_is_no_success (stress_data strain_data : list float)
      (dialog : Effect) :
  outcome linregress stress_data strain_data = inl dialog ->
  dialog <> UpdateResultsDisplay.
Proof.
  unfold outcome, insufficient_data_warning, invalid_data_warning,
    calculation_error.
  split_tests; intros H; try discriminate H; injection H as <-; discriminate.
Qed.

(** X15.  The analysis reads nothing but the two series: run a second time
    it does what it did the first time and leaves the plotter as the first
    run left it; and the properties of an earlier analysis never show in the
    result, a later success overwriting all five. *)
Theorem analysis_is_idempotent (x : state) :
  calculate_material_properties linregress
    (fst (calculate_material_properties linregress x))
  = calculate_material_properties linregress x
  /\ forall p,
       snd (calculate_material_properties linregress (with_properties p x))
       = snd (calculate_material_properties linregress x)
       /\ (snd (calculate_material_properties linregress x)
           = [UpdateResultsDisplay] ->
           fst (calculate_material_properties linregress (with_properties p x))
           = fst (calculate_material_properties linregress x)).
Proof.
  split.
  - rewrite (calculate_by_outcome x).
    destruct (outcome linregress (stress_data x) (strain_data x))
      as [dialog|[[[[ym ys] us] fs] el]] eqn:O; cbn [fst].
    + now rewrite calculate_by_outcome, O.
    + rewrite calculate_by_outcome. cbn. now rewrite O.
  - intros [[[[ym ys] us] fs] el].
    rewrite (calculate_by_outcome x), calculate_by_outcome. cbn.
    pose proof (outcome_dialog_is_no_success (stress_data x) (strain_data x))
      as D.
    destruct (outcome linregress (stress_data x) (strain_data x))
      as [dialog|[[[[ym' ys'] us'] fs'] el']]; cbn; split;
      try reflexivity.
    intros H. injection H as H. now apply (D dialog) in H.
Qed.

End AnalysisExtras.

Lemma properties_are_samples_witness :
  let x := MaterialTestPlotter.with_series [] [] []
             (map (fun e => PrimFloat.mul 200%float e) (AnalysisSpec.ramp 10))
             (AnalysisSpec.ramp 10) [] MaterialTestPlotter.init in
  Np.finite_mask (MaterialTestPlotter.stress_data x)
    (MaterialTestPlotter.strain_data x) = inr (repeat true 10)
  /\ snd (MaterialTestPlotter.calculate_material_properties
            AnalysisSpec.least_squares_slope x) = [UpdateResultsDisplay]
  /\ In (MaterialTestPlotter.ultimate_strength
           (fst (MaterialTestPlotter.calculate_material_properties
                   AnalysisSpec.least_squares_slope x)))
        (Np.select (repeat true 10) (MaterialTestPlotter.stress_data x)).
Proof.
  intros x.
  assert (H1 : Np.finite_mask (MaterialTestPlotter.stress_data x)
                 (MaterialTestPlotter.strain_data x) = inr (repeat true 10))
    by reflexivity.
  assert (H2 : snd (MaterialTestPlotter.calculate_material_properties
                      AnalysisSpec.least_squares_slope x)
               = [UpdateResultsDisplay]) by reflexivity.
  split; [exact H1|]. split; [exact H2|].
  exact (proj1 (properties_are_samples AnalysisSpec.least_squares_slope x
                  (repeat true 10) H1 H2)).
Defined.

(** ** NaN readings *)

Lemma nan_spec (x : float) : PrimFloat.is_nan x = true -> Prim2SF x = S754_nan.
Proof.
  unfold PrimFloat.is_nan. rewrite eqb_spec. unfold SFeqb, SFcompare.
  destruct (Prim2SF x) as [s|s| |s m e]; try reflexivity;
    try (destruct s; discriminate).
  rewrite Z.compare_refl.
  assert (H : Pos.compare_cont Eq m m = Eq) by apply Pos.compare_cont_refl.
  rewrite H. destruct s; discriminate.
Qed.

Lemma nan_never_below (x y : float) :
  PrimFloat.is_nan x = true ->
  PrimFloat.ltb x y = false /\ PrimFloat.ltb y x = false.
Proof.
  intros H. rewrite !ltb_spec, (nan_spec x H). unfold SFltb, SFcompare.
  now destruct (Prim2SF y).
Qed.

Lemma nan_abs (x : float) :
  PrimFloat.is_nan x = true -> PrimFloat.is_nan (PrimFloat.abs x) = true.
Proof.
  intros H. unfold PrimFloat.is_nan. rewrite eqb_spec, abs_spec, (nan_spec x H).
  reflexivity.
Qed.

(** X16.  The safety check never flags a NaN: a NaN load is no load
    violation and a NaN position is no position violation, so a check of two
    NaN readings returns True and calls no callback, whatever the limits. *)
Theorem nan_passes_safety_check (m : SafetyMonitor.state)
        (load position : float) :
  (PrimFloat.is_nan load = true ->
   SafetyMonitor.violations_of m load position
   = (if PrimFloat.ltb (SafetyMonitor.max_position m) position
      then [PositionExceededMaximum position (SafetyMonitor.max_position m)]
      else [])
     ++ (if PrimFloat.ltb position (SafetyMonitor.min_position m)
         then [PositionBelowMinimum position (SafetyMonitor.min_position m)]
         else []))
  /\ (PrimFloat.is_nan position = true ->
      SafetyMonitor.violations_of m load position
      = if PrimFloat.ltb (SafetyMonitor.max_load m) (PrimFloat.abs load)
        then [LoadExceededMaximum load (SafetyMonitor.max_load m)]
        else [])
  /\ (PrimFloat.is_nan load = true ->
      PrimFloat.is_nan position = true ->
      SafetyMonitor.check_safety_limits m load position = (true, [])).
Proof.
  assert (L : PrimFloat.is_nan load = true ->
              PrimFloat.ltb (SafetyMonitor.max_load m) (PrimFloat.abs load)
              = false).
  { intros Hl. now destruct (nan_never_below (PrimFloat.abs load)
                               (SafetyMonitor.max_load m) (nan_abs load Hl)). }
  assert (P : PrimFloat.is_nan position = true ->
              PrimFloat.ltb (SafetyMonitor.max_position m) position = false
              /\ PrimFloat.ltb position (SafetyMonitor.min_position m) = false).
  { intros Hp.
    destruct (nan_never_below position (SafetyMonitor.max_position m) Hp).
    destruct (nan_never_below position (SafetyMonitor.min_position m) Hp).
    now split. }
  unfold SafetyMonitor.check_safety_limits, SafetyMonitor.violations_of.
  split; [|split].
  - intros Hl. now rewrite (L Hl).
  - intros Hp. destruct (P Hp) as [-> ->]. cbn [app]. now rewrite app_nil_r.
  - intros Hl Hp. destruct (P Hp) as [-> ->]. now rewrite (L Hl).
Qed.

Section ValidateExtras.

Variable py_float : string -> option float.

(** X17.  [validate_numeric_input] accepts a text exactly when it parses to
    a number that is neither below the lower bound nor above the upper one,
    and it tests the lower bound first; a text that parses to NaN is
    accepted whatever the bounds. *)
Theorem validation_accepts_nan (value : string) (v : float)
        (min_val max_val : option float) :
  py_float value = Some v ->
  (PrimFloat.is_nan v = true ->
   Utils.validate_numeric_input py_float value min_val max_val = Utils.Valid v)
  /\ (forall m, min_val = Some m -> PrimFloat.ltb v m = true ->
      Utils.validate_numeric_input py_float value min_val max_val
      = Utils.MustBeAtLeast m)
  /\ (forall u,
         Utils.validate_numeric_input py_float value min_val max_val
         = Utils.Valid u ->
         u = v
         /\ (forall m, min_val = Some m -> PrimFloat.ltb v m = false)
         /\ (forall M, max_val = Some M -> PrimFloat.ltb M v = false))
  /\ ((forall m, min_val = Some m -> PrimFloat.ltb v m = false) ->
      (forall M, max_val = Some M -> PrimFloat.ltb M v = false) ->
      Utils.validate_numeric_input py_float value min_val max_val
      = Utils.Valid v).
Proof.
  intros Hv. unfold Utils.validate_numeric_input. rewrite Hv.
  split; [|split; [|split]].
  4: { intros Hm HM. destruct min_val as [m|], max_val as [M|];
         rewrite ?(Hm _ eq_refl), ?(HM _ eq_refl); reflexivity. }
  - intros Hn.
    destruct min_val as [m|], max_val as [M|]; try reflexivity.
    + destruct (nan_never_below v m Hn) as [-> _].
      now destruct (nan_never_below v M Hn) as [_ ->].
    + now destruct (nan_never_below v m Hn) as [-> _].
    + now destruct (nan_never_below v M Hn) as [_ ->].
  - intros m -> Hm. now rewrite Hm.
  - intros u. destruct min_val as [m|], max_val as [M|].
    all: repeat match goal with
                | |- context [if PrimFloat.ltb ?a ?b then _ else _] =>
                    destruct (PrimFloat.ltb a b) eqn:?
                end; intros H; try discriminate H; injection H as <-.
    all: split; [reflexivity|]; split; intros ? E; try discriminate E;
      injection E as <-; assumption.
Qed.

End ValidateExtras.

Lemma validation_accepts_nan_witness :
  let py_float := fun s : string =>
                    if (s =? "nan")%string then Some nan
                    else PlainLiteral.float_of_string s in
  py_float "nan" = Some nan
  /\ Utils.validate_numeric_input py_float "nan" (Some 1%float) (Some 200%float)
     = Utils.Valid nan.
Proof.
  intros py_float. split; [reflexivity|].
  exact (proj1 (validation_accepts_nan py_float "nan" nan (Some 1%float)
                  (Some 200%float) eq_refl) eq_refl).
Defined.

(** ** The data logger *)

Section Logger.

Import DataLogger DataLoggerRuns.

Lemma log_data_point_bounded (d : state) (p : DataPoint) :
  bounded d -> bounded (log_data_point d p).
Proof.
  unfold bounded, log_data_point. intros H.
  destruct (logging_active d); cbn [negb]; [|exact H].
  destruct (Z.ltb_spec (max_entries d)
                       (Z.of_nat (List.length (data_buffer d ++ [p]))))
    as [Hlt|Hge]; cbn [data_buffer max_entries].
  - unfold pop_first. rewrite length_app in Hlt. cbn in Hlt.
    destruct (data_buffer d) as [|x b]; cbn [app List.tl List.length] in *.
    + lia.
    + rewrite length_app. cbn. lia.
  - lia.
Qed.

(** X18.  The logger's buffer never holds more than [max_entries] points
    (none when that is negative): a new logger is within the bound, and
    starting, stopping and logging, in any order, keep it there. *)
Theorem logger_buffer_is_bounded (limit : Z) (ops : list Op) :
  bounded (run (init limit) ops)
  /\ forall d, bounded d -> bounded (run d ops).
Proof.
  assert (H : forall d, bounded d -> bounded (run d ops)).
  { unfold run. induction ops as [|op ops IH]; intros d B; [exact B|].
    cbn [fold_left]. apply IH. destruct op; cbn [apply].
    - unfold bounded. cbn. lia.
    - exact B.
    - now apply log_data_point_bounded. }
  split; [|exact H]. apply H. unfold bounded. cbn. lia.
Qed.

Lemma log_all_content (points : list DataPoint) (d : state) :
  logging_active d = true ->
  (0 <= max_entries d)%Z ->
  (List.length (data_buffer d) <= Z.to_nat (max_entries d))%nat ->
  let all := data_buffer d ++ points in
  data_buffer (log_all d points)
  = skipn (List.length all - Z.to_nat (max_entries d)) all
  /\ logging_active (log_all d points) = true
  /\ max_entries (log_all d points) = max_entries d.
Proof.
  unfold log_all. revert d.
  induction points as [|p points IH]; intros d A M B; cbn zeta.
  - cbn [fold_left]. rewrite app_nil_r.
    replace (List.length (data_buffer d) - Z.to_nat (max_entries d))%nat
      with 0%nat by lia.
    now repeat split.
  - cbn [fold_left]. unfold log_data_point at 2 4 6. rewrite A. cbn [negb].
    destruct (Z.ltb_spec (max_entries d)
                         (Z.of_nat (List.length (data_buffer d ++ [p]))))
      as [Hlt|Hge].
    + rewrite length_app in Hlt. cbn in Hlt.
      assert (E : List.length (data_buffer d) = Z.to_nat (max_entries d))
        by lia.
      destruct (data_buffer d ++ [p]) as [|x b] eqn:Eb.
      { now destruct (data_buffer d). }
      assert (Lb : List.length b = Z.to_nat (max_entries d)).
      { apply (f_equal (@List.length DataPoint)) in Eb.
        rewrite length_app in Eb. cbn in Eb. lia. }
      destruct (IH (mk (max_entries d) (pop_first (x :: b)) true) eq_refl M)
        as (I1 & I2 & I3).
      { cbn. lia. }
      cbn [data_buffer max_entries pop_first List.tl] in *.
      rewrite I1, I2, I3. repeat split.
      replace (data_buffer d ++ p :: points) with (x :: b ++ points)
        by (change (p :: points) with ([p] ++ points);
            now rewrite app_assoc, Eb).
      cbn [List.length].
      replace (S (List.length (b ++ points)) - Z.to_nat (max_entries d))%nat
        with (S (List.length (b ++ points) - Z.to_nat (max_entries d)))
        by (rewrite length_app; lia).
      reflexivity.
    + rewrite length_app in Hge. cbn in Hge.
      destruct (IH (mk (max_entries d) (data_buffer d ++ [p]) true) eq_refl M)
        as (I1 & I2 & I3).
      { cbn. rewrite length_app. cbn. lia. }
      cbn [data_buffer max_entries] in *.
      rewrite I1, I2, I3. repeat split.
      now rewrite <- app_assoc.
Qed.

(** X19.  After [start_logging], the buffer holds exactly the newest
    [max_entries] of the points logged since, oldest first (all of them
    while they are fewer); points logged while logging is stopped are
    dropped. *)
Theorem logger_keeps_newest_points (d : state) (points : list DataPoint) :
  (0 <= max_entries d)%Z ->
  data_buffer (log_all (start_logging d) points)
  = skipn (List.length points - Z.to_nat (max_entries d)) points
  /\ log_all (stop_logging d) points = stop_logging d.
Proof.
  intros M. split.
  - destruct (log_all_content points (start_logging d) eq_refl M)
      as (H & _); [cbn; lia|exact H].
  - unfold log_all. induction points as [|p points IH]; [reflexivity|].
    cbn [fold_left]. exact IH.
Qed.

Lemma logger_keeps_newest_points_witness :
  let p := fun t => {| timestamp := t; load := 0%float; position := 0%float;
                       state_label := "Opening" |} in
  (0 <= max_entries (init 2))%Z
  /\ data_buffer (log_all (start_logging (init 2))
                    [p 1%float; p 2%float; p 3%float])
     = [p 2%float; p 3%float].
Proof.
  intros p. split; [cbn; lia|].
  exact (proj1 (logger_keeps_newest_points (init 2)
                  [p 1%float; p 2%float; p 3%float] ltac:(cbn; lia))).
Defined.

End Logger.

(** ** The retry wrapper *)

Section RetryExtras.

Import Utils.

Variable A E : Type.

Lemma retry_loop_spec (remaining attempt : nat) (limit delay : Z)
      (func : nat -> E + A) :
  Z.of_nat (attempt + remaining) = limit ->
  (0 < remaining)%nat ->
  (forall j v,
      (j < remaining)%nat ->
      (forall k, (k < j)%nat -> exists e, func (attempt + k)%nat = inl e) ->
      func (attempt + j)%nat = inr v ->
      retry_loop A E remaining attempt limit delay func
      = (inr (Some v),
         flat_map (fun k => [Called k; Slept delay]) (seq attempt j)
         ++ [Called (attempt + j)]))
  /\ (forall e,
         (forall k, (k < remaining - 1)%nat ->
                    exists e', func (attempt + k)%nat = inl e') ->
         func (attempt + (remaining - 1))%nat = inl e ->
         retry_loop A E remaining attempt limit delay func
         = (inl e,
            flat_map (fun k => [Called k; Slept delay])
                     (seq attempt (remaining - 1))
            ++ [Called (attempt + (remaining - 1))])).
Proof.
  revert attempt. induction remaining as [|remaining IH]; intros attempt L R;
    [lia|].
  split.
  - intros j v Hj Hbefore Hv. cbn [retry_loop]. destruct j as [|j].
    + rewrite Nat.add_0_r in Hv. rewrite Hv. cbn. now rewrite Nat.add_0_r.
    + destruct (Hbefore 0%nat ltac:(lia)) as [e He].
      rewrite Nat.add_0_r in He. rewrite He.
      destruct (Z.eqb_spec (Z.of_nat attempt) (limit - 1)); [lia|].
      destruct (IH (S attempt) ltac:(lia) ltac:(lia)) as [I _].
      rewrite (I j v ltac:(lia)).
      * cbn. now rewrite Nat.add_succ_r.
      * intros k Hk. destruct (Hbefore (S k) ltac:(lia)) as [e' He'].
        exists e'. now rewrite Nat.add_succ_comm.
      * now rewrite Nat.add_succ_comm.
  - intros e Hbefore He. cbn [retry_loop]. destruct remaining as [|remaining].
    + cbn in He. rewrite Nat.add_0_r in He. rewrite He.
      destruct (Z.eqb_spec (Z.of_nat attempt) (limit - 1)); [|lia].
      cbn. now rewrite Nat.add_0_r.
    + destruct (Hbefore 0%nat ltac:(lia)) as [e0 He0].
      rewrite Nat.add_0_r in He0. rewrite He0.
      destruct (Z.eqb_spec (Z.of_nat attempt) (limit - 1)); [lia|].
      destruct (IH (S attempt) ltac:(lia) ltac:(lia)) as [_ I].
      replace (S (S remaining) - 1)%nat with (S (S remaining - 1)) in *
        by lia.
      rewrite (I e).
      * cbn [seq flat_map app]. now rewrite Nat.add_succ_r.
      * intros k Hk. destruct (Hbefore (S k) ltac:(lia)) as [e' He'].
        exists e'. now rewrite Nat.add_succ_comm.
      * rewrite Nat.add_succ_comm. exact He.
Qed.

(** X20.  The retry wrapper calls the function until it returns, at most
    [max_attempts] times, sleeping [delay] after every failed call but the
    last: it returns the value of the first call that succeeds, and when all
    [max_attempts] calls raise it raises the exception of the last one.
    With [max_attempts] zero or negative it returns None without calling the
    function at all. *)
Theorem retry_stops_at_first_success
        (max_attempts delay : Z) (func : nat -> E + A) :
  (forall j v,
      (Z.of_nat j < max_attempts)%Z ->
      (forall k, (k < j)%nat -> exists e, func k = inl e) ->
      func j = inr v ->
      let r := retry_on_exception A E max_attempts delay func in
      fst r = inr (Some v)
      /\ calls (snd r) = seq 0 (S j)
      /\ sleeps (snd r) = repeat delay j)
  /\ (forall e,
         (0 < max_attempts)%Z ->
         (forall k, (Z.of_nat k < max_attempts - 1)%Z ->
                    exists e', func k = inl e') ->
         func (Z.to_nat (max_attempts - 1)) = inl e ->
         let r := retry_on_exception A E max_attempts delay func in
         fst r = inl e
         /\ calls (snd r) = seq 0 (Z.to_nat max_attempts)
         /\ sleeps (snd r) = repeat delay (Z.to_nat (max_attempts - 1)))
  /\ ((max_attempts <= 0)%Z ->
      retry_on_exception A E max_attempts delay func = (inr None, [])).
Proof.
  assert (C : forall a n,
             calls (flat_map (fun k => [Called k; Slept delay]) (seq a n)
                    ++ [Called (a + n)]) = seq a (S n)
             /\ sleeps (flat_map (fun k => [Called k; Slept delay]) (seq a n)
                        ++ [Called (a + n)]) = repeat delay n).
  { intros a n. revert a. induction n as [|n IH]; intros a.
    - cbn. now rewrite Nat.add_0_r.
    - destruct (IH (S a)) as [I1 I2]. cbn [seq flat_map].
      unfold calls, sleeps in *. cbn [app flat_map repeat].
      rewrite Nat.add_succ_comm in I1, I2. rewrite I1, I2. now split. }
  unfold retry_on_exception. split; [|split].
  - intros j v Hj Hbefore Hv.
    destruct (retry_loop_spec (Z.to_nat max_attempts) 0 max_attempts delay func)
      as [S _]; [lia|lia|].
    cbn zeta. rewrite (S j v); [|lia|exact Hbefore|exact Hv].
    cbn [fst snd]. destruct (C 0%nat j). now repeat split.
  - intros e Hm Hbefore He.
    destruct (retry_loop_spec (Z.to_nat max_attempts) 0 max_attempts delay func)
      as [_ F]; [lia|lia|].
    replace (Z.to_nat (max_attempts - 1)) with (Z.to_nat max_attempts - 1)%nat
      in * by lia.
    cbn zeta. rewrite (F e); [|intros k Hk; apply Hbefore; lia|exact He].
    cbn [fst snd]. destruct (C 0%nat (Z.to_nat max_attempts - 1)%nat) as [C1 C2].
    rewrite C1, C2.
    replace (S (Z.to_nat max_attempts - 1)) with (Z.to_nat max_attempts) by lia.
    now repeat split.
  - intros Hm. now replace (Z.to_nat max_attempts) with 0%nat by lia.
Qed.

End RetryExtras.

Lemma retry_stops_at_first_success_witness :
  let func := fun k : nat =>
    if Nat.eqb k 2 then inr 7%Z else (inl "timeout" : string + Z) in
  Utils.retry_on_exception Z string 3 5 func
  = (inr (Some 7%Z),
     [Utils.Called 0; Utils.Slept 5; Utils.Called 1; Utils.Slept 5;
      Utils.Called 2])
  /\ fst (Utils.retry_on_exception Z string 3 5 func) = inr (Some 7%Z)
  /\ Utils.sleeps (snd (Utils.retry_on_exception Z string 3 5 func))
     = [5%Z; 5%Z].
Proof.
  intros func. split; [reflexivity|].
  assert (B : forall k, (k < 2)%nat -> exists e, func k = inl e).
  { intros k Hk. exists "timeout".
    destruct k as [|[|k]]; [reflexivity|reflexivity|lia]. }
  pose proof (proj1 (retry_stops_at_first_success Z string 3 5 func)
                2%nat 7%Z ltac:(lia) B eq_refl) as H.
  cbv zeta in H. destruct H as (H1 & _ & H3).
  split; [exact H1|exact H3].
Defined.

(** ** The port filter *)

Section Ports.

Import Utils.

(** X21.  The port filter never hides every port: it returns the ports whose
    description names an Arduino-like adapter, in their order, and all the
    ports when none does, so its result is empty only for an empty list; it
    invents no port, and filtering twice changes nothing. *)
Theorem port_filter_never_hides_every_port (ports : list Port) :
  (ports <> [] -> filter_arduino_ports ports <> [])
  /\ (forall p, In p (filter_arduino_ports ports) -> In p ports)
  /\ ((exists p, In p ports /\ looks_like_arduino p = true) ->
      filter_arduino_ports ports = filter looks_like_arduino ports)
  /\ ((forall p, In p ports -> looks_like_arduino p = false) ->
      filter_arduino_ports ports = ports)
  /\ filter_arduino_ports (filter_arduino_ports ports)
     = filter_arduino_ports ports.
Proof.
  unfold filter_arduino_ports.
  destruct (filter looks_like_arduino ports) as [|q qs] eqn:F.
  - split; [tauto|]. split; [tauto|]. split; [|split].
    + intros (p & Hin & Hp).
      assert (I : In p (filter looks_like_arduino ports))
        by (apply filter_In; now split).
      rewrite F in I. destruct I.
    + reflexivity.
    + now rewrite F.
  - split; [discriminate|]. split; [|split; [|split]].
    + intros p Hin. rewrite <- F in Hin. now apply filter_In in Hin.
    + reflexivity.
    + intros Hnone.
      assert (I : In q (filter looks_like_arduino ports))
        by (rewrite F; now left).
      apply filter_In in I. destruct I as [I1 I2].
      rewrite (Hnone q I1) in I2. discriminate.
    + assert (E : filter looks_like_arduino (q :: qs) = q :: qs).
      { rewrite <- F. clear F.
        induction ports as [|p ports IH]; [reflexivity|].
        cbn [filter]. destruct (looks_like_arduino p) eqn:Ep; [|exact IH].
        cbn [filter]. now rewrite Ep, IH. }
      now rewrite E.
Qed.

End Ports.

(** ** The tables of config.py and the controller *)

Section Tables.

Import UTMController Connectivity UTMConfigTables.

(** X22.  The button and command tables of config.py agree with the
    controller, which does not read them: a code that the button table does
    not name makes [handle_pcb_button] do nothing, and for a code it names,
    the command table gives that name the very text that the controller
    writes, on a connected machine, for that button. *)
Theorem button_table_matches_controller (c : state) (code : string) :
  connected_for_real c ->
  match get_pcb_button_name code with
  | Some name =>
      exists text,
        get_command_code name = Some text
        /\ transport_writes
             (snd (handle_pcb_button SerialHandler.WriteOk c code))
           = [TransportWrite (text ++ String Py.newline "")]
  | None =>
      forall w, handle_pcb_button w c code = (c, [])
  end.
Proof.
  intros [H1 H2].
  unfold get_pcb_button_name, PCB_BUTTONS, handle_pcb_button.
  cbn [PyText.dict_get].
  rewrite (String.eqb_sym "1" code), (String.eqb_sym "2" code),
    (String.eqb_sym "3" code), (String.eqb_sym "4" code).
  destruct (code =? "1")%string;
    [|destruct (code =? "2")%string;
      [|destruct (code =? "3")%string;
        [|destruct (code =? "4")%string; [|reflexivity]]]].
  - exists "1". split; [reflexivity|].
    unfold open_command, send, SerialHandler.send_command.
    rewrite H1, H2. reflexivity.
  - exists "2". split; [reflexivity|].
    unfold close_command, send, SerialHandler.send_command.
    rewrite H1, H2. reflexivity.
  - exists "0". split; [reflexivity|].
    unfold stop_command, send, SerialHandler.send_command.
    rewrite H1, H2. reflexivity.
  - exists "Z". split; [reflexivity|].
    unfold zero_command, send, SerialHandler.send_command.
    rewrite H1, H2. reflexivity.
Qed.

Lemma button_table_matches_controller_witness :
  connected_for_real ReconnectSpec.connected_controller
  /\ get_pcb_button_name "3" = Some "STOP"
  /\ exists text,
       get_command_code "STOP" = Some text
       /\ transport_writes
            (snd (handle_pcb_button SerialHandler.WriteOk
                    ReconnectSpec.connected_controller "3"))
          = [TransportWrite (text ++ String Py.newline "")].
Proof.
  assert (H : connected_for_real ReconnectSpec.connected_controller)
    by (split; reflexivity).
  split; [exact H|]. split; [reflexivity|].
  exact (button_table_matches_controller
           ReconnectSpec.connected_controller "3" H).
Defined.

End Tables.

(** ** Witnesses of the reconnection loop and of the connection flag *)

Lemma reconnection_stops_at_first_success_witness :
  let envs := fun k : nat =>
    {| SerialHandler.open_outcome :=
         if Nat.eqb k 1 then SerialHandler.OpenReturns true
         else SerialHandler.OpenRaises;
       SerialHandler.close_raises := false |} in
  let h := UTMController.serial_handler
             (fst (ReconnectSpec.connection_failure
                     ReconnectSpec.connected_controller)) in
  SerialHandler.connected h = false
  /\ List.length
       (open_attempts (snd (SerialHandler.reconnect_loop 3 envs h "COM3")))
     = 2%nat
  /\ SerialHandler.is_connected
       (fst (SerialHandler.reconnect_loop 3 envs h "COM3")) = true.
Proof.
  intros envs h.
  assert (C : SerialHandler.connected h = false) by reflexivity.
  assert (F : forall k, (1 < k < 3)%nat -> ReconnectSpec.fails (envs k)).
  { intros k Hk. assert (E : k = 2%nat) by lia. subst k.
    unfold ReconnectSpec.fails. cbn. discriminate. }
  pose proof (reconnection_stops_at_first_success 3 1 envs h "COM3"
                ltac:(lia) C F eq_refl) as H.
  cbv zeta in H. destruct H as (H1 & _ & H3 & _).
  split; [exact C|]. split; [exact H1|exact H3].
Defined.

Lemma connection_flag_mirrors_handler_witness :
  let opens := {| SerialHandler.open_outcome := SerialHandler.OpenReturns true;
                  SerialHandler.close_raises := false |} in
  let evs := [Session.Connect "COM3" opens;
              Session.Issue Session.Open SerialHandler.WriteRaises;
              Session.ReconnectTurn ReconnectSpec.unplugged;
              Session.Disconnect false] in
  let c' := fst (fst (Interleavings.overtaken_connect_serial
                        UTMController.init "COM3")) in
  Connectivity.in_step UTMController.init
  /\ Connectivity.in_step
       (Session.controller
          (fst (Session.run PlainLiteral.float_of_string
                  PlainLiteral.int_of_string
                  (Session.mk UTMController.init 0) evs)))
  /\ UTMController.is_connected c' = true
  /\ SerialHandler.connected (UTMController.serial_handler c') = false.
Proof.
  intros opens evs c'.
  assert (H : Connectivity.in_step UTMController.init)
    by (split; reflexivity).
  pose proof (connection_flag_mirrors_handler PlainLiteral.float_of_string
                PlainLiteral.int_of_string) as (T1 & _ & T3).
  split; [exact H|].
  split; [exact (T1 evs (Session.mk UTMController.init 0) H eq_refl)|].
  pose proof (T3 UTMController.init "COM3" H eq_refl) as T. cbv zeta in T.
  destruct T as (_ & T2 & _ & T4 & _).
  split; [exact T2|exact T4].
Defined.

(** ** Frames and samples *)

Section Samples.

Import UTMController Connectivity.

Lemma callbacks_same_readings (t : list Effect) (c : state) :
  same_readings c (run_connection_callbacks t c).
Proof.
  revert c. induction t as [|e t IH]; intros c; [now repeat split|].
  destruct e; cbn [run_connection_callbacks]; try apply IH.
  destruct (IH (handle_connection_change c connected)) as (I1 & I2 & I3).
  unfold same_readings. rewrite I1, I2, I3.
  unfold handle_connection_change. now destruct connected.
Qed.

Lemma send_same_readings (w : SerialHandler.WriteOutcome) (c : state)
      (s : string) :
  same_readings c (fst (fst (send w c s))).
Proof.
  unfold send. destruct (SerialHandler.send_command _ _ _) as [[h ok] t].
  exact (callbacks_same_readings t (with_serial_handler h c)).
Qed.

Lemma pcb_button_same_readings (w : SerialHandler.WriteOutcome) (c : state)
      (code : string) :
  same_readings c (fst (handle_pcb_button w c code)).
Proof.
  assert (Hs : forall s, same_readings c (fst (fst (send w c s))))
    by (intros s; apply send_same_readings).
  assert (R : same_readings c c) by now repeat split.
  unfold handle_pcb_button, open_command, close_command, stop_command,
    zero_command.
  repeat match goal with
         | |- context [send w c ?s] =>
             let Hx := fresh in
             pose proof (Hs s) as Hx;
             destruct (send w c s) as [[? ?] ?]; cbn [fst snd] in Hx
         end.
  split_tests; cbn [fst snd]; assumption.
Qed.

Section Frames.

Variable py_float : string -> option float.
Variable py_int : string -> option Z.

Lemma dispatch_readings (w : SerialHandler.WriteOutcome) (c : state)
      (data : string) :
  let d := dispatch py_float py_int w c data in
  let c1 := fst (fst d) in
  graph_plotter c1 = graph_plotter c
  /\ (Py.startswith data "LOAD:" = false -> load_value c1 = load_value c)
  /\ (Py.startswith data "POS:" = false ->
      position_value c1 = position_value c)
  /\ (forall e, snd d = Some e -> d = (c, [], Some e)).
Proof.
  cbv zeta. unfold dispatch.
  assert (R : forall (c1 : state) (t : list Effect) (r : option Py.Raised),
             same_readings c c1 ->
             (forall e, r = Some e -> (c1, t) = (c, [])) ->
             graph_plotter (fst (fst (c1, t, r))) = graph_plotter c
             /\ (Py.startswith data "LOAD:" = false ->
                 load_value (fst (fst (c1, t, r))) = load_value c)
             /\ (Py.startswith data "POS:" = false ->
                 position_value (fst (fst (c1, t, r))) = position_value c)
             /\ (forall e, snd (c1, t, r) = Some e ->
                           (c1, t, r) = (c, [], Some e))).
  { intros c1 t r (S1 & S2 & S3) E. cbn [fst snd].
    repeat split; try assumption; try (intros; assumption).
    intros e He. subst r. now rewrite (E e eq_refl). }
  assert (Same : same_readings c c) by now repeat split.
  destruct (Py.startswith data "LOAD:") eqn:L.
  { destruct (payload data) as [e|s]; [now apply R|].
    destruct (py_float s); [|now apply R].
    cbn [fst snd]. repeat split; try discriminate. }
  destruct (Py.startswith data "POS:") eqn:Q.
  { destruct (payload data) as [e|s]; [now apply R|].
    destruct (py_float s); [|now apply R].
    cbn [fst snd]. repeat split; try discriminate. }
  destruct (Py.startswith data "STATE:").
  { destruct (payload data) as [e|s]; [now apply R|].
    apply R; [now repeat split|discriminate]. }
  destruct (Py.startswith data "BTN:").
  { destruct (payload data) as [e|s]; [now apply R|].
    pose proof (pcb_button_same_readings w c s) as B.
    destruct (handle_pcb_button w c s). apply R; [exact B|discriminate]. }
  destruct (Py.startswith data "SPEED:").
  { destruct (payload data) as [e|s]; [now apply R|].
    destruct (py_int s); [|now apply R].
    apply R; [exact Same|discriminate]. }
  apply R; [exact Same|discriminate].
Qed.

(** X8.  A button frame does what the matching intent does, after the
    highlight of the button, and then what every frame does: buttons 1, 2, 3
    and 4 stand for Open, Close, Stop and Zero, any other code runs no
    command; in either case [handle_serial_data] goes on to refresh the two
    displays with the readings on record, which the command has not
    touched, and in recording mode to record them once more as a sample. *)
Theorem button_frames_are_intents
        (w : SerialHandler.WriteOutcome) (now : float) (c : state)
        (code : string) :
  Py.contains Py.colon code = false ->
  let pressed :=
    match button_intent code with
    | Some cmd =>
        (fst (Session.issue w c cmd),
         HighlightButton code :: snd (Session.issue w c cmd))
    | None => (c, [])
    end in
  let r := handle_serial_data py_float py_int w now c ("BTN:" ++ code) in
  let c' := fst (fst r) in
  dispatch py_float py_int w c ("BTN:" ++ code)
  = (fst pressed, snd pressed, None)
  /\ snd r = None
  /\ snd (fst r)
     = snd pressed ++ [UpdateLoadDisplay (load_value c);
                       UpdatePositionDisplay (position_value c)]
  /\ machine_state c' = machine_state (fst pressed)
  /\ is_connected c' = is_connected (fst pressed)
  /\ serial_handler c' = serial_handler (fst pressed)
  /\ load_value c' = load_value c
  /\ position_value c' = position_value c
  /\ graph_plotter c'
     = (if MaterialTestPlotter.is_plotting (graph_plotter c)
        then fst (MaterialTestPlotter.add_data_point (graph_plotter c) now
                    (load_value c) (position_value c))
        else graph_plotter c).
Proof.
  intros H. cbv zeta.
  assert (D : dispatch py_float py_int w c ("BTN:" ++ code)
              = (fst (handle_pcb_button w c code),
                 snd (handle_pcb_button w c code), None))
    by (rewrite dispatch_button; now rewrite (first_field_whole code H)).
  assert (P : handle_pcb_button w c code
              = match button_intent code with
                | Some cmd =>
                    (fst (Session.issue w c cmd),
                     HighlightButton code :: snd (Session.issue w c cmd))
                | None => (c, [])
                end).
  { unfold handle_pcb_button, button_intent.
    destruct (code =? "1")%string;
      [cbn [Session.issue]; now destruct (open_command w c)|].
    destruct (code =? "2")%string;
      [cbn [Session.issue]; now destruct (close_command w c)|].
    destruct (code =? "3")%string;
      [cbn [Session.issue]; now destruct (stop_command w c)|].
    destruct (code =? "4")%string;
      [cbn [Session.issue]; now destruct (zero_command w c)|].
    reflexivity. }
  destruct (pcb_button_same_readings w c code) as (B1 & B2 & B3).
  rewrite P in D, B1, B2, B3.
  set (pressed := match button_intent code with
                  | Some cmd => _
                  | None => _
                  end) in *.
  split; [exact D|].
  unfold handle_serial_data. rewrite D, B1, B2, B3.
  destruct (MaterialTestPlotter.is_plotting (graph_plotter c)).
  - pose proof (add_data_point_never_raises (graph_plotter c) now
                  (load_value c) (position_value c)) as R.
    destruct (MaterialTestPlotter.add_data_point _ _ _ _) as [g e].
    cbn [fst snd] in *. now repeat split.
  - cbn [fst snd]. now repeat split.
Qed.

(** X23.  While the plotter records, every frame that [handle_serial_data]
    gets through without an exception refreshes the two displays and appends
    exactly one sample, stamped with the time of the call and carrying the
    controller's load and position after the frame: a frame that is no load
    reading repeats the load on record, and one that is no position reading
    the position on record, so state, button, speed and unrecognised frames
    record the last readings once more.  A frame on which the dispatcher
    raises changes nothing: no display is refreshed and no sample
    recorded. *)
Theorem every_frame_records_a_sample
        (w : SerialHandler.WriteOutcome) (now : float) (c : state)
        (data : string) :
  MaterialTestPlotter.is_plotting (graph_plotter c) = true ->
  let d := dispatch py_float py_int w c data in
  let r := handle_serial_data py_float py_int w now c data in
  let c' := fst (fst r) in
  let g := graph_plotter c in
  let g' := graph_plotter c' in
  match snd d with
  | Some e => r = (c, [], Some e)
  | None =>
      snd r = None
      /\ snd (fst r)
         = snd (fst d) ++ [UpdateLoadDisplay (load_value c');
                           UpdatePositionDisplay (position_value c')]
      /\ MaterialTestPlotter.time_data g'
         = MaterialTestPlotter.time_data g ++ [now]
      /\ MaterialTestPlotter.load_data g'
         = MaterialTestPlotter.load_data g ++ [load_value c']
      /\ MaterialTestPlotter.position_data g'
         = MaterialTestPlotter.position_data g ++ [position_value c']
      /\ (Py.startswith data "LOAD:" = false -> load_value c' = load_value c)
      /\ (Py.startswith data "POS:" = false ->
          position_value c' = position_value c)
  end.
Proof.
  intros P. cbv zeta. unfold handle_serial_data.
  destruct (dispatch_readings w c data) as (D1 & D2 & D3 & D4).
  destruct (dispatch py_float py_int w c data) as [[c1 t] [e|]];
    cbn [fst snd] in *.
  - exact (D4 e eq_refl).
  - rewrite D1, P.
    destruct (add_data_point_appends (graph_plotter c) now (load_value c1)
                (position_value c1) P) as (stress & strain & A).
    rewrite A. cbn. repeat split; assumption.
Qed.

End Frames.

End Samples.

Lemma every_frame_records_a_sample_witness :
  let c := UTMController.with_graph_plotter
             (MaterialTestPlotter.start_plotting 1%float 25%float
                MaterialTestPlotter.init)
             (UTMController.with_load_value 12.5%float
                ReconnectSpec.connected_controller) in
  let r := UTMController.handle_serial_data PlainLiteral.float_of_string
             PlainLiteral.int_of_string SerialHandler.WriteOk 3%float c
             "STATE:Opening" in
  MaterialTestPlotter.is_plotting (UTMController.graph_plotter c) = true
  /\ MaterialTestPlotter.load_data
       (UTMController.graph_plotter (fst (fst r))) = [12.5%float]
  /\ MaterialTestPlotter.time_data
       (UTMController.graph_plotter (fst (fst r))) = [3%float].
Proof.
  intros c r.
  assert (P : MaterialTestPlotter.is_plotting (UTMController.graph_plotter c)
              = true) by reflexivity.
  split; [exact P|].
  pose proof (every_frame_records_a_sample PlainLiteral.float_of_string
                PlainLiteral.int_of_string SerialHandler.WriteOk 3%float c
                "STATE:Opening" P) as H.
  cbv zeta in H.
  change (snd (UTMController.dispatch PlainLiteral.float_of_string
                 PlainLiteral.int_of_string SerialHandler.WriteOk c
                 "STATE:Opening")) with (@None Py.Raised) in H.
  cbv beta iota in H.
  destruct H as (_ & _ & H3 & H4 & _ & H6 & _).
  split; [|exact H3].
  unfold r. rewrite H4, (H6 eq_refl). reflexivity.
Defined.

Lemma button_frames_are_intents_witness :
  let r := UTMController.handle_serial_data PlainLiteral.float_of_string
             PlainLiteral.int_of_string SerialHandler.WriteOk 0%float
             ReconnectSpec.connected_controller "BTN:3" in
  Py.contains Py.colon "3" = false
  /\ snd (fst r)
     = HighlightButton "3"
       :: snd (Session.issue SerialHandler.WriteOk
                 ReconnectSpec.connected_controller Session.Stop)
       ++ [UpdateLoadDisplay 0%float; UpdatePositionDisplay 0%float]
  /\ UTMController.machine_state (fst (fst r)) = "Stopped".
Proof.
  intros r.
  pose proof (button_frames_are_intents PlainLiteral.float_of_string
                PlainLiteral.int_of_string SerialHandler.WriteOk 0%float
                ReconnectSpec.connected_controller "3" eq_refl) as T.
  cbv zeta in T. destruct T as (_ & _ & T3 & T4 & _).
  split; [reflexivity|]. split; [exact T3|].
  refine (eq_trans T4 _). reflexivity.
Defined.

(** ** The two readers of the port *)

Section Readers.

Import UTMController Connectivity.

Variable py_float : string -> option float.
Variable py_int : string -> option Z.

(** X24.  The monitor thread and the read thread read the same port, and a
    line that the monitor thread reads is lost: its turn returns the line to
    a caller that drops it, calls no callback and leaves the controller
    untouched, whereas the read thread hands the same line, stripped, to the
    data callback. *)
Theorem monitor_thread_swallows_lines
        (pending : nat) (c : state) (raw : string)
        (w : SerialHandler.WriteOutcome) (now : float) :
  SerialHandler.is_connected (serial_handler c) = true ->
  SerialHandler.running (serial_handler c) = true ->
  SerialHandler.data_callback (serial_handler c) = true ->
  Py.truthy (Py.strip raw) = true ->
  Session.turn py_float py_int pending c
    (Session.MonitorTurn (SerialHandler.LineRead raw)) = (c, [])
  /\ In (DataCallback (Py.strip raw))
        (snd (Session.turn py_float py_int pending c
                (Session.ReadTurn (SerialHandler.LineRead raw) w now))).
Proof.
  intros C R D T. split.
  - cbn [Session.turn]. unfold serial_monitor_turn, SerialHandler.read_data.
    rewrite C. cbn. now destruct c.
  - cbn [Session.turn]. rewrite R.
    pose proof (process_received_data_spec (serial_handler c) (Py.strip raw) D)
      as P. cbv zeta in P.
    unfold SerialHandler._read_loop_turn. rewrite T, P.
    unfold SerialHandler.is_connected in C.
    destruct (SerialHandler.connected (serial_handler c)); [|discriminate C].
    destruct (SerialHandler.connection (serial_handler c)) as [[[|]]|];
      try discriminate C.
    cbn [andb].
    destruct (Session.run_data_callbacks _ _ _ _ _ _) as [c2 t2].
    cbn [snd]. apply in_or_app. left. apply in_or_app. left.
    rewrite T, map_app. apply in_or_app. right. now left.
Qed.

End Readers.

Lemma monitor_thread_swallows_lines_witness :
  let raw := ("LOAD:12.5" ++ String Py.newline "")%string in
  Py.truthy (Py.strip raw) = true
  /\ Session.turn PlainLiteral.float_of_string PlainLiteral.int_of_string 0
       ReconnectSpec.connected_controller
       (Session.MonitorTurn (SerialHandler.LineRead raw))
     = (ReconnectSpec.connected_controller, []).
Proof.
  intros raw. split; [reflexivity|].
  exact (proj1 (monitor_thread_swallows_lines PlainLiteral.float_of_string
                  PlainLiteral.int_of_string 0
                  ReconnectSpec.connected_controller raw
                  SerialHandler.WriteOk 0%float
                  eq_refl eq_refl eq_refl eq_refl)).
Defined.
